(** * LinkedinPosts: the image-generation clients and their launchers

    A shallow embedding of [streamlit_app.py], [image_masking_streamlit.py],
    [run_image_generator.py] and [mask_runner.py].

    Conventions.
    - A Python [bytes] value is a [list byte]; a Python [str] is a [string]
      holding its UTF-8 encoding, so [bytes.decode("utf-8")] is a validity
      check and [str.encode("ascii")] a range check.
    - Code that raises runs in the monad [Py]: a computation takes the
      process state and returns an [outcome] (a value or a raised exception)
      with the new state.  [try_finally] and [try_except] follow Python's
      rules for the two statements.
    - What the program cannot decide itself (the remote API, the names drawn
      by [tempfile], what the operating system refuses, which bytes the page
      can show as an image) is an oracle in the record [World]. *)

From Stdlib Require Import ZArith NArith Strings.Byte Ascii String List Bool Lia.
From Stdlib Require Import DecimalString.
From stdpp Require Import gmap strings list fin_maps.
Import ListNotations.
Local Open Scope string_scope.
Local Open Scope list_scope.

(** ** Python values and exceptions *)

Abbreviation bytes := (list byte).

Inductive exn_class :=
| ImportError | OSError | FileExistsError | FileNotFoundError | PermissionError
| ValueError | TypeError | BinasciiError | UnicodeDecodeError | APIError
| RuntimeError | UnidentifiedImageError.

(** [KeyboardInterrupt] and [SystemExit] derive from [BaseException] only;
    every class of [exn_class] derives from [Exception]. *)
Inductive exn :=
| Exc (cls : exn_class) (msg : string)
| KeyboardInterrupt
| SystemExit (code : Z).

Definition is_Exception (e : exn) : bool :=
  match e with Exc _ _ => true | _ => false end.

Definition is_ImportError (e : exn) : bool :=
  match e with Exc ImportError _ => true | _ => false end.

Definition is_FileExistsError (e : exn) : bool :=
  match e with Exc FileExistsError _ => true | _ => false end.

(** [str(e)] *)
Definition str_exn (e : exn) : string :=
  match e with
  | Exc _ msg => msg
  | KeyboardInterrupt => ""
  | SystemExit code => NilEmpty.string_of_int (Z.to_int code)
  end.

Inductive outcome (A : Type) :=
| Ret (a : A)
| Raise (e : exn).
Arguments Ret {A} a.
Arguments Raise {A} e.

(** ** The monad of Python statements over a state [S] *)

Module PyMonad.
Section Monad.
Context {S : Type}.

Definition Py (A : Type) : Type := S -> outcome A * S.

Definition ret {A} (a : A) : Py A := fun s => (Ret a, s).
Definition raise {A} (e : exn) : Py A := fun s => (Raise e, s).

Definition bind {A B} (c : Py A) (k : A -> Py B) : Py B :=
  fun s => match c s with
           | (Ret a, s') => k a s'
           | (Raise e, s') => (Raise e, s')
           end.

Definition get : Py S := fun s => (Ret s, s).
Definition modify (f : S -> S) : Py unit := fun s => (Ret tt, f s).

(** [lift_outcome o]: a pure step that may raise. *)
Definition lift_outcome {A} (o : outcome A) : Py A := fun s => (o, s).

(** [try: body finally: fin].  The finaliser always runs; when it raises,
    its exception replaces the body's result, otherwise the body's result
    (value or exception) stands. *)
Definition try_finally {A} (body : Py A) (fin : Py unit) : Py A :=
  fun s => match body s with
           | (r, s') => match fin s' with
                        | (Ret _, s'') => (r, s'')
                        | (Raise e, s'') => (Raise e, s'')
                        end
           end.

(** [try: body except ...]: [clauses e] is the handler of the first
    [except] clause that matches [e], [None] when no clause does.  An
    exception raised inside a handler is not offered to the other
    clauses. *)
Definition try_except {A} (body : Py A) (clauses : exn -> option (Py A)) : Py A :=
  fun s => match body s with
           | (Ret a, s') => (Ret a, s')
           | (Raise e, s') =>
               match clauses e with
               | Some handler => handler s'
               | None => (Raise e, s')
               end
           end.

(** [for x in xs: body x] *)
Fixpoint for_each {A} (xs : list A) (body : A -> Py unit) : Py unit :=
  match xs with
  | [] => ret tt
  | x :: xs' => bind (body x) (fun _ => for_each xs' body)
  end.
End Monad.
Arguments Py : clear implicits.
End PyMonad.
Import PyMonad.

Declare Scope py_scope.
Delimit Scope py_scope with py.
Notation "'let*' x ':=' c 'in' k" := (bind c (fun x => k))
  (at level 10, x name, c at level 200, k at level 200) : py_scope.
Notation "c ';;' k" := (bind c (fun _ => k))
  (at level 100, k at level 200, right associativity) : py_scope.

(** ** [base64] and the codecs of the standard library *)

Module Base64.
Local Open Scope N_scope.

Definition alphabet : string :=
  "ABCDEFGHIJKLMNOPQRSTUVWXYZabcdefghijklmnopqrstuvwxyz0123456789+/".

Definition BASE64_PAD : byte := "=".

(** An [unsigned char] assignment: the value modulo 256. *)
Definition u8 (n : N) : byte :=
  match Byte.of_N (n mod 256) with Some b => b | None => x00 end.

(** [table_b2a_base64[n]] *)
Definition table_b2a_base64 (n : N) : byte :=
  nth (N.to_nat n) (list_byte_of_string alphabet) BASE64_PAD.

(** [table_a2b_base64[c]]: the six-bit value of an alphabet character,
    [None] for every other byte. *)
Definition table_a2b_base64 (c : byte) : option N :=
  let n := Byte.to_N c in
  if (65 <=? n) && (n <=? 90) then Some (n - 65)
  else if (97 <=? n) && (n <=? 122) then Some (n - 71)
  else if (48 <=? n) && (n <=? 57) then Some (n + 4)
  else if n =? 43 then Some 62
  else if n =? 47 then Some 63
  else None.

(** [binascii.b2a_base64(data, newline=False)], which is what
    [base64.b64encode] returns. *)
Fixpoint b64encode (data : bytes) : bytes :=
  match data with
  | [] => []
  | [b0] =>
      let n0 := Byte.to_N b0 in
      [ table_b2a_base64 (N.shiftr n0 2);
        table_b2a_base64 (N.shiftl (N.land n0 3) 4);
        BASE64_PAD; BASE64_PAD ]
  | [b0; b1] =>
      let n0 := Byte.to_N b0 in
      let n1 := Byte.to_N b1 in
      [ table_b2a_base64 (N.shiftr n0 2);
        table_b2a_base64 (N.lor (N.shiftl (N.land n0 3) 4) (N.shiftr n1 4));
        table_b2a_base64 (N.shiftl (N.land n1 15) 2);
        BASE64_PAD ]
  | b0 :: b1 :: b2 :: rest =>
      let n0 := Byte.to_N b0 in
      let n1 := Byte.to_N b1 in
      let n2 := Byte.to_N b2 in
      table_b2a_base64 (N.shiftr n0 2)
      :: table_b2a_base64 (N.lor (N.shiftl (N.land n0 3) 4) (N.shiftr n1 4))
      :: table_b2a_base64 (N.lor (N.shiftl (N.land n1 15) 2) (N.shiftr n2 6))
      :: table_b2a_base64 (N.land n2 63)
      :: b64encode rest
  end.

(** The two messages of [binascii.Error] after the loop: one data
    character too many for whole quads, counted from the bytes decoded so
    far, or a quad left unfinished. *)
Definition excess_data_character (bin_data : bytes) : exn :=
  Exc BinasciiError
    ("Invalid base64-encoded string: number of data characters ("
     +:+ NilEmpty.string_of_uint (Nat.to_uint (length bin_data / 3 * 4 + 1)%nat)
     +:+ ") cannot be 1 more than a multiple of 4").

Definition incorrect_padding : exn := Exc BinasciiError "Incorrect padding".

(** [binascii.a2b_base64(data)] with [strict_mode=False], the loop of
    CPython 3.11 and later: characters outside the alphabet are skipped, a
    pad that completes a quad ends the input, and leftover characters of an
    unfinished quad are an error.  [bin_data] holds the bytes written so
    far. *)
Fixpoint a2b_loop (data : bytes) (quad_pos : N) (leftchar : N) (pads : N)
         (bin_data : bytes) : outcome bytes :=
  match data with
  | [] =>
      if quad_pos =? 0 then Ret bin_data
      else if quad_pos =? 1 then Raise (excess_data_character bin_data)
      else Raise incorrect_padding
  | this_ch :: rest =>
      if Byte.eqb this_ch BASE64_PAD then
        if 2 <=? quad_pos then
          if 4 <=? quad_pos + (pads + 1) then Ret bin_data
          else a2b_loop rest quad_pos leftchar (pads + 1) bin_data
        else a2b_loop rest quad_pos leftchar pads bin_data
      else
        match table_a2b_base64 this_ch with
        | None => a2b_loop rest quad_pos leftchar pads bin_data
        | Some v =>
            if quad_pos =? 0 then a2b_loop rest 1 v 0 bin_data
            else if quad_pos =? 1 then
              a2b_loop rest 2 (N.land v 15) 0
                (bin_data ++ [u8 (N.lor (N.shiftl leftchar 2) (N.shiftr v 4))])
            else if quad_pos =? 2 then
              a2b_loop rest 3 (N.land v 3) 0
                (bin_data ++ [u8 (N.lor (N.shiftl leftchar 4) (N.shiftr v 2))])
            else
              a2b_loop rest 0 0 0
                (bin_data ++ [u8 (N.lor (N.shiftl leftchar 6) v)])
        end
  end.

Definition a2b_base64 (data : bytes) : outcome bytes := a2b_loop data 0 0 0 [].

(** One well-formed UTF-8 sequence after another (RFC 3629: no overlong
    forms, no surrogates, nothing above U+10FFFF). *)
Definition in_range (lo hi : N) (b : byte) : bool :=
  (lo <=? Byte.to_N b) && (Byte.to_N b <=? hi).

Fixpoint utf8_valid (bs : bytes) : bool :=
  match bs with
  | [] => true
  | b0 :: r0 =>
      if in_range 0 127 b0 then utf8_valid r0
      else match r0 with
      | [] => false
      | b1 :: r1 =>
          if in_range 194 223 b0 then in_range 128 191 b1 && utf8_valid r1
          else match r1 with
          | [] => false
          | b2 :: r2 =>
              if in_range 224 239 b0 then
                (if in_range 224 224 b0 then in_range 160 191 b1
                 else if in_range 237 237 b0 then in_range 128 159 b1
                 else in_range 128 191 b1)
                && in_range 128 191 b2 && utf8_valid r2
              else match r2 with
              | [] => false
              | b3 :: r3 =>
                  in_range 240 244 b0
                  && (if in_range 240 240 b0 then in_range 144 191 b1
                      else if in_range 244 244 b0 then in_range 128 143 b1
                      else in_range 128 191 b1)
                  && in_range 128 191 b2 && in_range 128 191 b3
                  && utf8_valid r3
              end
          end
      end
  end.

(** [data.decode("utf-8")]; the message of the error also names the byte
    and its position, which no run of the apps gets to see: they decode only
    what [b64encode] returns. *)
Definition decode_utf8 (data : bytes) : outcome string :=
  if utf8_valid data then Ret (string_of_list_byte data)
  else Raise (Exc UnicodeDecodeError "'utf-8' codec can't decode byte").

(** [s.encode("ascii")], [None] for [UnicodeEncodeError]. *)
Definition encode_ascii (s : string) : option bytes :=
  let bs := list_byte_of_string s in
  if forallb (in_range 0 127) bs then Some bs else None.

(** [base64.b64decode(s)] on a [str] argument, [validate=False]. *)
Definition b64decode (s : string) : outcome bytes :=
  match encode_ascii s with
  | None =>
      Raise (Exc ValueError "string argument should contain only ASCII characters")
  | Some data => a2b_base64 data
  end.

(** *** Definitions for the proofs about the codecs *)

(** Every byte, in order. *)
Definition all_bytes : list byte :=
  omap (fun n => Byte.of_N (N.of_nat n)) (seq 0 256).

(** The four six-bit groups of three bytes, as [b64encode] cuts them. *)
Definition s0 (b0 : byte) : N := N.shiftr (Byte.to_N b0) 2.
Definition s1 (b0 b1 : byte) : N :=
  N.lor (N.shiftl (N.land (Byte.to_N b0) 3) 4) (N.shiftr (Byte.to_N b1) 4).
Definition s2 (b1 b2 : byte) : N :=
  N.lor (N.shiftl (N.land (Byte.to_N b1) 15) 2) (N.shiftr (Byte.to_N b2) 6).
Definition s3 (b2 : byte) : N := N.land (Byte.to_N b2) 63.
Definition s1_last (b0 : byte) : N := N.shiftl (N.land (Byte.to_N b0) 3) 4.
Definition s2_last (b1 : byte) : N := N.shiftl (N.land (Byte.to_N b1) 15) 2.

(** An alphabet character is not the pad and decodes to its index. *)
Definition decodes_to (n : N) : bool :=
  negb (Byte.eqb (table_b2a_base64 n) BASE64_PAD)
  && match table_a2b_base64 (table_b2a_base64 n) with
     | Some v => v =? n
     | None => false
     end.

End Base64.

(** ** Strings *)

(** [s.split(sep)] for a one-character separator: never an empty list. *)
Fixpoint split (sep : ascii) (s : string) : list string :=
  match s with
  | EmptyString => [""]
  | String c s' =>
      if Ascii.eqb c sep then "" :: split sep s'
      else match split sep s' with
           | seg :: segs => String c seg :: segs
           | [] => [String c ""]
           end
  end.

(** [str(n)] for a natural number. *)
Definition str_nat (n : nat) : string := NilEmpty.string_of_uint (Nat.to_uint n).

(** [s * n] *)
Fixpoint str_mul (s : string) (n : nat) : string :=
  match n with
  | O => ""
  | S n' => s +:+ str_mul s n'
  end.

(** [s.endswith(t)] *)
Definition endswith (s t : string) : bool :=
  String.eqb (substring (String.length s - String.length t) (String.length t) s) t
  && (String.length t <=? String.length s)%nat.

(** [os.path.join(dir, name)] for a relative [name]. *)
Definition path_join (dir name : string) : string :=
  if String.eqb dir "" then name
  else if endswith dir "/" then dir +:+ name
  else dir +:+ "/" +:+ name.

(** ** Data model *)

(** Streamlit's [UploadedFile]. *)
Record UploadedFile := {
  name : string;
  type : string;
  size : Z;
  getvalue : bytes;
}.

(** The entries of a request's [content] list: the dictionaries
    [{"type": "input_text", "text": _}],
    [{"type": "input_image", "image_url": _}] and
    [{"type": "input_image", "file_id": _}]. *)
Inductive content_item :=
| input_text (text : string)
| input_image_url (image_url : string)
| input_image_file (file_id : string).

Record message := {
  role : string;
  content : list content_item;
}.

(** [{"type": _, "quality": _, "input_image_mask": {"file_id": _}}], the last
    two keys optional. *)
Record tool := {
  tool_type : string;
  quality : option string;
  input_image_mask : option string;
}.

(** The keyword arguments of [client.responses.create]. *)
Record request := {
  model : string;
  input : list message;
  tools : list tool;
}.

(** An entry of [response.output]: its [type] tag and, for an image
    generation call, its [result] ([None] is Python's [None]). *)
Record output_item := {
  output_type : string;
  result : option string;
}.

(** [output_content] is [Some c] when [hasattr(response.output, 'content')]
    holds with value [c]; on the list the API client returns it is [None]. *)
Record response := {
  output : list output_item;
  output_content : option string;
}.

(** What a run does to the outside, in order. *)
Inductive event :=
| st_success (body : string)
| st_error (body : string)
| st_info (body : string)
| st_text (body : string)
| st_subheader (body : string)
| st_image (image : bytes) (caption : string)
| st_download_button (label : string) (data : bytes) (file_name mime : string)
| st_exception (e : exn)
| files_create_call (file : bytes) (purpose : string)
| responses_create_call (req : request)
| open_write (path : string) (data : bytes)
| unlink_call (path : string) (deleted : bool).

(** The oracles of a run. *)
Record World := {
  (** [tempfile.gettempdir()] *)
  tmpdir : string;
  (** [tempfile.TMP_MAX] *)
  TMP_MAX : nat;
  (** the [n]-th name drawn from [tempfile._get_candidate_names()] *)
  candidate_name : nat -> string;
  (** [os.open(file, O_RDWR | O_CREAT | O_EXCL)] on a name that is no file
      raises this, if anything: [FileExistsError] for a directory of this
      name, [FileNotFoundError] when the suffix brings a [/] into the name *)
  os_open_error : string -> option exn;
  (** [f.write(data)] on the file opened at a path, with the flush when the
      [with] block closes it, raises this, if anything, and the file is left
      with these bytes *)
  write_error : string -> bytes -> option (exn * bytes);
  (** [OpenAI()] raises this, if anything *)
  client_error : option exn;
  (** [client.files.create], by the number of earlier registrations *)
  files_create : nat -> bytes -> outcome string;
  (** [client.responses.create] *)
  responses_create : request -> outcome response;
  (** [st.image(image, ...)] raises this, if anything:
      [PIL.UnidentifiedImageError] for bytes that are no image *)
  st_image_error : bytes -> option exn;
  (** the operating system refuses to remove this path *)
  unlink_denied : string -> bool;
  (** [open(path, "wb")] on a path that is not empty raises this, if
      anything *)
  open_error : string -> option exn;
  (** [repr(path)], as it stands in [str(e)] of an [OSError] *)
  repr : string -> string;
}.

(** The process state of an app run: the file system, how many temporary
    names and registrations were used, the handler's [temp_files] list and
    the events so far. *)
Record state := {
  fs : gmap string bytes;
  tmp_seq : nat;
  registered : nat;
  temp_files : list string;
  trace : list event;
}.

Definition set_fs (f : gmap string bytes -> gmap string bytes) (s : state) : state :=
  {| fs := f (fs s); tmp_seq := tmp_seq s; registered := registered s;
     temp_files := temp_files s; trace := trace s |}.
Definition set_tmp_seq (n : nat) (s : state) : state :=
  {| fs := fs s; tmp_seq := n; registered := registered s;
     temp_files := temp_files s; trace := trace s |}.
Definition set_registered (n : nat) (s : state) : state :=
  {| fs := fs s; tmp_seq := tmp_seq s; registered := n;
     temp_files := temp_files s; trace := trace s |}.
Definition set_temp_files (l : list string) (s : state) : state :=
  {| fs := fs s; tmp_seq := tmp_seq s; registered := registered s;
     temp_files := l; trace := trace s |}.
Definition emit (e : event) : Py state unit :=
  modify (fun s => {| fs := fs s; tmp_seq := tmp_seq s; registered := registered s;
                      temp_files := temp_files s; trace := trace s ++ [e] |}).

(** ** File system and temporary files *)

Section FileSystem.
Variable w : World.
Local Open Scope py_scope.

(** [str(e)] of [OSError(errno, strerror, filename)] *)
Definition os_error_text (errno : nat) (strerror filename : string) : string :=
  "[Errno " +:+ str_nat errno +:+ "] " +:+ strerror +:+ ": " +:+ repr w filename.

Definition no_such_file (path : string) : exn :=
  Exc FileNotFoundError (os_error_text 2 "No such file or directory" path).

(** [open(path, "rb").read()] *)
Definition read_file (path : string) : Py state bytes :=
  fun s => match fs s !! path with
           | Some data => (Ret data, s)
           | None => (Raise (no_such_file path), s)
           end.

(** [f.write(data)] into the file open at [path], up to the end of the
    [with] block. *)
Definition f_write (path : string) (data : bytes) : Py state unit :=
  match write_error w path data with
  | Some (e, written) => modify (set_fs (insert path written)) ;; raise e
  | None => modify (set_fs (insert path data))
  end.

(** [with open(path, "wb") as f: f.write(data)]; [repr("")] is [''] *)
Definition write_file (path : string) (data : bytes) : Py state unit :=
  if String.eqb path "" then
    raise (Exc FileNotFoundError "[Errno 2] No such file or directory: ''")
  else
    match open_error w path with
    | Some e => raise e
    | None =>
        f_write path data ;;
        emit (open_write path data)
    end.

(** [os.unlink(path)] *)
Definition os_unlink (path : string) : Py state unit :=
  let* s := get in
  match fs s !! path with
  | None =>
      emit (unlink_call path false) ;;
      raise (no_such_file path)
  | Some _ =>
      if unlink_denied w path then
        emit (unlink_call path false) ;;
        raise (Exc PermissionError (os_error_text 13 "Permission denied" path))
      else
        modify (set_fs (delete path)) ;;
        emit (unlink_call path true)
  end.

(** [os.path.join(dir, "tmp" + name + suffix)] for the [n]-th name drawn. *)
Definition candidate_path (suffix : string) (n : nat) : string :=
  path_join (tmpdir w) ("tmp" +:+ candidate_name w n +:+ suffix).

(** The loop of [tempfile._mkstemp_inner] on a POSIX system: up to [tries]
    names are drawn; [os.open] with [O_EXCL] raises [FileExistsError] on a
    name that is taken, and the next name is tried; any other exception of
    [os.open] leaves the loop; the first name that opens is returned. *)
Fixpoint mkstemp_inner (files : gmap string bytes) (suffix : string)
         (seq tries : nat) : outcome string * nat :=
  match tries with
  | O => (Raise (Exc FileExistsError "[Errno 17] No usable temporary file name found"),
          seq)
  | S tries' =>
      let file := candidate_path suffix seq in
      match files !! file with
      | Some _ => mkstemp_inner files suffix (S seq) tries'
      | None =>
          match os_open_error w file with
          | Some e =>
              if is_FileExistsError e then mkstemp_inner files suffix (S seq) tries'
              else (Raise e, S seq)
          | None => (Ret file, S seq)
          end
      end
  end.

(** [tempfile.NamedTemporaryFile(delete=False, suffix=suffix)]: the file is
    created empty under the name found. *)
Definition NamedTemporaryFile (suffix : string) : Py state string :=
  let* s := get in
  match mkstemp_inner (fs s) suffix (tmp_seq s) (TMP_MAX w) with
  | (Ret file, seq') =>
      modify (set_tmp_seq seq') ;;
      modify (set_fs (insert file [])) ;;
      ret file
  | (Raise e, seq') =>
      modify (set_tmp_seq seq') ;;
      raise e
  end.
End FileSystem.

(** ** The functions both apps define, with the same text *)

(** [api_key = st.text_input(...)], then
    [if not api_key: api_key = os.getenv("OPENAI_API_KEY")]; the result is
    empty when there is no key. *)
Definition resolve_api_key (api_key_input : string) (env_api_key : option string)
  : string :=
  if String.eqb api_key_input "" then default "" env_api_key else api_key_input.

Section Helpers.
Variable w : World.
Local Open Scope py_scope.

(** [get_openai_client] *)
Definition get_openai_client : Py state unit :=
  match client_error w with
  | Some e => raise e
  | None => ret tt
  end.

(** [create_file] *)
Definition create_file (file_path : string) : Py state string :=
  get_openai_client ;;
  let* file_content := read_file w file_path in
  let* s := get in
  emit (files_create_call file_content "vision") ;;
  modify (set_registered (S (registered s))) ;;
  lift_outcome (files_create w (registered s) file_content).

(** [encode_image] *)
Definition encode_image (file_path : string) : Py state string :=
  let* data := read_file w file_path in
  lift_outcome (Base64.decode_utf8 (Base64.b64encode data)).

Definition allowed_types : list string :=
  ["image/jpeg"; "image/jpg"; "image/png"; "image/gif"; "image/webp"].

(** [validate_image_file]; the argument is [None] for Python's [None]. *)
Definition validate_image_file (uploaded_file : option UploadedFile)
  : bool * string :=
  match uploaded_file with
  | None => (false, "No file uploaded")
  | Some f =>
      if (size f >? 20 * 1024 * 1024)%Z then
        (false, "File size must be less than 20MB")
      else if negb (existsb (String.eqb (type f)) allowed_types) then
        (false, "File type " +:+ type f +:+ " not supported. Use: "
                +:+ String.concat ", " allowed_types)
      else (true, "File is valid")
  end.

(** [uploaded_file.name.split('.')[-1]] *)
Definition extension (f : UploadedFile) : string :=
  List.last (split "." (name f)) "".

(** [save_uploaded_file]: the file exists from the [with] line on, also
    when the write raises. *)
Definition save_uploaded_file (uploaded_file : UploadedFile) : Py state string :=
  let* tmp_file_name := NamedTemporaryFile w ("." +:+ extension uploaded_file) in
  f_write w tmp_file_name (getvalue uploaded_file) ;;
  ret tmp_file_name.

(** The [finally] block of both handlers:
    [for temp_file in temp_files: try: os.unlink(temp_file) except: pass]. *)
Definition cleanup : Py state unit :=
  let* s := get in
  for_each (temp_files s)
    (fun temp_file =>
       try_except (os_unlink w temp_file) (fun _ => Some (ret tt))).

(** [temp_files.append(path)] *)
Definition temp_files_append (path : string) : Py state unit :=
  modify (fun s => set_temp_files (temp_files s ++ [path]) s).

(** [[output for output in response.output
      if output.type == "image_generation_call"]] *)
Definition image_generation_calls (r : response) : list output_item :=
  List.filter (fun output => String.eqb (output_type output) "image_generation_call")
              (output r).

(** [base64.b64decode] on a [result] attribute, which may be [None]. *)
Definition b64decode_result (image_base64 : option string) : outcome bytes :=
  match image_base64 with
  | Some s => Base64.b64decode s
  | None =>
      Raise (Exc TypeError
        "argument should be a bytes-like object or ASCII string, not 'NoneType'")
  end.

(** [st.image(image, caption=caption, use_column_width=True)]: the image
    is on the page unless the call raises. *)
Definition show_image (image : bytes) (caption : string) : Py state unit :=
  match st_image_error w image with
  | Some e => raise e
  | None => emit (st_image image caption)
  end.

(** [except Exception as e: st.error(...); st.exception(e)] of both
    handlers. *)
Definition report_exception (e : exn) : option (Py state unit) :=
  if is_Exception e then
    Some (emit (st_error ("❌ Error: " +:+ str_exn e)) ;; emit (st_exception e))
  else None.

(** The [else] branch of [if image_data:] in both handlers. *)
Definition report_no_image (msg : string) (r : response) : Py state unit :=
  emit (st_error msg) ;;
  match output_content r with
  | Some c => emit (st_text "API Response:") ;; emit (st_text c)
  | None => ret tt
  end.
End Helpers.

(** ** [streamlit_app.py] *)

Module streamlit_app.
Section App.
Variable w : World.
Local Open Scope py_scope.

(** The widgets' values at one run of the script. *)
Record inputs := {
  api_key_input : string;
  env_api_key : option string;
  uploaded_files : list UploadedFile;
  prompt : string;
  generate_clicked : bool;
}.

(** The loop over [valid_files] inside the [try]. *)
Fixpoint process_uploads (valid_files : list UploadedFile)
         (base64_images file_ids : list string)
  : Py state (list string * list string) :=
  match valid_files with
  | [] => ret (base64_images, file_ids)
  | uploaded_file :: rest =>
      let* temp_path := save_uploaded_file w uploaded_file in
      temp_files_append temp_path ;;
      let* base64_image := encode_image w temp_path in
      let* file_id := create_file w temp_path in
      process_uploads rest (base64_images ++ [base64_image]) (file_ids ++ [file_id])
  end.

(** The request composer: the [content] list and the call's arguments. *)
Definition compose_content (prompt : string) (base64_images file_ids : list string)
  : list content_item :=
  let content := [input_text prompt] in
  let content :=
    fold_left (fun content base64_image =>
                 content ++ [input_image_url ("data:image/jpeg;base64," +:+ base64_image)])
              base64_images content in
  fold_left (fun content file_id => content ++ [input_image_file file_id])
            file_ids content.

Definition compose_request (content : list content_item) : request :=
  {| model := "gpt-4o";
     input := [ {| role := "user"; content := content |} ];
     tools := [ {| tool_type := "image_generation";
                   quality := None; input_image_mask := None |} ] |}.

(** [for i, image_base64 in enumerate(image_data): ...], from index [i]. *)
Fixpoint show_images (i : nat) (image_data : list (option string)) : Py state unit :=
  match image_data with
  | [] => ret tt
  | image_base64 :: rest =>
      let* image_bytes := lift_outcome (b64decode_result image_base64) in
      show_image w image_bytes ("Generated Image " +:+ str_nat (i + 1)) ;;
      emit (st_download_button ("📥 Download Image " +:+ str_nat (i + 1))
              image_bytes
              ("generated_image_" +:+ str_nat (i + 1) +:+ ".png")
              "image/png") ;;
      show_images (S i) rest
  end.

(** The end of the inner [try], from "Extract image generation results"
    on. *)
Definition present_response (response : response) : Py state unit :=
  let image_data := map result (image_generation_calls response) in
  match image_data with
  | _ :: _ =>
      emit (st_success "✅ Image generated successfully!") ;;
      emit (st_subheader "🎨 Generated Images") ;;
      show_images 0 image_data
  | [] => report_no_image "❌ No images were generated" response
  end.

(** The body of the inner [try]. *)
Definition generate_body (valid_files : list UploadedFile) (prompt : string)
  : Py state unit :=
  let* uploaded := process_uploads valid_files [] [] in
  let base64_images := fst uploaded in
  let file_ids := snd uploaded in
  let content := compose_content prompt base64_images file_ids in
  get_openai_client w ;;
  emit (responses_create_call (compose_request content)) ;;
  let* response := lift_outcome (responses_create w (compose_request content)) in
  present_response response.

(** The body of [if st.button("Generate Image", ...)]: the request
    handler. *)
Definition generate (valid_files : list UploadedFile) (prompt : string)
  : Py state unit :=
  match valid_files with
  | [] => emit (st_error "Please upload at least one valid image!")
  | _ :: _ =>
      if String.eqb prompt "" then emit (st_error "Please enter a prompt!")
      else
        try_except
          (modify (set_temp_files []) ;;
           try_finally (generate_body valid_files prompt) (cleanup w))
          (report_exception)
  end.

(** The validation loop: every upload is reported, the valid ones kept. *)
Fixpoint validate_uploads (files : list UploadedFile) (valid_files : list UploadedFile)
  : Py state (list UploadedFile) :=
  match files with
  | [] => ret valid_files
  | uploaded_file :: rest =>
      let '(is_valid, message) := validate_image_file (Some uploaded_file) in
      (if is_valid
       then emit (st_success ("✅ " +:+ name uploaded_file +:+ " - " +:+ message))
       else emit (st_error ("❌ " +:+ name uploaded_file +:+ " - " +:+ message))) ;;
      validate_uploads rest
        (if is_valid then valid_files ++ [uploaded_file] else valid_files)
  end.

(** The main content area of [main]: the two columns, after the sidebar.
    Of the calls into the page only those of the kinds in [event] are
    recorded; titles, headers, markdown text, captions and the widgets
    themselves are not. *)
Definition content_area (i : inputs) : Py state unit :=
  match uploaded_files i with
  | [] =>
      (* the button is disabled without valid files *)
      ret tt
  | _ :: _ =>
      let* valid_files := validate_uploads (uploaded_files i) [] in
      match valid_files with
      | [] =>
          emit (st_error "No valid images uploaded. Please upload at least one valid image.")
      | _ :: _ =>
          emit (st_subheader "📷 Uploaded Images") ;;
          for_each valid_files
            (fun uploaded_file =>
               show_image w (getvalue uploaded_file) (name uploaded_file)) ;;
          if generate_clicked i && negb (String.eqb (prompt i) "")
          then generate valid_files (prompt i)
          else ret tt
      end
  end.

(** [main]: the sidebar asks for the key and [main] returns without one. *)
Definition main (i : inputs) : Py state unit :=
  let api_key := resolve_api_key (api_key_input i) (env_api_key i) in
  if String.eqb api_key "" then
    emit (st_error "⚠️ OpenAI API key is required!") ;;
    emit (st_info "Please enter your API key in the sidebar or set the OPENAI_API_KEY environment variable.")
  else content_area i.
End App.
End streamlit_app.

(** ** [image_masking_streamlit.py] *)

Module image_masking_streamlit.

(** The two options of the "Image Quality" select box. *)
Inductive quality_option := standard | high.

Definition quality_value (q : quality_option) : string :=
  match q with
  | standard => "standard"
  | high => "high"
  end.

Section App.
Variable w : World.
Local Open Scope py_scope.

Record inputs := {
  api_key_input : string;
  env_api_key : option string;
  quality_selected : quality_option;
  base_image : option UploadedFile;
  mask_image : option UploadedFile;
  prompt : string;
  output_filename : string;
  generate_clicked : bool;
}.

(** The arguments of [client.responses.create]. *)
Definition compose_request (prompt base_file_id mask_file_id quality : string)
  : request :=
  {| model := "gpt-4o";
     input := [ {| role := "user";
                   content := [ input_text prompt; input_image_file base_file_id ] |} ];
     tools := [ {| tool_type := "image_generation";
                   quality := Some quality;
                   input_image_mask := Some mask_file_id |} ] |}.

(** The branch [if image_data:], on [image_data[0]]. *)
Definition show_first (image_base64 : option string) (output_filename : string)
  : Py state unit :=
  emit (st_success "✅ Masked image generated successfully!") ;;
  emit (st_subheader "🎨 Generated Masked Image") ;;
  let* image_bytes := lift_outcome (b64decode_result image_base64) in
  show_image w image_bytes "Generated Masked Image" ;;
  emit (st_download_button "📥 Download Masked Image" image_bytes
          output_filename "image/png") ;;
  write_file w output_filename image_bytes ;;
  emit (st_info ("💾 Image also saved as: " +:+ output_filename)).

(** The start of the inner [try]: both images are saved, then both are
    registered; the result is [(base_file_id, mask_file_id)]. *)
Definition register_images (base_image mask_image : UploadedFile)
  : Py state (string * string) :=
  let* base_path := save_uploaded_file w base_image in
  temp_files_append base_path ;;
  let* mask_path := save_uploaded_file w mask_image in
  temp_files_append mask_path ;;
  let* base_file_id := create_file w base_path in
  let* mask_file_id := create_file w mask_path in
  ret (base_file_id, mask_file_id).

(** The end of the inner [try], from "Extract image generation results"
    on. *)
Definition present_response (response : response) (output_filename : string)
  : Py state unit :=
  let image_data := map result (image_generation_calls response) in
  match image_data with
  | image_base64 :: _ => show_first image_base64 output_filename
  | [] => report_no_image "❌ No image was generated" response
  end.

(** The body of the inner [try]. *)
Definition generate_body (base_image mask_image : UploadedFile)
           (prompt quality output_filename : string) : Py state unit :=
  let* file_ids := register_images base_image mask_image in
  let base_file_id := fst file_ids in
  let mask_file_id := snd file_ids in
  get_openai_client w ;;
  let req := compose_request prompt base_file_id mask_file_id quality in
  emit (responses_create_call req) ;;
  let* response := lift_outcome (responses_create w req) in
  present_response response output_filename.

(** The body of [if st.button("Generate Masked Image", ...)]: the request
    handler. *)
Definition generate (base_image mask_image : option UploadedFile)
           (prompt quality output_filename : string) : Py state unit :=
  match base_image, mask_image with
  | None, _ => emit (st_error "Please upload a base image!")
  | Some _, None => emit (st_error "Please upload a mask image!")
  | Some base, Some mask =>
      if String.eqb prompt "" then emit (st_error "Please enter a prompt!")
      else
        try_except
          (modify (set_temp_files []) ;;
           try_finally
             (generate_body base mask prompt quality output_filename)
             (cleanup w))
          (report_exception)
  end.

(** One of the two upload widgets: nothing to check without a file, the
    verdict shown otherwise; [false] when [main] returns on it. *)
Definition check_upload (label : string) (image : option UploadedFile)
  : Py state bool :=
  match image with
  | None => ret true
  | Some f =>
      let '(is_valid, message) := validate_image_file image in
      if is_valid then
        emit (st_success ("✅ " +:+ label +:+ " image: " +:+ message)) ;;
        show_image w (getvalue f) (label +:+ " Image") ;;
        ret true
      else
        emit (st_error ("❌ " +:+ label +:+ " image: " +:+ message)) ;;
        ret false
  end.

(** The main content area of [main]: the two columns, after the sidebar.
    Of the calls into the page only those of the kinds in [event] are
    recorded; titles, headers, markdown text, captions and the widgets
    themselves are not. *)
Definition content_area (i : inputs) : Py state unit :=
  emit (st_subheader "🖼️ Base Image") ;;
  let* base_ok := check_upload "Base" (base_image i) in
  if negb base_ok then ret tt else
  emit (st_subheader "🎭 Mask Image") ;;
  let* mask_ok := check_upload "Mask" (mask_image i) in
  if negb mask_ok then ret tt else
  let enabled :=
    match base_image i, mask_image i with
    | Some _, Some _ => negb (String.eqb (prompt i) "")
    | _, _ => false
    end in
  if generate_clicked i && enabled
  then generate (base_image i) (mask_image i) (prompt i)
                (quality_value (quality_selected i)) (output_filename i)
  else ret tt.

(** [main]: the sidebar asks for the key and [main] returns without one. *)
Definition main (i : inputs) : Py state unit :=
  let api_key := resolve_api_key (api_key_input i) (env_api_key i) in
  if String.eqb api_key "" then
    emit (st_error "⚠️ OpenAI API key is required!") ;;
    emit (st_info "Please enter your API key in the sidebar or set the OPENAI_API_KEY environment variable.")
  else content_area i.
End App.
End image_masking_streamlit.

(** ** The launchers [run_image_generator.py] and [mask_runner.py] *)

Module launcher.

Inductive event :=
| print (line : string)
| subprocess_run_call (args : list string).

(** The oracles of a launcher run: what importing a package does ([None]:
    it succeeds) and what [subprocess.run] does with the server command
    (it returns the child's exit status, or raises). *)
Record World := {
  sys_executable : string;
  import_ : string -> option exn;
  subprocess_run : list string -> outcome Z;
}.

Definition emit (e : event) : Py (list event) unit :=
  modify (fun t => t ++ [e]).

(** The exit status of the interpreter after [main()] at top level. *)
Definition exit_status (r : outcome unit) : Z :=
  match r with
  | Ret _ => 0
  | Raise (SystemExit code) => code
  | Raise KeyboardInterrupt => 130
  | Raise (Exc _ _) => 1
  end.

Section Launcher.
Variable w : World.
Local Open Scope py_scope.

Definition required_packages : list string :=
  ["streamlit"; "openai"; "requests"; "PIL"].

(** The [for package in required_packages] loop: an [ImportError] records
    the package, any other exception leaves the function. *)
Fixpoint find_missing (packages missing_packages : list string)
  : Py (list event) (list string) :=
  match packages with
  | [] => ret missing_packages
  | package :: rest =>
      match import_ w package with
      | None => find_missing rest missing_packages
      | Some e =>
          if is_ImportError e then find_missing rest (missing_packages ++ [package])
          else raise e
      end
  end.

(** [check_dependencies], the same text in both launchers. *)
Definition check_dependencies : Py (list event) bool :=
  let* missing_packages := find_missing required_packages [] in
  match missing_packages with
  | _ :: _ =>
      emit (print "❌ Missing required packages:") ;;
      for_each missing_packages (fun package => emit (print ("   - " +:+ package))) ;;
      emit (print "
📦 Install dependencies with:") ;;
      emit (print "   pip install -r requirements.txt") ;;
      ret false
  | [] => ret true
  end.

Definition server_command (script port : string) : list string :=
  [ sys_executable w; "-m"; "streamlit"; "run"; script;
    "--server.port"; port; "--server.address"; "localhost" ].

(** [main] of a launcher, for its banner lines, script and port. *)
Definition launcher_main (banner : list string) (script port : string)
  : Py (list event) unit :=
  for_each banner (fun line => emit (print line)) ;;
  let* ok := check_dependencies in
  (if negb ok then raise (SystemExit 1) else ret tt) ;;
  emit (print "✅ All dependencies found!") ;;
  emit (print "🚀 Starting Streamlit app...") ;;
  emit (print "📱 The app will open in your default browser") ;;
  emit (print "⏹️  Press Ctrl+C to stop the server") ;;
  emit (print (str_mul "-" 50)) ;;
  try_except
    (emit (subprocess_run_call (server_command script port)) ;;
     let* _completed := lift_outcome (subprocess_run w (server_command script port)) in
     ret tt)
    (fun e =>
       match e with
       | KeyboardInterrupt => Some (emit (print "
👋 App stopped by user"))
       | Exc _ _ =>
           Some (emit (print ("❌ Error starting app: " +:+ str_exn e)) ;;
                 raise (SystemExit 1))
       | SystemExit _ => None
       end).
End Launcher.

Module run_image_generator.
Definition main (w : World) : Py (list event) unit :=
    launcher_main w
      [ "🎨 AI Image Generator - GPT-4 Vision"; str_mul "=" 50;
        "Generate images using multiple reference images and GPT-4 Vision"; "" ]
      "streamlit_app.py" "8501".
End run_image_generator.

Module mask_runner.
Definition main (w : World) : Py (list event) unit :=
      launcher_main w
        [ "🎭 AI Image Masking - GPT-4 Vision"; str_mul "=" 50;
          "Generate new content in masked areas of your images";
          "using GPT-4 Vision with image masking capabilities"; "" ]
        "image_masking_streamlit.py" "8502".
End mask_runner.
End launcher.

(** ** Observations on traces, and sample data for concrete runs *)

Definition requests_made (t : list event) : list request :=
  omap (fun e => match e with responses_create_call req => Some req | _ => None end) t.

(** A computation is silent when it sends no generation request. *)
Definition silent {A} (c : Py state A) : Prop :=
  forall s, requests_made (trace (snd (c s))) = requests_made (trace s).

Definition images_shown (t : list event) : list bytes :=
  omap (fun e => match e with st_image image _ => Some image | _ => None end) t.

Definition downloads_offered (t : list event) : list (bytes * string) :=
  omap (fun e => match e with
                 | st_download_button _ data file_name _ => Some (data, file_name)
                 | _ => None
                 end) t.

(** The download offers of the generator for [images], numbered from
    [i + 1]. *)
Fixpoint numbered_downloads (i : nat) (images : list bytes) : list (bytes * string) :=
  match images with
  | [] => []
  | image :: rest =>
      (image, "generated_image_" +:+ str_nat (i + 1) +:+ ".png")
      :: numbered_downloads (S i) rest
  end.

(** The two lines shown when [response.output] has a [content] attribute. *)
Definition api_response_text (r : response) : list event :=
  match output_content r with
  | Some c => [st_text "API Response:"; st_text c]
  | None => []
  end.

Definition subprocess_runs (t : list launcher.event) : list (list string) :=
  omap (fun e => match e with
                 | launcher.subprocess_run_call args => Some args
                 | _ => None
                 end) t.

(** A package whose import fails, and a list of packages whose imports
    succeed or raise [ImportError]. *)
Definition not_imported (w : launcher.World) (package : string) : bool :=
  match launcher.import_ w package with
  | None => false
  | Some _ => true
  end.

Definition importable (w : launcher.World) (packages : list string) : Prop :=
  forall p, In p packages ->
            launcher.import_ w p = None
            \/ exists msg, launcher.import_ w p = Some (Exc ImportError msg).

(** What [except Exception as e] adds to the page for the result of the
    inner [try], and the handler's own result. *)
Definition reported (r : outcome unit) : list event :=
  match r with
  | Raise (Exc cls msg) => [st_error ("❌ Error: " +:+ msg); st_exception (Exc cls msg)]
  | _ => []
  end.

Definition absorbed (r : outcome unit) : outcome unit :=
  match r with
  | Raise (Exc _ _) => Ret tt
  | _ => r
  end.

(** A handler [handler] whose inner [try] body is [body] cleans up after
    itself from [st]: whatever the body did and however it ended, one delete
    attempt per path of [temp_files] follows, in order, each with its own
    result [deleted]; only then is the body's exception reported, and the
    handler's result is the body's, never a failure of a delete. *)
Definition cleans_up (body handler : Py state unit) (st : state) : Prop :=
  let '(rb, sb) := body (set_temp_files [] st) in
  let '(r, st') := handler st in
  exists deleted : list bool,
    length deleted = length (temp_files sb)
    /\ trace st' = trace sb ++ zip_with unlink_call (temp_files sb) deleted ++ reported rb
    /\ temp_files st' = temp_files sb
    /\ r = absorbed rb.

(** The shape of both handlers:
    [try: temp_files = []; try: body finally: cleanup
     except Exception as e: report]. *)
Definition guarded (w : World) (body : Py state unit) : Py state unit :=
  try_except
    (bind (modify (set_temp_files [])) (fun _ => try_finally body (cleanup w)))
    report_exception.

(** Equality of output entries is decidable, so their occurrences can be
    counted. *)
Definition output_item_eq_dec (x y : output_item) : {x = y} + {x <> y}.
Proof. repeat decide equality. Defined.

(** The number of image entries of a [content] list. *)
Definition image_entries (c : list content_item) : nat :=
  length (List.filter (fun item => match item with input_text _ => false | _ => true end) c).

Definition text_entries (c : list content_item) : nat :=
  length (List.filter (fun item => match item with input_text _ => true | _ => false end) c).

Module sample.

(** Two PNG files of one grey-scale pixel, black and white, and their
    base64 encodings. *)
Definition black_pixel : bytes :=
  [
    x89; x50; x4e; x47; x0d; x0a; x1a; x0a; x00; x00; x00; x0d;
    x49; x48; x44; x52; x00; x00; x00; x01; x00; x00; x00; x01;
    x08; x00; x00; x00; x00; x3a; x7e; x9b; x55; x00; x00; x00;
    x0a; x49; x44; x41; x54; x78; xda; x63; x60; x00; x00; x00;
    x02; x00; x01; xe5; x27; xde; xfc; x00; x00; x00; x00; x49;
    x45; x4e; x44; xae; x42; x60; x82 ].

Definition white_pixel : bytes :=
  [
    x89; x50; x4e; x47; x0d; x0a; x1a; x0a; x00; x00; x00; x0d;
    x49; x48; x44; x52; x00; x00; x00; x01; x00; x00; x00; x01;
    x08; x00; x00; x00; x00; x3a; x7e; x9b; x55; x00; x00; x00;
    x0a; x49; x44; x41; x54; x78; xda; x63; xf8; x0f; x00; x01;
    x01; x01; x00; x1c; xb0; x8c; x99; x00; x00; x00; x00; x49;
    x45; x4e; x44; xae; x42; x60; x82 ].

Definition black_pixel_b64 : string :=
  "iVBORw0KGgoAAAANSUhEUgAAAAEAAAABCAAAAAA6fptVAAAACklEQVR42mNgAAAAAgAB5Sfe/AAAAABJRU5ErkJggg==".

Definition white_pixel_b64 : string :=
  "iVBORw0KGgoAAAANSUhEUgAAAAEAAAABCAAAAAA6fptVAAAACklEQVR42mP4DwABAQEAHLCMmQAAAABJRU5ErkJggg==".

(** The eight bytes every PNG file starts with. *)
Definition is_png (image : bytes) : bool :=
  match image with
  | x89 :: x50 :: x4e :: x47 :: x0d :: x0a :: x1a :: x0a :: _ => true
  | _ => false
  end.

(** The page shows PNG files and nothing else. *)
Definition png_only (image : bytes) : option exn :=
  if is_png image then None
  else Some (Exc UnidentifiedImageError
               "cannot identify image file <_io.BytesIO object at 0x7f2b4c1d3a40>").

(** [repr] of a path without quotes, backslashes or control characters. *)
Definition quoted (path : string) : string := "'" +:+ path +:+ "'".

Definition cat_png : UploadedFile :=
    {| name := "cat.png"; type := "image/png"; size := 67;
       getvalue := black_pixel |}.

Definition mask_jpg : UploadedFile :=
  {| name := "mask.final.jpg"; type := "image/jpeg"; size := 67;
     getvalue := white_pixel |}.

(** An upload that passes validation and is no image. *)
Definition notes_png : UploadedFile :=
  {| name := "notes.png"; type := "image/png"; size := 3;
     getvalue := [x01; x02; xff] |}.

(** An upload whose extension holds a slash. *)
Definition slash_name : UploadedFile :=
  {| name := "shot.a/b"; type := "image/png"; size := 67;
     getvalue := black_pixel |}.

Definition huge_png : UploadedFile :=
  {| name := "huge.png"; type := "image/png"; size := 20 * 1024 * 1024 + 1;
     getvalue := [] |}.

Definition image_call (s : string) : output_item :=
  {| output_type := "image_generation_call"; result := Some s |}.

Definition text_message : output_item :=
  {| output_type := "message"; result := None |}.

(** A world in which everything works and the API answers [out]. *)
Definition world (out : list output_item) : World :=
  {| tmpdir := "/tmp";
     TMP_MAX := 3;
     candidate_name := fun n => "n" +:+ str_nat n;
     os_open_error := fun _ => None;
     write_error := fun _ _ => None;
     client_error := None;
     files_create := fun n _ => Ret ("file-" +:+ str_nat n);
     responses_create := fun _ => Ret {| output := out; output_content := None |};
     st_image_error := png_only;
     unlink_denied := fun _ => false;
     open_error := fun _ => None;
     repr := quoted |}.

(** A world in which the API refuses the generation and the operating
    system refuses every delete. *)
Definition failing_world : World :=
  {| tmpdir := "/tmp";
     TMP_MAX := 3;
     candidate_name := fun n => "n" +:+ str_nat n;
     os_open_error := fun _ => None;
     write_error := fun _ _ => None;
     client_error := None;
     files_create := fun n _ => Ret ("file-" +:+ str_nat n);
     responses_create := fun _ => Raise (Exc APIError "rate limit reached");
     st_image_error := png_only;
     unlink_denied := fun _ => true;
     open_error := fun _ => None;
     repr := quoted |}.

Definition st0 : state :=
  {| fs := ∅; tmp_seq := 0; registered := 0; temp_files := []; trace := [] |}.

(** A launcher world with every package installed, where the server
    command ends as [run]. *)
Definition launcher_world (run : outcome Z) : launcher.World :=
  {| launcher.sys_executable := "/usr/bin/python3";
     launcher.import_ := fun _ => None;
     launcher.subprocess_run := fun _ => run |}.

(** The same with [openai] not installed. *)
Definition launcher_world_missing : launcher.World :=
  {| launcher.sys_executable := "/usr/bin/python3";
     launcher.import_ := fun p =>
       if String.eqb p "openai"
       then Some (Exc ImportError "No module named 'openai'") else None;
     launcher.subprocess_run := fun _ => Ret 0%Z |}.
End sample.

(** ** [OpenAI.py] *)

(** The script edits one image.  Its three settings, [image_path], [prompt]
    and [api_key], are empty strings in the file, to be filled in by whoever
    runs it; they are the arguments of [script]. *)
Module OpenAI_script.

(** The object [openai.Image.create_edit] returns, as far as the script
    looks at it: what [response['data'][0]['url']] evaluates to, the URL or
    the exception of a missing key or an empty list. *)
Record edit_response := {
  first_url : outcome string;
}.

Inductive event :=
| print (line : string)
| create_edit_call (image : bytes) (prompt : string) (n : nat) (size : string)
| requests_get_call (url : string)
| open_write (path : string) (data : bytes).

(** The oracles of a run of the script. *)
Record World := {
  (** [openai.Image.create_edit(image=..., prompt=..., n=1, size="1024x1024")] *)
  image_create_edit : bytes -> string -> outcome edit_response;
  (** [import requests] raises this, if anything *)
  import_requests : option exn;
  (** [requests.get(url).content] *)
  requests_get : string -> outcome bytes;
  (** [open(path, 'wb')] raises this [OSError], if any: its class and
      [str(e)] *)
  open_error : string -> option (exn_class * string);
  (** [repr(path)], as it stands in [str(e)] of an [OSError] *)
  repr : string -> string;
}.

Record state := {
  fs : gmap string bytes;
  out : list event;
}.

Definition emit (e : event) : Py state unit :=
  modify (fun s => {| fs := fs s; out := out s ++ [e] |}).

Section Script.
Variable w : World.
Local Open Scope py_scope.

(** [open(path, "rb")], read by the callee *)
Definition read_file (path : string) : Py state bytes :=
  fun s => match fs s !! path with
           | Some data => (Ret data, s)
           | None =>
               (Raise (Exc FileNotFoundError
                         ("[Errno 2] No such file or directory: " +:+ repr w path)), s)
           end.

(** [with open(path, 'wb') as handler: handler.write(data)] *)
Definition write_file (path : string) (data : bytes) : Py state unit :=
  match open_error w path with
  | Some (cls, msg) => raise (Exc cls msg)
  | None =>
      modify (fun s => {| fs := <[path := data]> (fs s); out := out s |}) ;;
      emit (open_write path data)
  end.

(** The first [try]: the edit request. *)
Definition send_request (image_path prompt : string) : Py state edit_response :=
  try_except
    (let* image_file := read_file image_path in
     emit (create_edit_call image_file prompt 1 "1024x1024") ;;
     lift_outcome (image_create_edit w image_file prompt))
    (fun e =>
       if is_Exception e then
         Some (emit (print ("Error sending request: " +:+ str_exn e)) ;;
               raise (SystemExit 1))
       else None).

(** The second [try]: the download. *)
Definition process_response (response : edit_response) : Py state unit :=
  try_except
    (let* image_url := lift_outcome (first_url response) in
     emit (print ("Generated image URL: " +:+ image_url)) ;;
     match import_requests w with
     | Some e => raise e
     | None => ret tt
     end ;;
     emit (requests_get_call image_url) ;;
     let* img_data := lift_outcome (requests_get w image_url) in
     let output_path := "generated_image.png" in
     write_file output_path img_data ;;
     emit (print ("Generated image saved as " +:+ output_path)))
    (fun e =>
       if is_Exception e then
         Some (emit (print ("Error processing response: " +:+ str_exn e)))
       else None).

(** The script, top to bottom. *)
Definition script (image_path prompt api_key : string) : Py state unit :=
  if String.eqb api_key "" then
    raise (Exc ValueError "OpenAI API key is required.")
  else
    let* response := send_request image_path prompt in
    process_response response.
End Script.

(** Every exception the oracles raise derives from [Exception]:
    no [KeyboardInterrupt] and no [SystemExit] from inside the libraries. *)
Definition only_Exceptions (w : World) : Prop :=
  (forall image prompt e,
      image_create_edit w image prompt = Raise e -> is_Exception e = true)
  /\ (forall image prompt r e,
         image_create_edit w image prompt = Ret r -> first_url r = Raise e ->
         is_Exception e = true)
  /\ (forall e, import_requests w = Some e -> is_Exception e = true)
  /\ (forall url e, requests_get w url = Raise e -> is_Exception e = true).

(** A world in which the edit and the download work. *)
Definition sample_world : World :=
  {| image_create_edit := fun _ _ =>
       Ret {| first_url := Ret "https://images.example/1.png" |};
     import_requests := None;
     requests_get := fun _ => Ret sample.black_pixel;
     open_error := fun _ => None;
     repr := sample.quoted |}.

(** The same, but the directory of the script is read-only. *)
Definition read_only_world : World :=
  {| image_create_edit := fun _ _ =>
       Ret {| first_url := Ret "https://images.example/1.png" |};
     import_requests := None;
     requests_get := fun _ => Ret sample.black_pixel;
     open_error := fun path =>
       Some (PermissionError, "[Errno 13] Permission denied: " +:+ sample.quoted path);
     repr := sample.quoted |}.

Definition sample_state : state :=
  {| fs := {[ "base.png" := sample.white_pixel ]}; out := [] |}.

End OpenAI_script.

(** ** Further observations *)

(** The events that only write to the page. *)
Definition page_event (e : event) : bool :=
  match e with
  | st_success _ | st_error _ | st_info _ | st_text _ | st_subheader _
  | st_image _ _ | st_download_button _ _ _ _ | st_exception _ => true
  | files_create_call _ _ | responses_create_call _ | open_write _ _
  | unlink_call _ _ => false
  end.

(** The payloads sent to the file-registration endpoint, in order. *)
Definition registrations (t : list event) : list bytes :=
  omap (fun e => match e with files_create_call file _ => Some file | _ => None end) t.

(** The files written with [open(path, "wb")], in order. *)
Definition files_written (t : list event) : list (string * bytes) :=
  omap (fun e => match e with open_write path data => Some (path, data) | _ => None end) t.

(** From [s] to [s'] only the page was written to: same files, same
    counters, same [temp_files], and a trace longer by page events. *)
Definition page_only (s s' : state) : Prop :=
  fs s' = fs s /\ tmp_seq s' = tmp_seq s /\ registered s' = registered s
  /\ temp_files s' = temp_files s
  /\ exists evs, trace s' = trace s ++ evs /\ forallb page_event evs = true.

(** A computation that only writes to the page, however it ends. *)
Definition quiet {A} (c : Py state A) : Prop :=
  forall s, page_only s (snd (c s)).

(** An upload that [validate_image_file] accepts. *)
Definition is_valid_upload (f : UploadedFile) : bool :=
  fst (validate_image_file (Some f)).

(** The event of registering the bytes of an upload. *)
Definition registration_of (f : UploadedFile) : event :=
  files_create_call (getvalue f) "vision".

(** The events of showing [images] in the generator, numbered from
    [i + 1]. *)
Fixpoint generator_shows (i : nat) (images : list bytes) : list event :=
  match images with
  | [] => []
  | image :: rest =>
      st_image image ("Generated Image " +:+ str_nat (i + 1))
      :: st_download_button ("📥 Download Image " +:+ str_nat (i + 1)) image
           ("generated_image_" +:+ str_nat (i + 1) +:+ ".png") "image/png"
      :: generator_shows (S i) rest
  end.

(** The line the validation loop of [streamlit_app.py] shows for an
    upload. *)
Definition validation_line (f : UploadedFile) : event :=
  if is_valid_upload f
  then st_success ("✅ " +:+ name f +:+ " - " +:+ snd (validate_image_file (Some f)))
  else st_error ("❌ " +:+ name f +:+ " - " +:+ snd (validate_image_file (Some f))).

(** No write into a file fails. *)
Definition writes_succeed (w : World) : Prop :=
  forall path data, write_error w path data = None.

(** A string without a dot. *)
Definition dotless (s : string) : Prop :=
  forall c, In c (list_ascii_of_string s) -> c <> "."%char.

(** Worlds for runs that fail part of the way. *)
Module sample_failures.

(** A name with a [/] after the temporary directory cannot be opened. *)
Definition no_such_directory : World :=
  {| tmpdir := "/tmp";
     TMP_MAX := 3;
     candidate_name := fun n => "n" +:+ str_nat n;
     os_open_error := fun path =>
       if existsb (Ascii.eqb "/") (list_ascii_of_string (substring 5 (String.length path) path))
       then Some (Exc FileNotFoundError
                    ("[Errno 2] No such file or directory: " +:+ sample.quoted path))
       else None;
     write_error := fun _ _ => None;
     client_error := None;
     files_create := fun n _ => Ret ("file-" +:+ str_nat n);
     responses_create := fun _ => Ret {| output := []; output_content := None |};
     st_image_error := sample.png_only;
     unlink_denied := fun _ => false;
     open_error := fun _ => None;
     repr := sample.quoted |}.

(** No byte can be written. *)
Definition disk_full : World :=
  {| tmpdir := "/tmp";
     TMP_MAX := 3;
     candidate_name := fun n => "n" +:+ str_nat n;
     os_open_error := fun _ => None;
     write_error := fun _ _ => Some (Exc OSError "[Errno 28] No space left on device", []);
     client_error := None;
     files_create := fun n _ => Ret ("file-" +:+ str_nat n);
     responses_create := fun _ => Ret {| output := []; output_content := None |};
     st_image_error := sample.png_only;
     unlink_denied := fun _ => false;
     open_error := fun _ => None;
     repr := sample.quoted |}.

(** The second registration is refused. *)
Definition second_registration_fails : World :=
  {| tmpdir := "/tmp";
     TMP_MAX := 3;
     candidate_name := fun n => "n" +:+ str_nat n;
     os_open_error := fun _ => None;
     write_error := fun _ _ => None;
     client_error := None;
     files_create := fun n _ =>
       match n with
       | O => Ret "file-0"
       | S _ => Raise (Exc APIError "upload limit reached")
       end;
     responses_create := fun _ => Ret {| output := []; output_content := None |};
     st_image_error := sample.png_only;
     unlink_denied := fun _ => false;
     open_error := fun _ => None;
     repr := sample.quoted |}.

End sample_failures.

(** Launcher worlds for the dependency check. *)
Module sample_launchers.

(** [openai] and [PIL] are not installed. *)
Definition two_missing : launcher.World :=
  {| launcher.sys_executable := "/usr/bin/python3";
     launcher.import_ := fun p =>
       if String.eqb p "openai" then Some (Exc ImportError "No module named 'openai'")
       else if String.eqb p "PIL" then Some (Exc ImportError "No module named 'PIL'")
       else None;
     launcher.subprocess_run := fun _ => Ret 0%Z |}.

(** [requests] is installed but broken: importing it raises something that
    is not an [ImportError]. *)
Definition broken_requests : launcher.World :=
  {| launcher.sys_executable := "/usr/bin/python3";
     launcher.import_ := fun p =>
       if String.eqb p "requests" then Some (Exc RuntimeError "urllib3 is broken")
       else None;
     launcher.subprocess_run := fun _ => Ret 0%Z |}.

End sample_launchers.

(** The lines [check_dependencies] prints for the packages it found
    missing. *)
Definition missing_report (missing_packages : list string) : list launcher.event :=
  match missing_packages with
  | [] => []
  | _ :: _ =>
      launcher.print "❌ Missing required packages:"
      :: map (fun package => launcher.print ("   - " +:+ package)) missing_packages
      ++ [ launcher.print "
📦 Install dependencies with:";
           launcher.print "   pip install -r requirements.txt" ]
  end.

(** * Properties *)

(** ** Sample evaluations *)

Example b64encode_foobar :
  string_of_list_byte (Base64.b64encode (list_byte_of_string "fooba")) = "Zm9vYmE=".
Proof. reflexivity. Qed.

Example b64decode_foobar :
  Base64.b64decode "Zm9v YmE=" = Ret (list_byte_of_string "fooba").
Proof. reflexivity. Qed.

Example b64decode_bad_padding :
  Base64.b64decode "Zm9vYmE" = Raise (Exc BinasciiError "Incorrect padding").
Proof. reflexivity. Qed.

Example b64decode_one_character_left :
  Base64.b64decode "Zm9vY"
  = Raise (Exc BinasciiError
             "Invalid base64-encoded string: number of data characters (5) cannot be 1 more than a multiple of 4").
Proof. reflexivity. Qed.

Example b64decode_pixels :
  Base64.b64decode sample.black_pixel_b64 = Ret sample.black_pixel
  /\ Base64.b64decode sample.white_pixel_b64 = Ret sample.white_pixel.
Proof. split; vm_compute; reflexivity. Qed.

Example split_two_dots : split "." "a.tar.gz" = ["a"; "tar"; "gz"].
Proof. reflexivity. Qed.

Example split_no_dot : split "." "photo" = ["photo"].
Proof. reflexivity. Qed.

(** ** Validation *)

Lemma existsb_eqb_In (x : string) (l : list string) :
  existsb (String.eqb x) l = true <-> In x l.
Proof.
  rewrite existsb_exists. split.
  - intros (y & Hy & Heq). apply String.eqb_eq in Heq. now subst.
  - intros H. exists x. split; [assumption | apply String.eqb_refl].
Qed.

(** C2: [validate_image_file] accepts exactly the files that are present, at
    most 20 MiB in declared size and of a declared MIME type among
    image/jpeg, image/jpg, image/png, image/gif, image/webp; a file larger
    than 20 MiB is rejected whatever its declared type. *)
Theorem validate_image_file_accepts_iff (uploaded_file : option UploadedFile) :
  (fst (validate_image_file uploaded_file) = true
   <-> exists f, uploaded_file = Some f
                 /\ (size f <= 20 * 1024 * 1024)%Z
                 /\ In (type f) ["image/jpeg"; "image/jpg"; "image/png";
                                 "image/gif"; "image/webp"])
  /\ (forall f, uploaded_file = Some f -> (size f > 20 * 1024 * 1024)%Z ->
                fst (validate_image_file uploaded_file) = false).
Proof.
  unfold validate_image_file. split.
  - destruct uploaded_file as [f|].
    + destruct (Z.gtb_spec (size f) (20 * 1024 * 1024)) as [Hbig | Hsmall].
      * split; [discriminate |]. intros (g & Hg & Hle & _).
        injection Hg as <-. lia.
      * destruct (existsb (String.eqb (type f)) allowed_types) eqn:Hty;
          cbn [negb fst].
        -- split; [| reflexivity]. intros _. exists f.
           repeat split; [lia |]. now apply existsb_eqb_In.
        -- split; [discriminate |]. intros (g & Hg & _ & Hin).
           injection Hg as <-. apply existsb_eqb_In in Hin.
           unfold allowed_types in Hty. congruence.
    + split; [discriminate |]. intros (g & Hg & _). discriminate.
  - intros f -> Hbig.
    destruct (Z.gtb_spec (size f) (20 * 1024 * 1024)); [reflexivity | lia].
Qed.

Lemma validate_image_file_accepts_iff_witness :
  fst (validate_image_file (Some sample.huge_png)) = false
  /\ In (type sample.huge_png) allowed_types.
Proof.
  split.
  - apply (proj2 (validate_image_file_accepts_iff (Some sample.huge_png))
                 sample.huge_png); [reflexivity | vm_compute; reflexivity].
  - vm_compute. tauto.
Defined.

(** ** Base64 *)

Module Base64Facts.
Import Base64.
Local Open Scope N_scope.

Lemma all_bytes_complete (b : byte) : In b all_bytes.
Proof.
  assert (H : existsb (Byte.eqb b) all_bytes = true) by (destruct b; reflexivity).
  apply existsb_exists in H as (c & Hc & Heq).
  apply Byte.byte_dec_bl in Heq. now subst.
Qed.

Lemma check_bytes (P : byte -> bool) :
  forallb P all_bytes = true -> forall b, P b = true.
Proof.
  intros H b. rewrite forallb_forall in H. apply H, all_bytes_complete.
Qed.

Lemma check_byte_pairs (P : byte -> byte -> bool) :
  forallb (fun a => forallb (P a) all_bytes) all_bytes = true ->
  forall a b, P a b = true.
Proof.
  intros H a b. apply (check_bytes (P a)). revert a. now apply check_bytes.
Qed.

Lemma decodes_to_spec n :
  decodes_to n = true ->
  Byte.eqb (table_b2a_base64 n) BASE64_PAD = false
  /\ table_a2b_base64 (table_b2a_base64 n) = Some n.
Proof.
  unfold decodes_to. intros H. apply andb_true_iff in H as [Hpad Htab].
  split; [now apply negb_true_iff |].
  destruct (table_a2b_base64 (table_b2a_base64 n)); [| discriminate].
  apply N.eqb_eq in Htab. now subst.
Qed.

Lemma s0_decodes b0 : decodes_to (s0 b0) = true.
Proof. revert b0. apply check_bytes. vm_compute. reflexivity. Qed.

Lemma s3_decodes b2 : decodes_to (s3 b2) = true.
Proof. revert b2. apply check_bytes. vm_compute. reflexivity. Qed.

Lemma s1_last_decodes b0 : decodes_to (s1_last b0) = true.
Proof. revert b0. apply check_bytes. vm_compute. reflexivity. Qed.

Lemma s2_last_decodes b1 : decodes_to (s2_last b1) = true.
Proof. revert b1. apply check_bytes. vm_compute. reflexivity. Qed.

Lemma s1_decodes b0 b1 : decodes_to (s1 b0 b1) = true.
Proof. revert b0 b1. apply check_byte_pairs. vm_compute. reflexivity. Qed.

Lemma s2_decodes b1 b2 : decodes_to (s2 b1 b2) = true.
Proof. revert b1 b2. apply check_byte_pairs. vm_compute. reflexivity. Qed.

(** What the decoder's three assignments rebuild. *)
Lemma first_byte b0 b1 :
  u8 (N.lor (N.shiftl (s0 b0) 2) (N.shiftr (s1 b0 b1) 4)) = b0.
Proof.
  apply Byte.byte_dec_bl. revert b0 b1.
  apply (check_byte_pairs (fun b0 b1 =>
    Byte.eqb (u8 (N.lor (N.shiftl (s0 b0) 2) (N.shiftr (s1 b0 b1) 4))) b0)).
  vm_compute. reflexivity.
Qed.

Lemma first_byte_last b0 :
  u8 (N.lor (N.shiftl (s0 b0) 2) (N.shiftr (s1_last b0) 4)) = b0.
Proof.
  apply Byte.byte_dec_bl. revert b0.
  apply (check_bytes (fun b0 =>
    Byte.eqb (u8 (N.lor (N.shiftl (s0 b0) 2) (N.shiftr (s1_last b0) 4))) b0)).
  vm_compute. reflexivity.
Qed.

Lemma s1_low b0 b1 : N.land (s1 b0 b1) 15 = N.shiftr (Byte.to_N b1) 4.
Proof.
  apply N.eqb_eq. revert b0 b1.
  apply (check_byte_pairs (fun b0 b1 =>
    N.land (s1 b0 b1) 15 =? N.shiftr (Byte.to_N b1) 4)).
  vm_compute. reflexivity.
Qed.

Lemma second_byte b1 b2 :
  u8 (N.lor (N.shiftl (N.shiftr (Byte.to_N b1) 4) 4) (N.shiftr (s2 b1 b2) 2)) = b1.
Proof.
  apply Byte.byte_dec_bl. revert b1 b2.
  apply (check_byte_pairs (fun b1 b2 =>
    Byte.eqb (u8 (N.lor (N.shiftl (N.shiftr (Byte.to_N b1) 4) 4)
                        (N.shiftr (s2 b1 b2) 2))) b1)).
  vm_compute. reflexivity.
Qed.

Lemma second_byte_last b1 :
  u8 (N.lor (N.shiftl (N.shiftr (Byte.to_N b1) 4) 4) (N.shiftr (s2_last b1) 2)) = b1.
Proof.
  apply Byte.byte_dec_bl. revert b1.
  apply (check_bytes (fun b1 =>
    Byte.eqb (u8 (N.lor (N.shiftl (N.shiftr (Byte.to_N b1) 4) 4)
                        (N.shiftr (s2_last b1) 2))) b1)).
  vm_compute. reflexivity.
Qed.

Lemma s2_low b1 b2 : N.land (s2 b1 b2) 3 = N.shiftr (Byte.to_N b2) 6.
Proof.
  apply N.eqb_eq. revert b1 b2.
  apply (check_byte_pairs (fun b1 b2 =>
    N.land (s2 b1 b2) 3 =? N.shiftr (Byte.to_N b2) 6)).
  vm_compute. reflexivity.
Qed.

Lemma third_byte b2 :
  u8 (N.lor (N.shiftl (N.shiftr (Byte.to_N b2) 6) 6) (s3 b2)) = b2.
Proof.
  apply Byte.byte_dec_bl. revert b2.
  apply (check_bytes (fun b2 =>
    Byte.eqb (u8 (N.lor (N.shiftl (N.shiftr (Byte.to_N b2) 6) 6) (s3 b2))) b2)).
  vm_compute. reflexivity.
Qed.

(** One step of the decoder on an alphabet character. *)
Lemma a2b_loop_alphabet n rest quad_pos leftchar pads bin_data :
  decodes_to n = true ->
  a2b_loop (table_b2a_base64 n :: rest) quad_pos leftchar pads bin_data =
    if quad_pos =? 0 then a2b_loop rest 1 n 0 bin_data
    else if quad_pos =? 1 then
      a2b_loop rest 2 (N.land n 15) 0
        (bin_data ++ [u8 (N.lor (N.shiftl leftchar 2) (N.shiftr n 4))])
    else if quad_pos =? 2 then
      a2b_loop rest 3 (N.land n 3) 0
        (bin_data ++ [u8 (N.lor (N.shiftl leftchar 4) (N.shiftr n 2))])
    else
      a2b_loop rest 0 0 0 (bin_data ++ [u8 (N.lor (N.shiftl leftchar 6) n)]).
Proof.
  intros H. apply decodes_to_spec in H as [Hpad Htab].
  cbn [a2b_loop]. now rewrite Hpad, Htab.
Qed.

Lemma list_by_threes {A} (P : list A -> Prop) :
  P [] -> (forall a, P [a]) -> (forall a b, P [a; b]) ->
  (forall a b c l, P l -> P (a :: b :: c :: l)) ->
  forall l, P l.
Proof.
  intros H0 H1 H2 H3.
  assert (Hall : forall l, P l /\ (forall a, P (a :: l)) /\ (forall a b, P (a :: b :: l))).
  { induction l as [| c l (IH0 & IH1 & IH2)]; [now auto |].
    repeat split; auto. }
  intros l. apply Hall.
Qed.

Ltac decode_char n H :=
  rewrite (a2b_loop_alphabet n) by apply H; cbn [N.eqb Pos.eqb].

(** The decoder undoes the encoder, after whatever it has written. *)
Lemma a2b_loop_b64encode (data bin_data : bytes) :
  a2b_loop (b64encode data) 0 0 0 bin_data = Ret (bin_data ++ data).
Proof.
  revert bin_data. induction data as [| b0 | b0 b1 | b0 b1 b2 rest IH]
    using list_by_threes; intros bin_data.
  - cbn. now rewrite app_nil_r.
  - cbn [b64encode]. fold (s0 b0) (s1_last b0).
    decode_char (s0 b0) s0_decodes.
    decode_char (s1_last b0) s1_last_decodes.
    rewrite first_byte_last. reflexivity.
  - cbn [b64encode]. fold (s0 b0) (s1 b0 b1) (s2_last b1).
    decode_char (s0 b0) s0_decodes.
    decode_char (s1 b0 b1) s1_decodes.
    decode_char (s2_last b1) s2_last_decodes.
    rewrite s1_low, first_byte, second_byte_last.
    cbn. now rewrite <- !app_assoc.
  - cbn [b64encode]. fold (s0 b0) (s1 b0 b1) (s2 b1 b2) (s3 b2).
    decode_char (s0 b0) s0_decodes.
    decode_char (s1 b0 b1) s1_decodes.
    decode_char (s2 b1 b2) s2_decodes.
    decode_char (s3 b2) s3_decodes.
    rewrite s1_low, s2_low, first_byte, second_byte, third_byte, IH.
    now rewrite <- !app_assoc.
Qed.

Lemma a2b_base64_b64encode (data : bytes) :
  a2b_base64 (b64encode data) = Ret data.
Proof. unfold a2b_base64. now rewrite a2b_loop_b64encode. Qed.
End Base64Facts.

Module CodecFacts.
Import Base64.

Lemma table_b2a_base64_ascii (n : N) : in_range 0 127 (table_b2a_base64 n) = true.
Proof.
  unfold table_b2a_base64.
  destruct (nth_in_or_default (N.to_nat n) (list_byte_of_string alphabet) BASE64_PAD)
    as [Hin | ->]; [| reflexivity].
  assert (Hall : forallb (in_range 0 127) (list_byte_of_string alphabet) = true)
    by reflexivity.
  rewrite List.forallb_forall in Hall. now apply Hall.
Qed.

Lemma b64encode_ascii (data : bytes) :
  forallb (in_range 0 127) (b64encode data) = true.
Proof.
  induction data as [| b0 | b0 b1 | b0 b1 b2 rest IH] using Base64Facts.list_by_threes;
    cbn [b64encode forallb]; rewrite ?table_b2a_base64_ascii, ?IH; reflexivity.
Qed.

Lemma utf8_valid_ascii (data : bytes) :
  forallb (in_range 0 127) data = true -> utf8_valid data = true.
Proof.
  induction data as [| b rest IH]; [reflexivity |].
  cbn [forallb utf8_valid]. intros H. apply andb_true_iff in H as [Hb Hrest].
  rewrite Hb. now apply IH.
Qed.

(** ASCII bytes decode as UTF-8 to the string with these bytes... *)
Lemma decode_utf8_ascii (data : bytes) :
  forallb (in_range 0 127) data = true ->
  decode_utf8 data = Ret (string_of_list_byte data).
Proof. intros H. unfold decode_utf8. now rewrite utf8_valid_ascii. Qed.

(** ... which encodes back to them. *)
Lemma encode_ascii_of_ascii (data : bytes) :
  forallb (in_range 0 127) data = true ->
  encode_ascii (string_of_list_byte data) = Some data.
Proof.
  intros H. unfold encode_ascii.
  now rewrite list_byte_of_string_of_list_byte, H.
Qed.

Lemma b64decode_b64encode (data : bytes) :
    decode_utf8 (b64encode data) = Ret (string_of_list_byte (b64encode data))
    /\ b64decode (string_of_list_byte (b64encode data)) = Ret data.
  Proof.
    split; [apply decode_utf8_ascii, b64encode_ascii |].
    unfold b64decode.
    rewrite encode_ascii_of_ascii by apply b64encode_ascii.
    now rewrite Base64Facts.a2b_base64_b64encode.
  Qed.
End CodecFacts.

(** C7: the base64 string [encode_image] returns for a file, the UTF-8
    decoding of [b64encode] of its bytes, decodes with [b64decode] to exactly
    these bytes. *)
Theorem encode_image_b64decode_roundtrip
        (w : World) (st : state) (file_path : string) (data : bytes) :
  fs st !! file_path = Some data ->
  exists base64_image,
    encode_image w file_path st = (Ret base64_image, st)
    /\ Base64.b64decode base64_image = Ret data.
Proof.
  intros Hfile. exists (string_of_list_byte (Base64.b64encode data)).
  destruct (CodecFacts.b64decode_b64encode data) as [Hdec Hback].
  split; [| exact Hback].
  unfold encode_image, bind, read_file, lift_outcome.
  now rewrite Hfile, Hdec.
Qed.

Lemma encode_image_b64decode_roundtrip_witness :
  exists base64_image,
    encode_image (sample.world []) "/tmp/cat.png"
      (set_fs (insert "/tmp/cat.png" (getvalue sample.cat_png)) sample.st0)
    = (Ret base64_image,
       set_fs (insert "/tmp/cat.png" (getvalue sample.cat_png)) sample.st0)
    /\ Base64.b64decode base64_image = Ret (getvalue sample.cat_png).
Proof.
  apply (encode_image_b64decode_roundtrip (sample.world [])
           (set_fs (insert "/tmp/cat.png" (getvalue sample.cat_png)) sample.st0)
           "/tmp/cat.png" (getvalue sample.cat_png)).
  vm_compute. reflexivity.
Defined.

(** ** Temporary files *)

Lemma append_assoc (a b c : string) : (a +:+ b) +:+ c = a +:+ b +:+ c.
Proof.
  induction a as [| x a IH]; [reflexivity |].
  change (String x ((a +:+ b) +:+ c) = String x (a +:+ b +:+ c)). now f_equal.
Qed.

Lemma path_join_ends (dir name : string) :
  exists stem, path_join dir name = stem +:+ name.
Proof.
  unfold path_join. destruct (String.eqb dir ""); [now exists "" |].
  destruct (endswith dir "/"); [now exists dir |].
  exists (dir +:+ "/"). now rewrite append_assoc.
Qed.

(** The last piece of [s.split(".")] holds no dot, and [s] is this piece,
    or some text, a dot and this piece. *)
Lemma split_last_piece (s : string) :
  exists pieces ext,
    split "." s = pieces ++ [ext]
    /\ (forall c, In c (list_ascii_of_string ext) -> c <> "."%char)
    /\ ((pieces = [] /\ s = ext)
        \/ (pieces <> [] /\ exists stem, s = stem +:+ "." +:+ ext)).
Proof.
  induction s as [| c s (pieces & ext & Hsplit & Hdot & Hshape)].
  - exists [], "". repeat split; [intros c [] | now left].
  - cbn [split]. destruct (Ascii.eqb_spec c ".") as [-> | Hc].
    + exists ("" :: pieces), ext. rewrite Hsplit. repeat split; [assumption |].
      right. split; [discriminate |].
      destruct Hshape as [[_ ->] | [_ [stem ->]]];
        [now exists "" | now exists (String "." stem)].
    + rewrite Hsplit. destruct pieces as [| piece pieces]; cbn [app].
      * exists [], (String c ext). repeat split.
        -- intros x [<- | Hx]; [assumption | now apply Hdot].
        -- left. destruct Hshape as [[_ ->] | [Hne _]]; [easy | now destruct Hne].
      * exists (String c piece :: pieces), ext. repeat split; [assumption |].
        right. split; [discriminate |].
        destruct Hshape as [[Hnil _] | [_ [stem ->]]];
          [discriminate | now exists (String c stem)].
Qed.

Lemma extension_shape (f : UploadedFile) :
  (forall c, In c (list_ascii_of_string (extension f)) -> c <> "."%char)
  /\ (name f = extension f \/ exists stem, name f = stem +:+ "." +:+ extension f).
Proof.
  unfold extension.
  destruct (split_last_piece (name f)) as (pieces & ext & -> & Hdot & Hshape).
  rewrite last_last. split; [assumption |].
  destruct Hshape as [[_ ->] | [_ Hstem]]; [now left | now right].
Qed.

Section TempFiles.
Variable w : World.

(** A name that [mkstemp_inner] returns is one of the candidates tried, is
    free, and [os.open] took it. *)
Lemma mkstemp_inner_found files suffix seq tries file seq' :
  mkstemp_inner w files suffix seq tries = (Ret file, seq') ->
  files !! file = None
  /\ os_open_error w file = None
  /\ exists k, (k < tries)%nat /\ file = candidate_path w suffix (seq + k)
               /\ seq' = S (seq + k).
Proof.
  revert seq. induction tries as [| tries IH]; intros seq; cbn [mkstemp_inner];
    [discriminate |].
  fold (candidate_path w suffix seq).
  assert (Hnext : mkstemp_inner w files suffix (S seq) tries = (Ret file, seq') ->
                  files !! file = None /\ os_open_error w file = None
                  /\ exists k, (k < S tries)%nat
                               /\ file = candidate_path w suffix (seq + k)
                               /\ seq' = S (seq + k)).
  { intros H. apply IH in H as (Hfree & Hopen & k & Hk & -> & ->).
    split; [assumption |]. split; [assumption |]. exists (S k).
    replace (seq + S k)%nat with (S seq + k)%nat by lia. repeat split. lia. }
  destruct (files !! candidate_path w suffix seq) eqn:Hcand; [exact Hnext |].
  destruct (os_open_error w (candidate_path w suffix seq)) as [e |] eqn:Hopen.
  - destruct (is_FileExistsError e); [exact Hnext | discriminate].
  - intros [= <- <-]. split; [assumption |]. split; [assumption |]. exists 0%nat.
    rewrite Nat.add_0_r. repeat split. lia.
Qed.

(** When the [k]-th of the next [tries] names is free and opens, and
    [os.open] raises nothing but [FileExistsError] on the names before it, a
    name is found. *)
Lemma mkstemp_inner_finds files suffix seq tries k :
  (k < tries)%nat ->
  files !! candidate_path w suffix (seq + k) = None ->
  os_open_error w (candidate_path w suffix (seq + k)) = None ->
  (forall j e, (j < k)%nat ->
               os_open_error w (candidate_path w suffix (seq + j)) = Some e ->
               is_FileExistsError e = true) ->
  exists file seq', mkstemp_inner w files suffix seq tries = (Ret file, seq').
Proof.
  revert seq k. induction tries as [| tries IH]; intros seq k Hk Hfree Hopen Hbefore;
    [lia |].
  cbn [mkstemp_inner].
  assert (Hnext : (0 < k)%nat ->
                  exists file seq',
                    mkstemp_inner w files suffix (S seq) tries = (Ret file, seq')).
  { intros Hpos. destruct k as [| k]; [lia |].
    apply (IH (S seq) k); [lia | | |].
    - now replace (S seq + k)%nat with (seq + S k)%nat by lia.
    - now replace (S seq + k)%nat with (seq + S k)%nat by lia.
    - intros j e Hj. replace (S seq + j)%nat with (seq + S j)%nat by lia.
      apply Hbefore. lia. }
  destruct (Nat.eq_dec k 0) as [-> | Hpos].
  - rewrite Nat.add_0_r in Hfree, Hopen. rewrite Hfree, Hopen. now eauto.
  - destruct (files !! candidate_path w suffix seq) eqn:Hcand; [apply Hnext; lia |].
    destruct (os_open_error w (candidate_path w suffix seq)) as [e |] eqn:Hfirst;
      [| now eauto].
    assert (He : is_FileExistsError e = true).
    { apply (Hbefore 0%nat e); [lia | now rewrite Nat.add_0_r]. }
    rewrite He. apply Hnext. lia.
Qed.

Lemma candidate_path_ends suffix n :
  exists stem, candidate_path w suffix n = stem +:+ suffix.
Proof.
  unfold candidate_path.
  destruct (path_join_ends (tmpdir w) ("tmp" +:+ candidate_name w n +:+ suffix))
    as [stem ->].
  exists (stem +:+ "tmp" +:+ candidate_name w n).
  now rewrite !append_assoc.
Qed.

(** What a call of [save_uploaded_file] that returns has done. *)
Lemma save_uploaded_file_returns f st path st' :
  save_uploaded_file w f st = (Ret path, st') ->
  fs st !! path = None
  /\ (exists stem, path = stem +:+ "." +:+ extension f)
  /\ fs st' = <[path := getvalue f]> (fs st)
  /\ temp_files st' = temp_files st /\ trace st' = trace st
  /\ registered st' = registered st.
Proof.
  unfold save_uploaded_file, NamedTemporaryFile, f_write, bind, get, modify, ret, raise.
  destruct (mkstemp_inner w (fs st) ("." +:+ extension f) (tmp_seq st) (TMP_MAX w))
    as [[file | e] seq'] eqn:Hmk; [| discriminate].
  cbn [fst snd].
  destruct (write_error w file (getvalue f)) as [[e written] |]; [discriminate |].
  intros [= <- <-]. cbn.
  apply mkstemp_inner_found in Hmk as (Hfree & _ & k & _ & -> & _).
  repeat split; [assumption | apply candidate_path_ends |].
  apply insert_insert_eq.
Qed.
End TempFiles.

(** C8: say the [k]-th of the next [TMP_MAX] candidate names is free and
    [os.open] accepts it, [os.open] raises nothing but [FileExistsError] on
    the candidates before it, and the write into the new file does not fail.
    Then [save_uploaded_file] returns a path that no existing file has (so it
    differs from every temporary file still present), that ends with a dot
    followed by the extension of the upload's name, and that now holds the
    upload's bytes, all other files being untouched.  The extension is the
    text after the last dot of the name. *)
Theorem save_uploaded_file_fresh_with_extension
        (w : World) (f : UploadedFile) (st : state) (k : nat) :
  let candidate := candidate_path w ("." +:+ extension f) in
  (k < TMP_MAX w)%nat ->
  fs st !! candidate (tmp_seq st + k)%nat = None ->
  os_open_error w (candidate (tmp_seq st + k)%nat) = None ->
  (forall j e, (j < k)%nat -> os_open_error w (candidate (tmp_seq st + j)%nat) = Some e ->
               is_FileExistsError e = true) ->
  (forall j, (j <= k)%nat ->
             write_error w (candidate (tmp_seq st + j)%nat) (getvalue f) = None) ->
  exists path st',
    save_uploaded_file w f st = (Ret path, st')
    /\ fs st !! path = None
    /\ (exists stem, path = stem +:+ "." +:+ extension f)
    /\ fs st' = <[path := getvalue f]> (fs st)
    /\ (forall c, In c (list_ascii_of_string (extension f)) -> c <> "."%char)
    /\ (name f = extension f \/ exists stem, name f = stem +:+ "." +:+ extension f).
Proof.
  intros candidate Hk Hfree Hopen Hbefore Hwrite.
  destruct (mkstemp_inner_finds w (fs st) ("." +:+ extension f) (tmp_seq st)
              (TMP_MAX w) k Hk Hfree Hopen Hbefore) as (file & seq' & Hmk).
  assert (Hfile : exists j, (j <= k)%nat /\ file = candidate (tmp_seq st + j)%nat).
  { clear Hwrite. revert Hmk Hfree Hopen. generalize (tmp_seq st) as seq.
    generalize (TMP_MAX w) as tries. clear Hk Hbefore. revert k.
    intros k tries. revert k.
    induction tries as [| tries IH]; intros k seq; cbn [mkstemp_inner];
      [discriminate |].
    fold (candidate seq). intros Hmk Hfree Hopen.
    destruct k as [| k].
    - rewrite Nat.add_0_r in Hfree, Hopen. rewrite Hfree, Hopen in Hmk.
      injection Hmk as <- _. exists 0%nat. now rewrite Nat.add_0_r.
    - assert (Hnext : mkstemp_inner w (fs st) ("." +:+ extension f) (S seq) tries
                      = (Ret file, seq') ->
                      exists j, (j <= S k)%nat /\ file = candidate (seq + j)%nat).
      { intros H. destruct (IH k (S seq) H) as (j & Hj & ->).
        - now replace (S seq + k)%nat with (seq + S k)%nat by lia.
        - now replace (S seq + k)%nat with (seq + S k)%nat by lia.
        - exists (S j). split; [lia |]. f_equal. lia. }
      destruct (fs st !! candidate seq); [now apply Hnext |].
      destruct (os_open_error w (candidate seq)) as [e |].
      + destruct (is_FileExistsError e); [now apply Hnext | discriminate].
      + injection Hmk as <- _. exists 0%nat. split; [lia |]. now rewrite Nat.add_0_r. }
  destruct Hfile as (j & Hj & Hfile).
  assert (Hrun : exists st', save_uploaded_file w f st = (Ret file, st')).
  { unfold save_uploaded_file, NamedTemporaryFile, f_write, bind, get, modify, ret.
    rewrite Hmk. cbn [fst snd]. rewrite Hfile, (Hwrite j Hj). now eauto. }
  destruct Hrun as [st' Hrun]. exists file, st'.
  destruct (save_uploaded_file_returns w f st file st' Hrun) as (H1 & H2 & H3 & _).
  destruct (extension_shape f) as [H4 H5].
  now repeat split.
Qed.

Lemma save_uploaded_file_fresh_with_extension_witness :
  exists path st',
    save_uploaded_file (sample.world []) sample.mask_jpg sample.st0 = (Ret path, st')
    /\ fs sample.st0 !! path = None
    /\ (exists stem, path = stem +:+ "." +:+ extension sample.mask_jpg)
    /\ fs st' = <[path := getvalue sample.mask_jpg]> (fs sample.st0)
    /\ (forall c, In c (list_ascii_of_string (extension sample.mask_jpg)) ->
                  c <> "."%char)
    /\ (name sample.mask_jpg = extension sample.mask_jpg
        \/ exists stem, name sample.mask_jpg = stem +:+ "." +:+ extension sample.mask_jpg).
Proof.
  apply (save_uploaded_file_fresh_with_extension
           (sample.world []) sample.mask_jpg sample.st0 0);
    [ vm_compute; lia | vm_compute; reflexivity | reflexivity
    | intros j e Hj; lia | intros j Hj; reflexivity ].
Defined.

Example save_uploaded_file_sample :
  fst (save_uploaded_file (sample.world []) sample.mask_jpg sample.st0)
  = Ret "/tmp/tmpn0.jpg".
Proof. vm_compute. reflexivity. Qed.

(** An extension with a slash names a file in a directory that does not
    exist: [os.open] raises, and so does [save_uploaded_file], before any
    file is made. *)
Example save_uploaded_file_slash :
  let run := save_uploaded_file sample_failures.no_such_directory sample.slash_name
               sample.st0 in
  fst run = Raise (Exc FileNotFoundError
                     "[Errno 2] No such file or directory: '/tmp/tmpn0.a/b'")
  /\ fs (snd run) = fs sample.st0.
Proof. vm_compute. split; reflexivity. Qed.

(** ** Running statements *)

Section MonadFacts.
Context {S A B : Type}.

Lemma bind_returns (c : Py S A) (k : A -> Py S B) s a s' :
  c s = (Ret a, s') -> bind c k s = k a s'.
Proof. intros H. unfold bind. now rewrite H. Qed.

Lemma bind_raises (c : Py S A) (k : A -> Py S B) s e s' :
    c s = (Raise e, s') -> bind c k s = (Raise e, s').
  Proof. intros H. unfold bind. now rewrite H. Qed.
End MonadFacts.

(** ** Cleanup of temporary files *)

Section Cleanup.
Variable w : World.

(** One guarded delete: it returns normally whatever [os.unlink] did, and
    leaves one [unlink_call] in the trace. *)
Lemma guarded_unlink_returns (path : string) (st : state) :
  exists deleted st',
    try_except (os_unlink w path) (fun _ => Some (ret tt)) st = (Ret tt, st')
    /\ trace st' = trace st ++ [unlink_call path deleted]
    /\ temp_files st' = temp_files st.
Proof.
  unfold try_except, os_unlink, bind, get, emit, modify, raise, ret.
  destruct (fs st !! path); [destruct (unlink_denied w path) |]; cbn; eauto.
Qed.

Lemma unlink_loop_returns (paths : list string) (st : state) :
  exists deleted st',
    for_each paths
      (fun temp_file => try_except (os_unlink w temp_file) (fun _ => Some (ret tt))) st
    = (Ret tt, st')
    /\ length deleted = length paths
    /\ trace st' = trace st ++ zip_with unlink_call paths deleted
    /\ temp_files st' = temp_files st.
Proof.
  revert st. induction paths as [| path paths IH]; intros st.
  - exists [], st. cbn. now rewrite app_nil_r.
  - destruct (guarded_unlink_returns path st) as (d & st1 & Hrun & Htr & Htf).
    destruct (IH st1) as (ds & st2 & Hrest & Hlen & Htr2 & Htf2).
    exists (d :: ds), st2. cbn [for_each].
    rewrite (bind_returns _ _ _ _ _ Hrun), Hrest.
    repeat split; cbn; [now rewrite Hlen | | congruence].
    now rewrite Htr2, Htr, <- app_assoc.
Qed.

(** The [finally] block never raises: it tries every path of
    [temp_files], in order. *)
Lemma cleanup_returns (st : state) :
  exists deleted st',
    cleanup w st = (Ret tt, st')
    /\ length deleted = length (temp_files st)
    /\ trace st' = trace st ++ zip_with unlink_call (temp_files st) deleted
    /\ temp_files st' = temp_files st.
Proof.
  unfold cleanup, bind, get.
  destruct (unlink_loop_returns (temp_files st) st) as (ds & st' & H); eauto.
Qed.

Lemma guarded_cleans_up (body : Py state unit) (st : state) :
    cleans_up body (guarded w body) st.
  Proof.
    unfold cleans_up, guarded, try_except, try_finally, bind, modify.
    destruct (body (set_temp_files [] st)) as [rb sb] eqn:Hbody.
    destruct (cleanup_returns sb) as (ds & sc & Hclean & Hlen & Htr & Htf).
    rewrite Hclean.
    destruct rb as [[] | [cls msg | | code]]; cbn.
    - exists ds. now rewrite app_nil_r.
    - exists ds. unfold emit, modify, bind. cbn.
      rewrite Htr, <- !app_assoc. now repeat split.
    - exists ds. now rewrite app_nil_r.
    - exists ds. now rewrite app_nil_r.
  Qed.
End Cleanup.

(** C1: in both apps the generate handler, once past its input checks, makes
    one delete attempt for every path appended to [temp_files] by the body of
    its inner [try], after that body has ended and before the handler
    returns, whether the body returned or raised (a failed save,
    registration or generation included); a delete that fails is skipped
    over: the later ones are still tried and the handler's result is the
    body's, with an [Exception] reported on the page. *)
Theorem generate_handlers_clean_up (w : World) (st : state) :
  (forall uploaded_file rest prompt,
      String.eqb prompt "" = false ->
      cleans_up (streamlit_app.generate_body w (uploaded_file :: rest) prompt)
                (streamlit_app.generate w (uploaded_file :: rest) prompt) st)
  /\ (forall base mask prompt quality output_filename,
         String.eqb prompt "" = false ->
         cleans_up (image_masking_streamlit.generate_body w base mask prompt quality
                      output_filename)
                   (image_masking_streamlit.generate w (Some base) (Some mask) prompt
                      quality output_filename) st).
Proof.
  split.
  - intros f rest prompt Hprompt. unfold streamlit_app.generate. rewrite Hprompt.
    apply (guarded_cleans_up w).
  - intros base mask prompt quality out Hprompt.
    unfold image_masking_streamlit.generate. rewrite Hprompt.
    apply (guarded_cleans_up w).
Qed.

Lemma generate_handlers_clean_up_witness :
  cleans_up (streamlit_app.generate_body (sample.world []) [sample.cat_png] "draw")
            (streamlit_app.generate (sample.world []) [sample.cat_png] "draw")
            sample.st0.
Proof.
  apply (proj1 (generate_handlers_clean_up (sample.world []) sample.st0)
               sample.cat_png [] "draw").
  reflexivity.
Defined.

(** ** Which steps call the generation endpoint *)

Section Silent.
Context {A : Type}.

Lemma silent_ret (a : A) : silent (ret a).
Proof. now intros s. Qed.

Lemma silent_raise (e : exn) : silent (raise (A := A) e).
Proof. now intros s. Qed.

Lemma silent_lift_outcome (o : outcome A) : silent (lift_outcome o).
Proof. now intros s. Qed.

Lemma silent_bind {B} (c : Py state B) (k : B -> Py state A) :
  silent c -> (forall b, silent (k b)) -> silent (bind c k).
Proof.
  intros Hc Hk s. unfold bind. specialize (Hc s).
  destruct (c s) as [[b | e] s1]; cbn in *; [| assumption].
  now rewrite Hk.
Qed.

Lemma silent_try_except (c : Py state A) (clauses : exn -> option (Py state A)) :
  silent c -> (forall e h, clauses e = Some h -> silent h) ->
  silent (try_except c clauses).
Proof.
  intros Hc Hh s. unfold try_except. specialize (Hc s).
  destruct (c s) as [[a | e] s1]; cbn in *; [assumption |].
  destruct (clauses e) as [h |] eqn:Hcl; [| assumption].
  now rewrite (Hh e h Hcl).
Qed.
End Silent.

Lemma silent_get : silent get.
Proof. now intros s. Qed.

Lemma silent_modify (f : state -> state) :
  (forall s, trace (f s) = trace s) -> silent (modify f).
Proof. intros H s. cbn. now rewrite H. Qed.

Lemma requests_made_app (t u : list event) :
  requests_made (t ++ u) = requests_made t ++ requests_made u.
Proof. unfold requests_made. apply omap_app. Qed.

Lemma silent_emit (e : event) : requests_made [e] = [] -> silent (emit e).
Proof. intros H s. cbn. now rewrite requests_made_app, H, app_nil_r. Qed.

Lemma silent_for_each {X} (xs : list X) (body : X -> Py state unit) :
  (forall x, silent (body x)) -> silent (for_each xs body).
Proof.
  intros H. induction xs as [| x xs IH]; cbn [for_each];
    [apply silent_ret | apply silent_bind; auto].
Qed.

Ltac silence :=
  repeat first
    [ apply silent_ret | apply silent_raise | apply silent_lift_outcome
    | apply silent_get
    | apply silent_emit; reflexivity
    | apply silent_modify; intros ?; reflexivity
    | apply silent_bind; [| intros ?]
    | match goal with
      | |- silent (match ?x with _ => _ end) => destruct x
      end ].

Section SilentSteps.
Variable w : World.

Lemma silent_read_file path : silent (read_file w path).
Proof. intros s. unfold read_file. now destruct (fs s !! path). Qed.

Lemma silent_f_write path data : silent (f_write w path data).
Proof. unfold f_write. silence. Qed.

Lemma silent_write_file path data : silent (write_file w path data).
Proof. unfold write_file. silence. apply silent_f_write. Qed.

Lemma silent_show_image image caption : silent (show_image w image caption).
Proof. unfold show_image. silence. Qed.

Lemma silent_os_unlink path : silent (os_unlink w path).
Proof. unfold os_unlink. silence. Qed.

Lemma silent_cleanup : silent (cleanup w).
Proof.
  unfold cleanup. silence. apply silent_for_each. intros x.
  apply silent_try_except; [apply silent_os_unlink |].
  intros e h [= <-]. apply silent_ret.
Qed.

Lemma silent_save_uploaded_file f : silent (save_uploaded_file w f).
Proof. unfold save_uploaded_file, NamedTemporaryFile. silence. apply silent_f_write. Qed.

Lemma silent_get_openai_client : silent (get_openai_client w).
Proof. unfold get_openai_client. silence. Qed.

Lemma silent_create_file path : silent (create_file w path).
Proof.
  unfold create_file. silence;
    [apply silent_get_openai_client | apply silent_read_file].
Qed.

Lemma silent_encode_image path : silent (encode_image w path).
Proof. unfold encode_image. silence. apply silent_read_file. Qed.

Lemma silent_temp_files_append path : silent (temp_files_append path).
Proof. unfold temp_files_append. silence. Qed.

Lemma silent_report_no_image msg r : silent (report_no_image msg r).
Proof. unfold report_no_image. silence. Qed.

Lemma silent_process_uploads valid_files base64_images file_ids :
  silent (streamlit_app.process_uploads w valid_files base64_images file_ids).
Proof.
  revert base64_images file_ids.
  induction valid_files as [| f rest IH]; intros b64 ids;
    cbn [streamlit_app.process_uploads]; silence;
    auto using silent_read_file, silent_get_openai_client, silent_f_write.
Qed.

Lemma silent_show_images i image_data :
  silent (streamlit_app.show_images w i image_data).
Proof.
  revert i. induction image_data as [| d rest IH]; intros i;
    cbn [streamlit_app.show_images]; silence; [apply silent_show_image | apply IH].
Qed.

Lemma silent_present_response r : silent (streamlit_app.present_response w r).
Proof.
  unfold streamlit_app.present_response.
  destruct (map result (image_generation_calls r));
    [apply silent_report_no_image
    | silence; first [apply silent_show_image | apply silent_show_images]].
Qed.

Lemma silent_register_images base mask :
  silent (image_masking_streamlit.register_images w base mask).
Proof.
  unfold image_masking_streamlit.register_images. silence;
    auto using silent_read_file, silent_get_openai_client, silent_f_write.
Qed.

Lemma silent_masked_present_response r out :
  silent (image_masking_streamlit.present_response w r out).
Proof.
  unfold image_masking_streamlit.present_response.
  destruct (map result (image_generation_calls r));
    [apply silent_report_no_image |].
  unfold image_masking_streamlit.show_first. silence;
    [apply silent_show_image | apply silent_write_file].
Qed.
End SilentSteps.

(** ** What the steps of a handler return *)

Lemma bind_inv {S A B} (c : Py S A) (k : A -> Py S B) s b s' :
  bind c k s = (Ret b, s') ->
  exists a s1, c s = (Ret a, s1) /\ k a s1 = (Ret b, s').
Proof.
  unfold bind. destruct (c s) as [[a | e] s1]; [now eauto | discriminate].
Qed.

Lemma encode_image_reads (w : World) (path : string) (data : bytes) (s : state) :
  fs s !! path = Some data ->
  encode_image w path s = (Ret (string_of_list_byte (Base64.b64encode data)), s).
Proof.
  intros Hfile. unfold encode_image, bind, read_file, lift_outcome.
  rewrite Hfile. now destruct (CodecFacts.b64decode_b64encode data) as [-> _].
Qed.

Section Registration.
Variable w : World.

(** A registration that returns has sent the file's bytes, once, and got
    its id from the endpoint. *)
Lemma create_file_returns (path : string) (data : bytes) (id : string) (s s' : state) :
  create_file w path s = (Ret id, s') ->
  fs s !! path = Some data ->
  client_error w = None
  /\ files_create w (registered s) data = Ret id
  /\ registered s' = S (registered s)
  /\ fs s' = fs s /\ temp_files s' = temp_files s
  /\ trace s' = trace s ++ [files_create_call data "vision"].
Proof.
  unfold create_file, get_openai_client, bind, read_file, get, emit, modify,
    lift_outcome, raise, ret.
  intros Hrun Hfile. destruct (client_error w); [discriminate |].
  rewrite Hfile in Hrun. cbn in Hrun.
  destruct (files_create w (registered s) data) eqn:Hcreate; [| discriminate].
  injection Hrun as <- <-. now repeat split.
Qed.

(** Saving, remembering, encoding and registering one upload. *)
Lemma upload_step_returns (f : UploadedFile) (s : state) path s1 b64 s2 id s3 :
  save_uploaded_file w f s = (Ret path, s1) ->
  encode_image w path (snd (temp_files_append path s1)) = (Ret b64, s2) ->
  create_file w path s2 = (Ret id, s3) ->
  b64 = string_of_list_byte (Base64.b64encode (getvalue f))
  /\ files_create w (registered s) (getvalue f) = Ret id
  /\ registered s3 = S (registered s)
  /\ client_error w = None.
Proof.
  intros Hsave Henc Hreg.
  apply save_uploaded_file_returns in Hsave as (_ & _ & Hfs & _ & _ & Hn).
  assert (Hfile : fs (snd (temp_files_append path s1)) !! path = Some (getvalue f))
    by (cbn; rewrite Hfs; apply lookup_insert_eq).
  rewrite (encode_image_reads w _ _ _ Hfile) in Henc. injection Henc as <- <-.
  destruct (create_file_returns _ _ _ _ _ Hreg Hfile) as (Hc & Hid & Hn3 & _).
  cbn in Hid, Hn3. rewrite Hn in Hid, Hn3. now repeat split.
Qed.

Lemma process_uploads_returns valid_files acc_b64 acc_ids st b64s ids st1 :
  streamlit_app.process_uploads w valid_files acc_b64 acc_ids st = (Ret (b64s, ids), st1) ->
  b64s = acc_b64
         ++ map (fun f => string_of_list_byte (Base64.b64encode (getvalue f))) valid_files
  /\ exists new_ids,
       ids = acc_ids ++ new_ids
       /\ length new_ids = length valid_files
       /\ (forall i f id,
              valid_files !! i = Some f -> new_ids !! i = Some id ->
              files_create w (registered st + i) (getvalue f) = Ret id)
       /\ (valid_files <> [] -> client_error w = None).
Proof.
  revert acc_b64 acc_ids st.
  induction valid_files as [| f rest IH]; intros acc_b64 acc_ids st Hrun.
  - injection Hrun as <- <- <-. rewrite app_nil_r. split; [reflexivity |].
    exists []. rewrite app_nil_r. repeat split; [| easy].
    intros i f id Hf. now rewrite lookup_nil in Hf.
  - cbn [streamlit_app.process_uploads] in Hrun.
    apply bind_inv in Hrun as (path & s1 & Hsave & Hrun).
    apply bind_inv in Hrun as ([] & s1' & Happ & Hrun).
    apply bind_inv in Hrun as (b64 & s2 & Henc & Hrun).
    apply bind_inv in Hrun as (id & s3 & Hreg & Hrun).
    injection Happ as <-.
    destruct (upload_step_returns f st path s1 b64 s2 id s3 Hsave Henc Hreg)
      as (-> & Hid & Hn & Hclient).
    apply IH in Hrun as (-> & new_ids & -> & Hlen & Hids & _).
    split; [now rewrite <- app_assoc |].
    exists (id :: new_ids). rewrite <- app_assoc.
    repeat split; [cbn; now rewrite Hlen | | easy].
    intros [| i] g id' Hg Hid'; cbn in Hg, Hid'.
    + injection Hg as <-. injection Hid' as <-. now rewrite Nat.add_0_r.
    + specialize (Hids i g id' Hg Hid'). rewrite Hn in Hids.
      now replace (registered st + S i)%nat with (S (registered st) + i)%nat by lia.
Qed.
End Registration.

(** ** The generator's request *)

Lemma fold_left_append {X Y} (g : X -> Y) (xs : list X) (acc : list Y) :
  fold_left (fun acc x => acc ++ [g x]) xs acc = acc ++ map g xs.
Proof.
  revert acc. induction xs as [| x xs IH]; intros acc; cbn;
    [now rewrite app_nil_r | now rewrite IH, <- app_assoc].
Qed.

Lemma compose_content_entries (prompt : string) (base64_images file_ids : list string) :
  streamlit_app.compose_content prompt base64_images file_ids
  = input_text prompt
    :: map (fun b => input_image_url ("data:image/jpeg;base64," +:+ b)) base64_images
    ++ map input_image_file file_ids.
Proof.
  unfold streamlit_app.compose_content.
  rewrite (fold_left_append
             (fun b => input_image_url ("data:image/jpeg;base64," +:+ b))),
          (fold_left_append input_image_file).
  now rewrite <- app_assoc.
Qed.

Section Handlers.
Variable w : World.

(** A handler run, from the run of its inner [try] body. *)
Lemma guarded_runs (body : Py state unit) (st : state) rb sb :
  body (set_temp_files [] st) = (rb, sb) ->
  exists deleted st',
    guarded w body st = (absorbed rb, st')
    /\ length deleted = length (temp_files sb)
    /\ trace st' = trace sb ++ zip_with unlink_call (temp_files sb) deleted ++ reported rb.
Proof.
  intros Hbody. pose proof (guarded_cleans_up w body st) as H.
  unfold cleans_up in H. rewrite Hbody in H.
  destruct (guarded w body st) as [r st'].
  destruct H as (deleted & Hlen & Htr & _ & ->). now exists deleted, st'.
Qed.

Lemma omap_unlinks {X} (f : event -> option X)
      (paths : list string) (deleted : list bool) :
  (forall p d, f (unlink_call p d) = None) ->
  omap f (zip_with unlink_call paths deleted) = [].
Proof.
  intros Hf. revert deleted.
  induction paths as [| p paths IH]; intros [| d ds]; cbn; auto.
  now rewrite Hf.
Qed.

Lemma requests_made_unlinks (paths : list string) (deleted : list bool) :
  requests_made (zip_with unlink_call paths deleted) = [].
Proof. now apply omap_unlinks. Qed.

Lemma requests_made_reported (r : outcome unit) : requests_made (reported r) = [].
Proof. now destruct r as [| [ | | ]]. Qed.

(** The requests of a handler run are those of its body. *)
Lemma guarded_requests (body : Py state unit) (st : state) :
  requests_made (trace (snd (guarded w body st)))
  = requests_made (trace (snd (body (set_temp_files [] st)))).
Proof.
  destruct (body (set_temp_files [] st)) as [rb sb] eqn:Hbody.
  destruct (guarded_runs body st rb sb Hbody) as (deleted & st' & Hrun & _ & Htr).
  rewrite Hrun. cbn [snd]. rewrite Htr.
  now rewrite !requests_made_app, requests_made_unlinks, requests_made_reported,
    !app_nil_r.
Qed.

(** The generator's body once the uploads went through: the request is
    recorded and sent, and the answer, if any, presented. *)
Lemma generate_body_uploaded valid_files prompt st b64s ids st1 :
  streamlit_app.process_uploads w valid_files [] [] st = (Ret (b64s, ids), st1) ->
  client_error w = None ->
  let req := streamlit_app.compose_request
               (streamlit_app.compose_content prompt b64s ids) in
  streamlit_app.generate_body w valid_files prompt st
  = bind (lift_outcome (responses_create w req))
         (streamlit_app.present_response w)
         (snd (emit (responses_create_call req) st1)).
Proof.
  intros Hup Hclient req. unfold streamlit_app.generate_body.
  rewrite (bind_returns _ _ _ _ _ Hup). cbn [fst snd].
  unfold get_openai_client. rewrite Hclient. reflexivity.
Qed.
End Handlers.

(** C5: once the uploads of a generation went through, the handler sends
    exactly one request; its content list is the prompt as one text entry,
    then one inline [data:image/jpeg;base64,...] entry per upload, then one
    file-id entry per upload, both in upload order: the base64 strings are
    those of the uploads' bytes and the ids those the registrations of these
    bytes returned. *)
Theorem generate_sends_each_image_twice
        (w : World) (uploaded_file : UploadedFile) (rest : list UploadedFile)
        (prompt : string) (st st1 : state) (base64_images file_ids : list string) :
  String.eqb prompt "" = false ->
  streamlit_app.process_uploads w (uploaded_file :: rest) [] [] (set_temp_files [] st)
  = (Ret (base64_images, file_ids), st1) ->
  requests_made (trace (snd (streamlit_app.generate w (uploaded_file :: rest) prompt st)))
  = requests_made (trace st)
    ++ [ {| model := "gpt-4o";
            input := [ {| role := "user";
                          content :=
                            input_text prompt
                            :: map (fun b => input_image_url ("data:image/jpeg;base64," +:+ b))
                                   base64_images
                            ++ map input_image_file file_ids |} ];
            tools := [ {| tool_type := "image_generation";
                          quality := None; input_image_mask := None |} ] |} ]
  /\ base64_images
     = map (fun f => string_of_list_byte (Base64.b64encode (getvalue f)))
           (uploaded_file :: rest)
  /\ length file_ids = length (uploaded_file :: rest)
  /\ (forall i f id,
         (uploaded_file :: rest) !! i = Some f -> file_ids !! i = Some id ->
         files_create w (registered st + i) (getvalue f) = Ret id).
Proof.
  intros Hprompt Hup.
  destruct (process_uploads_returns w _ _ _ _ _ _ _ Hup)
    as (Hb64 & new_ids & Hids & Hlen & Hreg & Hclient).
  cbn [app] in Hb64, Hids. subst new_ids.
  specialize (Hclient ltac:(discriminate)).
  repeat split; [| exact Hb64 | exact Hlen | exact Hreg].
  unfold streamlit_app.generate. rewrite Hprompt.
  change (try_except _ report_exception)
    with (guarded w (streamlit_app.generate_body w (uploaded_file :: rest) prompt)).
  rewrite guarded_requests.
  rewrite (generate_body_uploaded w _ prompt _ _ _ _ Hup Hclient).
  rewrite compose_content_entries.
  match goal with |- context [bind ?c ?k ?s] =>
    assert (Hs : silent (bind c k))
      by (apply silent_bind; [apply silent_lift_outcome | apply silent_present_response]);
    rewrite (Hs s)
  end.
  cbn [emit modify snd trace]. rewrite requests_made_app.
  pose proof (silent_process_uploads w (uploaded_file :: rest) [] []
                (set_temp_files [] st)) as Hq.
  rewrite Hup in Hq. cbn in Hq. now rewrite Hq.
Qed.

Lemma generate_sends_each_image_twice_witness :
  requests_made
    (trace (snd (streamlit_app.generate (sample.world [])
                   [sample.cat_png; sample.mask_jpg] "draw" sample.st0)))
  = [ {| model := "gpt-4o";
         input := [ {| role := "user";
                       content :=
                         [ input_text "draw";
                           input_image_url
                             ("data:image/jpeg;base64," +:+ sample.black_pixel_b64);
                           input_image_url
                             ("data:image/jpeg;base64," +:+ sample.white_pixel_b64);
                           input_image_file "file-0";
                           input_image_file "file-1" ] |} ];
         tools := [ {| tool_type := "image_generation";
                       quality := None; input_image_mask := None |} ] |} ].
Proof.
  apply (proj1 (generate_sends_each_image_twice (sample.world [])
                  sample.cat_png [sample.mask_jpg] "draw" sample.st0
                  (snd (streamlit_app.process_uploads (sample.world [])
                          [sample.cat_png; sample.mask_jpg] [] []
                          (set_temp_files [] sample.st0)))
                  [sample.black_pixel_b64; sample.white_pixel_b64] ["file-0"; "file-1"]
                  ltac:(reflexivity) ltac:(vm_compute; reflexivity))).
Defined.

(** ** Extraction and presentation of the generator's results *)

Lemma image_generation_calls_In (r : response) (o : output_item) :
  In o (image_generation_calls r)
  <-> In o (output r) /\ output_type o = "image_generation_call".
Proof.
  unfold image_generation_calls. rewrite filter_In.
  now rewrite String.eqb_eq.
Qed.

Lemma filter_sublist {X} (p : X -> bool) (l : list X) : sublist (List.filter p l) l.
Proof.
  induction l as [| x l IH]; cbn; [constructor |].
  destruct (p x); now constructor.
Qed.

Lemma image_generation_calls_none (r : response) :
  (forall o, In o (output r) -> output_type o <> "image_generation_call") ->
  image_generation_calls r = [].
Proof.
  intros Hnone. destruct (image_generation_calls r) as [| o calls] eqn:Hcalls;
    [reflexivity |].
  assert (Hin : In o (image_generation_calls r)) by (rewrite Hcalls; now left).
  apply image_generation_calls_In in Hin as [Hin Htag]. now apply Hnone in Hin.
Qed.

(** The extractor keeps a tagged entry as often as it occurs. *)
Lemma image_generation_calls_count (r : response) (o : output_item) :
  count_occ output_item_eq_dec (image_generation_calls r) o
  = if String.eqb (output_type o) "image_generation_call"
    then count_occ output_item_eq_dec (output r) o
    else 0%nat.
Proof.
  unfold image_generation_calls.
  induction (output r) as [| x l IH]; cbn [List.filter count_occ].
  - now destruct (String.eqb (output_type o) "image_generation_call").
  - destruct (output_item_eq_dec x o) as [-> | Hne].
    + destruct (String.eqb (output_type o) "image_generation_call") eqn:Htag.
      * cbn [count_occ]. destruct (output_item_eq_dec o o); [| easy]. now rewrite IH.
      * exact IH.
    + destruct (String.eqb (output_type x) "image_generation_call"); [| exact IH].
      cbn [count_occ]. now destruct (output_item_eq_dec x o).
Qed.

Lemma show_images_returns (w : World) (calls : list output_item) (images : list bytes)
      (i : nat) (st : state) :
  Forall2 (fun o image => b64decode_result (result o) = Ret image) calls images ->
  Forall (fun image => st_image_error w image = None) images ->
  exists shown st',
    streamlit_app.show_images w i (map result calls) st = (Ret tt, st')
    /\ trace st' = trace st ++ shown
    /\ temp_files st' = temp_files st
    /\ images_shown shown = images
    /\ downloads_offered shown = numbered_downloads i images.
Proof.
  intros Hdec Hshow. revert i st.
  induction Hdec as [| o image calls images Ho _ IH]; intros i st.
  - exists [], st. cbn. now rewrite app_nil_r.
  - apply Forall_cons_iff in Hshow as [Himage Hshow]. specialize (IH Hshow).
    cbn [map streamlit_app.show_images].
    unfold bind at 1, lift_outcome. rewrite Ho.
    unfold show_image. rewrite Himage.
    unfold bind, emit, modify. cbn [fst snd].
    match goal with |- context [streamlit_app.show_images w (S i) _ ?s] =>
      destruct (IH (S i) s) as (shown & st' & Hrun & Htr & Htf & Hsh & Hdl)
    end.
    rewrite Hrun.
    exists (st_image image ("Generated Image " +:+ str_nat (i + 1))
            :: st_download_button ("📥 Download Image " +:+ str_nat (i + 1)) image
                 ("generated_image_" +:+ str_nat (i + 1) +:+ ".png") "image/png"
            :: shown), st'.
    cbn in Htr, Htf. unfold images_shown, downloads_offered in *.
    split; [reflexivity |].
    split; [rewrite Htr, <- !app_assoc; reflexivity |].
    split; [assumption |].
    split; cbn; congruence.
Qed.

Lemma report_no_image_returns (msg : string) (r : response) (st : state) :
  exists st',
    report_no_image msg r st = (Ret tt, st')
    /\ trace st' = trace st ++ st_error msg :: api_response_text r
    /\ temp_files st' = temp_files st.
Proof.
  unfold report_no_image, api_response_text, bind, emit, modify, ret.
  destruct (output_content r); cbn; eexists; repeat split;
    now rewrite <- ?app_assoc.
Qed.

(** C3: the extractor keeps the entries of [response.output] tagged
    "image_generation_call", all of them, each as often as it occurs, and no
    other, in their order; when the results of these entries decode as
    base64 to bytes that [st.image] can show, the generator returns normally
    having shown and offered for download exactly the decoded images, one
    per kept entry, in that order. *)
Theorem generate_shows_the_image_generation_calls
        (w : World) (uploaded_file : UploadedFile) (rest : list UploadedFile)
        (prompt : string) (st st1 : state) (base64_images file_ids : list string)
        (resp : response) (images : list bytes) :
  String.eqb prompt "" = false ->
  streamlit_app.process_uploads w (uploaded_file :: rest) [] [] (set_temp_files [] st)
  = (Ret (base64_images, file_ids), st1) ->
  responses_create w
    (streamlit_app.compose_request
       (streamlit_app.compose_content prompt base64_images file_ids)) = Ret resp ->
  Forall2 (fun o image => b64decode_result (result o) = Ret image)
          (image_generation_calls resp) images ->
  Forall (fun image => st_image_error w image = None) images ->
  (forall o, In o (image_generation_calls resp)
             <-> In o (output resp) /\ output_type o = "image_generation_call")
  /\ (forall o, count_occ output_item_eq_dec (image_generation_calls resp) o
                = if String.eqb (output_type o) "image_generation_call"
                  then count_occ output_item_eq_dec (output resp) o
                  else 0%nat)
  /\ sublist (image_generation_calls resp) (output resp)
  /\ exists shown st',
       streamlit_app.generate w (uploaded_file :: rest) prompt st = (Ret tt, st')
       /\ trace st' = trace st1 ++ shown
       /\ images_shown shown = images
       /\ downloads_offered shown = numbered_downloads 0 images.
Proof.
  intros Hprompt Hup Hresp Hdec Hshow.
  split; [apply image_generation_calls_In |].
  split; [apply image_generation_calls_count |].
  split; [apply filter_sublist |].
  destruct (process_uploads_returns w _ _ _ _ _ _ _ Hup) as (_ & _ & _ & _ & _ & Hclient).
  specialize (Hclient ltac:(discriminate)).
  assert (Hbody : exists shown sb,
             streamlit_app.generate_body w (uploaded_file :: rest) prompt
               (set_temp_files [] st) = (Ret tt, sb)
             /\ trace sb = trace st1 ++ shown
             /\ images_shown shown = images
             /\ downloads_offered shown = numbered_downloads 0 images).
  { rewrite (generate_body_uploaded w _ prompt _ _ _ _ Hup Hclient).
    unfold bind at 1, lift_outcome. rewrite Hresp.
    unfold streamlit_app.present_response.
    destruct Hdec as [| o image calls images' Ho Hrest].
    - cbn [map].
      match goal with |- context [report_no_image ?m ?r ?s] =>
        destruct (report_no_image_returns m r s) as (sb & Hrun & Htr & _)
      end.
      rewrite Hrun. eexists _, sb. split; [reflexivity |].
      cbn in Htr. rewrite <- app_assoc in Htr. split; [exact Htr |].
      unfold api_response_text. now destruct (output_content resp).
    - cbn [map]. unfold bind, emit, modify. cbn [fst snd].
      match goal with |- context [streamlit_app.show_images w 0 ?d ?s] =>
        destruct (show_images_returns w (o :: calls) (image :: images') 0 s
                    ltac:(now constructor) Hshow)
          as (shown & sb & Hrun & Htr & _ & Hsh & Hdl);
        change d with (map result (o :: calls))
      end.
      rewrite Hrun. eexists _, sb. split; [reflexivity |].
      cbn in Htr. rewrite <- !app_assoc in Htr. split; [exact Htr |].
      split; [exact Hsh | exact Hdl]. }
  destruct Hbody as (shown & sb & Hbody & Htr & Hsh & Hdl).
  destruct (guarded_runs w _ st _ _ Hbody) as (deleted & st' & Hrun & _ & Htr').
  exists (shown ++ zip_with unlink_call (temp_files sb) deleted), st'.
  unfold streamlit_app.generate. rewrite Hprompt.
  split; [exact Hrun |].
  split; [rewrite Htr', Htr; cbn; now rewrite app_nil_r, <- app_assoc |].
  unfold images_shown, downloads_offered in *.
  rewrite !omap_app, Hsh, Hdl, !omap_unlinks, !app_nil_r by reflexivity.
  now split.
Qed.

Lemma generate_shows_the_image_generation_calls_witness :
  exists shown st',
    streamlit_app.generate
      (sample.world [sample.text_message; sample.image_call sample.white_pixel_b64;
                     sample.text_message; sample.image_call sample.black_pixel_b64;
                     sample.image_call sample.white_pixel_b64])
      [sample.cat_png] "draw" sample.st0 = (Ret tt, st')
    /\ trace st' = [files_create_call sample.black_pixel "vision"] ++ shown
    /\ images_shown shown
       = [sample.white_pixel; sample.black_pixel; sample.white_pixel]
    /\ downloads_offered shown
       = numbered_downloads 0
           [sample.white_pixel; sample.black_pixel; sample.white_pixel].
Proof.
  apply (proj2 (proj2 (proj2
    (generate_shows_the_image_generation_calls
       (sample.world [sample.text_message; sample.image_call sample.white_pixel_b64;
                      sample.text_message; sample.image_call sample.black_pixel_b64;
                      sample.image_call sample.white_pixel_b64])
       sample.cat_png [] "draw" sample.st0
       (snd (streamlit_app.process_uploads (sample.world [])
               [sample.cat_png] [] [] (set_temp_files [] sample.st0)))
       [sample.black_pixel_b64] ["file-0"]
       {| output := [sample.text_message; sample.image_call sample.white_pixel_b64;
                     sample.text_message; sample.image_call sample.black_pixel_b64;
                     sample.image_call sample.white_pixel_b64];
          output_content := None |}
       [sample.white_pixel; sample.black_pixel; sample.white_pixel]
       ltac:(reflexivity) ltac:(vm_compute; reflexivity) ltac:(reflexivity)
       ltac:(repeat constructor; vm_compute; reflexivity)
       ltac:(repeat constructor))))).
Defined.

(** ** The masked edit *)

Section MaskedEdit.
Variable w : World.

(** Both images saved and registered: the ids are those the endpoint gave
    for the base image's bytes and then for the mask's, and the two paths
    are remembered for cleanup. *)
Lemma register_images_returns base mask st base_file_id mask_file_id st1 :
  image_masking_streamlit.register_images w base mask st
  = (Ret (base_file_id, mask_file_id), st1) ->
  client_error w = None
  /\ files_create w (registered st) (getvalue base) = Ret base_file_id
  /\ files_create w (S (registered st)) (getvalue mask) = Ret mask_file_id
  /\ exists base_path mask_path,
       base_path <> mask_path
       /\ temp_files st1 = temp_files st ++ [base_path; mask_path].
Proof.
  unfold image_masking_streamlit.register_images. intros Hrun.
  apply bind_inv in Hrun as (base_path & s1 & Hsave1 & Hrun).
  apply bind_inv in Hrun as ([] & s1' & Happ1 & Hrun).
  apply bind_inv in Hrun as (mask_path & s2 & Hsave2 & Hrun).
  apply bind_inv in Hrun as ([] & s2' & Happ2 & Hrun).
  apply bind_inv in Hrun as (id1 & s3 & Hreg1 & Hrun).
  apply bind_inv in Hrun as (id2 & s4 & Hreg2 & Hrun).
  injection Hrun as <- <- <-. injection Happ1 as <-. injection Happ2 as <-.
  apply save_uploaded_file_returns in Hsave1 as (_ & _ & Hfs1 & Htf1 & _ & Hn1).
  apply save_uploaded_file_returns in Hsave2 as (Hfree & _ & Hfs2 & Htf2 & _ & Hn2).
  cbn in Hfree, Hfs2, Htf2, Hn2.
  assert (Hne : base_path <> mask_path).
  { intros <-. rewrite Hfs1, lookup_insert_eq in Hfree. discriminate. }
  eapply create_file_returns in Hreg1 as (Hclient & Hid1 & Hn3 & Hfs3 & Htf3 & _);
    [| cbn; rewrite Hfs2, lookup_insert_ne, Hfs1 by congruence;
       apply lookup_insert_eq].
  eapply create_file_returns in Hreg2 as (_ & Hid2 & _ & _ & Htf4 & _);
    [| rewrite Hfs3; cbn; rewrite Hfs2; apply lookup_insert_eq].
  cbn in Hid1, Hn3, Htf3. rewrite Hn3, Hn2, Hn1 in Hid2. rewrite Hn2, Hn1 in Hid1.
  repeat split; [assumption .. |].
  exists base_path, mask_path. split; [assumption |].
  rewrite Htf4, Htf3, Htf2, Htf1, <- app_assoc. reflexivity.
Qed.

(** The masked edit's body once both images are registered. *)
Lemma masked_body_registered base mask prompt quality out st ids st1 :
  image_masking_streamlit.register_images w base mask st = (Ret ids, st1) ->
  client_error w = None ->
  let req := image_masking_streamlit.compose_request prompt (fst ids) (snd ids) quality in
  image_masking_streamlit.generate_body w base mask prompt quality out st
  = bind (lift_outcome (responses_create w req))
         (fun r => image_masking_streamlit.present_response w r out)
         (snd (emit (responses_create_call req) st1)).
Proof.
  intros Hreg Hclient req. unfold image_masking_streamlit.generate_body.
  rewrite (bind_returns _ _ _ _ _ Hreg).
  unfold get_openai_client. rewrite Hclient. reflexivity.
Qed.

Lemma show_first_returns image_base64 image_bytes out st :
  b64decode_result image_base64 = Ret image_bytes ->
  st_image_error w image_bytes = None ->
  String.eqb out "" = false ->
  open_error w out = None ->
  write_error w out image_bytes = None ->
  exists st',
    image_masking_streamlit.show_first w image_base64 out st = (Ret tt, st')
    /\ fs st' = <[out := image_bytes]> (fs st)
    /\ trace st'
       = trace st
         ++ [ st_success "✅ Masked image generated successfully!";
              st_subheader "🎨 Generated Masked Image";
              st_image image_bytes "Generated Masked Image";
              st_download_button "📥 Download Masked Image" image_bytes out "image/png";
              open_write out image_bytes;
              st_info ("💾 Image also saved as: " +:+ out) ]
    /\ temp_files st' = temp_files st.
Proof.
  intros Hdec Hshow Hname Hopen Hwrite.
  unfold image_masking_streamlit.show_first, show_image, write_file, f_write, bind,
    emit, modify, lift_outcome.
  rewrite Hdec, Hshow, Hname, Hopen, Hwrite. cbn. eexists. split; [reflexivity |].
  cbn. now rewrite <- !app_assoc.
Qed.
End MaskedEdit.

(** C4: when no entry of the response is tagged "image_generation_call",
    the extractor yields the empty list, and both handlers take the no-image
    branch: after the request they show the error line (with the API
    response text when there is one), show no image, clean up and return
    normally; nothing is raised or reported as an exception. *)
Theorem no_image_is_reported_not_raised
        (w : World) (prompt : string) (st st1 : state) (resp : response) :
  String.eqb prompt "" = false ->
  (forall o, In o (output resp) -> output_type o <> "image_generation_call") ->
  map result (image_generation_calls resp) = []
  /\ (forall uploaded_file rest base64_images file_ids,
         let req := streamlit_app.compose_request
                      (streamlit_app.compose_content prompt base64_images file_ids) in
         streamlit_app.process_uploads w (uploaded_file :: rest) [] []
           (set_temp_files [] st) = (Ret (base64_images, file_ids), st1) ->
         responses_create w req = Ret resp ->
         exists deleted st',
           streamlit_app.generate w (uploaded_file :: rest) prompt st = (Ret tt, st')
           /\ trace st'
              = trace st1
                ++ responses_create_call req
                   :: st_error "❌ No images were generated"
                   :: api_response_text resp
                ++ zip_with unlink_call (temp_files st1) deleted)
  /\ (forall base mask quality output_filename file_ids,
         let req := image_masking_streamlit.compose_request prompt
                      (fst file_ids) (snd file_ids) quality in
         image_masking_streamlit.register_images w base mask (set_temp_files [] st)
         = (Ret file_ids, st1) ->
         responses_create w req = Ret resp ->
         exists deleted st',
           image_masking_streamlit.generate w (Some base) (Some mask) prompt quality
             output_filename st = (Ret tt, st')
           /\ trace st'
              = trace st1
                ++ responses_create_call req
                   :: st_error "❌ No image was generated"
                   :: api_response_text resp
                ++ zip_with unlink_call (temp_files st1) deleted).
Proof.
  intros Hprompt Hnone.
  pose proof (image_generation_calls_none resp Hnone) as Hcalls.
  split; [now rewrite Hcalls |]. split.
  - intros f rest b64s ids req Hup Hresp.
    destruct (process_uploads_returns w _ _ _ _ _ _ _ Hup)
      as (_ & _ & _ & _ & _ & Hclient).
    specialize (Hclient ltac:(discriminate)).
    pose proof (generate_body_uploaded w _ prompt _ _ _ _ Hup Hclient) as Hbody.
    cbv zeta in Hbody. fold req in Hbody.
    unfold bind at 1, lift_outcome in Hbody. rewrite Hresp in Hbody.
    unfold streamlit_app.present_response in Hbody. rewrite Hcalls in Hbody.
    cbn [map] in Hbody.
    match type of Hbody with _ = report_no_image ?m ?r ?s =>
      destruct (report_no_image_returns m r s) as (sb & Hrun & Htr & Htf)
    end.
    rewrite Hrun in Hbody.
    destruct (guarded_runs w _ st _ _ Hbody) as (deleted & st' & Hgen & _ & Htr').
    exists deleted, st'. unfold streamlit_app.generate. rewrite Hprompt.
    split; [exact Hgen |].
    rewrite Htr', Htr, Htf. cbn. now rewrite app_nil_r, <- !app_assoc.
  - intros base mask quality out ids req Hreg Hresp.
    destruct ids as [id1 id2].
    destruct (register_images_returns w _ _ _ _ _ _ Hreg) as (Hclient & _).
    pose proof (masked_body_registered w _ _ prompt quality out _ _ _ Hreg Hclient)
      as Hbody.
    cbv zeta in Hbody. fold req in Hbody.
    unfold bind at 1, lift_outcome in Hbody. rewrite Hresp in Hbody.
    unfold image_masking_streamlit.present_response in Hbody.
    rewrite Hcalls in Hbody. cbn [map] in Hbody.
    match type of Hbody with _ = report_no_image ?m ?r ?s =>
      destruct (report_no_image_returns m r s) as (sb & Hrun & Htr & Htf)
    end.
    rewrite Hrun in Hbody.
    destruct (guarded_runs w _ st _ _ Hbody) as (deleted & st' & Hgen & _ & Htr').
    exists deleted, st'. unfold image_masking_streamlit.generate. rewrite Hprompt.
    split; [exact Hgen |].
    rewrite Htr', Htr, Htf. cbn. now rewrite app_nil_r, <- !app_assoc.
Qed.

Lemma no_image_is_reported_not_raised_witness :
  map result
    (image_generation_calls {| output := [sample.text_message]; output_content := None |})
  = []
  /\ exists deleted st',
       image_masking_streamlit.generate (sample.world [sample.text_message])
         (Some sample.cat_png) (Some sample.mask_jpg) "add a red balloon" "high"
         "masked_image.png" sample.st0 = (Ret tt, st')
       /\ trace st'
          = [ files_create_call (getvalue sample.cat_png) "vision";
              files_create_call (getvalue sample.mask_jpg) "vision" ]
            ++ responses_create_call
                 (image_masking_streamlit.compose_request "add a red balloon"
                    "file-0" "file-1" "high")
               :: st_error "❌ No image was generated"
               :: []
            ++ zip_with unlink_call ["/tmp/tmpn0.png"; "/tmp/tmpn1.jpg"] deleted.
Proof.
  pose proof (no_image_is_reported_not_raised
                (sample.world [sample.text_message]) "add a red balloon" sample.st0
                (snd (image_masking_streamlit.register_images (sample.world [])
                        sample.cat_png sample.mask_jpg (set_temp_files [] sample.st0)))
                {| output := [sample.text_message]; output_content := None |}
                ltac:(reflexivity)
                ltac:(intros o [<- | []]; vm_compute; discriminate))
    as (Hnone & _ & Hmasked).
  split; [exact Hnone |].
  exact (Hmasked sample.cat_png sample.mask_jpg "high" "masked_image.png"
           ("file-0", "file-1") ltac:(vm_compute; reflexivity) ltac:(reflexivity)).
Defined.

(** C6, as the spec states it, fails: the request of a masked edit has one
    image entry in its content list, the base image; the mask is not in the
    content list. *)
Lemma masked_request_content_has_one_image :
  ~ exists req msg,
      requests_made
        (trace (snd (image_masking_streamlit.generate
                       (sample.world [sample.image_call sample.black_pixel_b64])
                       (Some sample.cat_png) (Some sample.mask_jpg)
                       "add a red balloon"
                       (image_masking_streamlit.quality_value image_masking_streamlit.high)
                       "masked_image.png" sample.st0)))
      = [req]
      /\ input req = [msg]
      /\ image_entries (content msg) = 2
      /\ text_entries (content msg) = 1.
Proof.
  intros (req & msg & Hreq & Hmsg & Himages & _).
  vm_compute in Hreq. injection Hreq as <-.
  cbn in Hmsg. injection Hmsg as <-. cbn in Himages. discriminate.
Qed.

(** C6, amended: with both images registered, the masked edit sends exactly
    one request.  Its content list holds one text entry, the prompt, and one
    image entry, the base image by its remote file id; the mask goes, by its
    remote file id, into the [input_image_mask] option of the single
    [image_generation] tool, next to the quality, which is "standard" or
    "high".  No image is sent inline. *)
Theorem masked_edit_request
        (w : World) (base mask : UploadedFile) (prompt : string)
        (q : image_masking_streamlit.quality_option) (output_filename : string)
        (st st1 : state) (base_file_id mask_file_id : string) :
  String.eqb prompt "" = false ->
  image_masking_streamlit.register_images w base mask (set_temp_files [] st)
  = (Ret (base_file_id, mask_file_id), st1) ->
  requests_made
    (trace (snd (image_masking_streamlit.generate w (Some base) (Some mask) prompt
                   (image_masking_streamlit.quality_value q) output_filename st)))
  = requests_made (trace st)
    ++ [ {| model := "gpt-4o";
            input := [ {| role := "user";
                          content := [ input_text prompt;
                                       input_image_file base_file_id ] |} ];
            tools := [ {| tool_type := "image_generation";
                          quality := Some (image_masking_streamlit.quality_value q);
                          input_image_mask := Some mask_file_id |} ] |} ]
  /\ files_create w (registered st) (getvalue base) = Ret base_file_id
  /\ files_create w (S (registered st)) (getvalue mask) = Ret mask_file_id
  /\ In (image_masking_streamlit.quality_value q) ["standard"; "high"].
Proof.
  intros Hprompt Hreg.
  destruct (register_images_returns w _ _ _ _ _ _ Hreg) as (Hclient & Hid1 & Hid2 & _).
  repeat split; [| exact Hid1 | exact Hid2 | destruct q; cbn; tauto].
  unfold image_masking_streamlit.generate. rewrite Hprompt.
  change (try_except _ report_exception)
    with (guarded w (image_masking_streamlit.generate_body w base mask prompt
                       (image_masking_streamlit.quality_value q) output_filename)).
  rewrite guarded_requests.
  rewrite (masked_body_registered w _ _ prompt _ output_filename _ _ _ Hreg Hclient).
  match goal with |- context [bind ?c ?k ?s] =>
    assert (Hs : silent (bind c k))
      by (apply silent_bind;
          [apply silent_lift_outcome | intros r; apply silent_masked_present_response]);
    rewrite (Hs s)
  end.
  cbn [emit modify snd trace fst]. rewrite requests_made_app.
  pose proof (silent_register_images w base mask (set_temp_files [] st)) as Hq.
  rewrite Hreg in Hq. cbn in Hq. now rewrite Hq.
Qed.

Lemma masked_edit_request_witness :
  requests_made
    (trace (snd (image_masking_streamlit.generate
                   (sample.world [sample.image_call sample.black_pixel_b64])
                   (Some sample.cat_png) (Some sample.mask_jpg) "add a red balloon"
                   (image_masking_streamlit.quality_value image_masking_streamlit.high)
                   "masked_image.png" sample.st0)))
  = [ {| model := "gpt-4o";
         input := [ {| role := "user";
                       content := [ input_text "add a red balloon";
                                    input_image_file "file-0" ] |} ];
         tools := [ {| tool_type := "image_generation";
                       quality := Some "high";
                       input_image_mask := Some "file-1" |} ] |} ].
Proof.
  apply (proj1 (masked_edit_request (sample.world [sample.image_call sample.black_pixel_b64])
                  sample.cat_png sample.mask_jpg "add a red balloon"
                  image_masking_streamlit.high "masked_image.png" sample.st0
                  (snd (image_masking_streamlit.register_images (sample.world [])
                          sample.cat_png sample.mask_jpg
                          (set_temp_files [] sample.st0)))
                  "file-0" "file-1"
                  ltac:(reflexivity) ltac:(vm_compute; reflexivity))).
Defined.

(** ** The launchers *)

Section LauncherFacts.
Variable w : launcher.World.

Lemma subprocess_runs_app (t u : list launcher.event) :
  subprocess_runs (t ++ u) = subprocess_runs t ++ subprocess_runs u.
Proof. unfold subprocess_runs. apply omap_app. Qed.

Lemma prints_return {X} (f : X -> string) (xs : list X) (t : list launcher.event) :
  for_each xs (fun x => launcher.emit (launcher.print (f x))) t
  = (Ret tt, t ++ map (fun x => launcher.print (f x)) xs).
Proof.
  revert t. induction xs as [| x xs IH]; intros t; cbn [for_each map].
  - now rewrite app_nil_r.
  - unfold bind, launcher.emit, modify. rewrite IH. now rewrite <- app_assoc.
Qed.

Lemma prints_start_nothing {X} (f : X -> string) (xs : list X) :
  subprocess_runs (map (fun x => launcher.print (f x)) xs) = [].
Proof. induction xs as [| x xs IH]; cbn; auto. Qed.

(** With importable w packages the loop ends, having collected the packages
    that are not installed. *)
Lemma find_missing_returns (packages missing_packages : list string)
      (t : list launcher.event) :
  importable w packages ->
  launcher.find_missing w packages missing_packages t
  = (Ret (missing_packages ++ List.filter (not_imported w) packages), t).
Proof.
  revert missing_packages. induction packages as [| p packages IH];
    intros acc Himp; cbn [launcher.find_missing List.filter].
  - now rewrite app_nil_r.
  - assert (Hrest : importable w packages) by (intros q Hq; apply Himp; now right).
    unfold not_imported at 1.
    destruct (Himp p ltac:(now left)) as [-> | [msg ->]]; cbn [is_ImportError].
    + now apply IH.
    + rewrite IH by assumption. now rewrite <- app_assoc.
Qed.

Lemma check_dependencies_returns (t : list launcher.event) :
  importable w launcher.required_packages ->
  exists t',
    launcher.check_dependencies w t
    = (Ret (match List.filter (not_imported w) launcher.required_packages with
            | [] => true
            | _ :: _ => false
            end), t')
    /\ subprocess_runs t' = subprocess_runs t.
Proof.
  intros Himp. unfold launcher.check_dependencies.
  rewrite (bind_returns _ _ _ _ _ (find_missing_returns _ [] t Himp)).
  cbn [app]. destruct (List.filter (not_imported w) launcher.required_packages) as [| m ms].
  - now exists t.
  - unfold bind at 1, launcher.emit at 1, modify.
    rewrite (bind_returns _ _ _ _ _ (prints_return (fun p => "   - " +:+ p) (m :: ms) _)).
    eexists. split; [reflexivity |].
    now rewrite !subprocess_runs_app, prints_start_nothing, !app_nil_r.
Qed.

(** A launcher's [main] from a fresh process. *)
Lemma launcher_main_runs (banner : list string) (script port : string) :
  importable w launcher.required_packages ->
  let command := launcher.server_command w script port in
  let run := launcher.launcher_main w banner script port [] in
  match List.filter (not_imported w) launcher.required_packages with
  | _ :: _ => fst run = Raise (SystemExit 1) /\ subprocess_runs (snd run) = []
  | [] =>
      subprocess_runs (snd run) = [command]
      /\ fst run = match launcher.subprocess_run w command with
                   | Ret _ | Raise KeyboardInterrupt => Ret tt
                   | Raise (Exc _ _) => Raise (SystemExit 1)
                   | Raise (SystemExit code) => Raise (SystemExit code)
                   end
  end.
Proof.
  intros Himp command run. subst run. unfold launcher.launcher_main.
  rewrite (bind_returns _ _ _ _ _ (prints_return (fun l => l) banner [])).
  destruct (check_dependencies_returns ([] ++ map (fun l => launcher.print l) banner) Himp)
    as (t' & Hcheck & Hruns).
  rewrite (bind_returns _ _ _ _ _ Hcheck).
  rewrite subprocess_runs_app, prints_start_nothing in Hruns. cbn [app] in Hruns.
  destruct (List.filter (not_imported w) launcher.required_packages) as [| m ms].
  - cbn [negb]. unfold bind, ret, raise, launcher.emit, modify, try_except, lift_outcome.
    fold command.
    destruct (launcher.subprocess_run w command) as [code | [cls msg | | code]];
      cbn [fst snd]; rewrite !subprocess_runs_app, Hruns; now split.
  - cbn [negb]. unfold bind, raise. cbn. now split.
Qed.
End LauncherFacts.

(** C9: say every required package (streamlit, openai, requests, PIL)
    either imports or raises [ImportError].  When one is missing, each
    launcher exits with status 1 without starting the server.  When all
    import, each launcher runs [python -m streamlit run <its app>
    --server.port <8501 or 8502> --server.address localhost] once, and then
    exits with status 1 if that call raised an [Exception].  Stopping the
    server the way the launcher announces, with Ctrl+C, is no failure to
    start it: on [KeyboardInterrupt], as when the call returns, the launcher
    returns normally, with status 0. *)
Theorem launchers_exit_status (w : launcher.World)
        (main : launcher.World -> Py (list launcher.event) unit)
        (script port : string) :
  (forall p, In p ["streamlit"; "openai"; "requests"; "PIL"] ->
             launcher.import_ w p = None
             \/ exists msg, launcher.import_ w p = Some (Exc ImportError msg)) ->
  In (main, script, port)
     [ (launcher.run_image_generator.main, "streamlit_app.py", "8501");
       (launcher.mask_runner.main, "image_masking_streamlit.py", "8502") ] ->
  let command := [ launcher.sys_executable w; "-m"; "streamlit"; "run"; script;
                   "--server.port"; port; "--server.address"; "localhost" ] in
  let status := launcher.exit_status (fst (main w [])) in
  let started := subprocess_runs (snd (main w [])) in
  ((exists p, In p ["streamlit"; "openai"; "requests"; "PIL"]
              /\ launcher.import_ w p <> None) ->
   status = 1%Z /\ started = [])
  /\ ((forall p, In p ["streamlit"; "openai"; "requests"; "PIL"] ->
                 launcher.import_ w p = None) ->
      started = [command]
      /\ match launcher.subprocess_run w command with
         | Ret _ | Raise KeyboardInterrupt => status = 0%Z
         | Raise (Exc _ _) => status = 1%Z
         | Raise (SystemExit code) => status = code
         end).
Proof.
  intros Himp Hmain command status started.
  assert (Hrun : exists banner, main w = launcher.launcher_main w banner script port).
  { destruct Hmain as [[= <- <- <-] | [[= <- <- <-] | []]]; eexists; reflexivity. }
  destruct Hrun as [banner Hrun].
  pose proof (launcher_main_runs w banner script port Himp) as H.
  cbv zeta in H. rewrite <- Hrun in H. fold status started in H.
  change (launcher.server_command w script port) with command in H.
  split.
  - intros (p & Hp & Hmissing).
    destruct (List.filter (not_imported w) launcher.required_packages) eqn:Hfilter.
    + exfalso. assert (Hin : In p (List.filter (not_imported w) launcher.required_packages)).
      { apply filter_In. split; [exact Hp |]. unfold not_imported.
        now destruct (launcher.import_ w p). }
      now rewrite Hfilter in Hin.
    + destruct H as [Hr Hs]. subst status. now rewrite Hr.
  - intros Hall.
    destruct (List.filter (not_imported w) launcher.required_packages) as [| m ms]
      eqn:Hfilter.
    + destruct H as [Hs Hr]. split; [exact Hs |]. subst status. rewrite Hr.
      now destruct (launcher.subprocess_run w command) as [code | [cls msg | | code]].
    + exfalso. assert (Hin : In m (List.filter (not_imported w) launcher.required_packages))
        by (rewrite Hfilter; now left).
      apply filter_In in Hin as [Hin Hm]. unfold not_imported in Hm.
      now rewrite (Hall m Hin) in Hm.
Qed.

Lemma launchers_exit_status_witness :
  subprocess_runs (snd (launcher.mask_runner.main (sample.launcher_world (Ret 0%Z)) []))
  = [ [ "/usr/bin/python3"; "-m"; "streamlit"; "run"; "image_masking_streamlit.py";
        "--server.port"; "8502"; "--server.address"; "localhost" ] ]
  /\ launcher.exit_status
       (fst (launcher.mask_runner.main (sample.launcher_world (Ret 0%Z)) [])) = 0%Z.
Proof.
  apply (proj2 (launchers_exit_status (sample.launcher_world (Ret 0%Z))
                  launcher.mask_runner.main "image_masking_streamlit.py" "8502"
                  ltac:(intros p _; left; reflexivity)
                  ltac:(right; left; reflexivity))).
  intros p _. reflexivity.
Defined.

(** Ctrl+C on the running server ends the launcher with its farewell and
    status 0. *)
Example launcher_stopped_by_user :
  let run := launcher.run_image_generator.main
               (sample.launcher_world (Raise KeyboardInterrupt)) [] in
  launcher.exit_status (fst run) = 0%Z
  /\ List.last (snd run) (launcher.print "") = launcher.print "
👋 App stopped by user".
Proof. split; reflexivity. Qed.

Example launcher_missing_package_exits_one :
  launcher.exit_status
    (fst (launcher.run_image_generator.main sample.launcher_world_missing [])) = 1%Z
  /\ subprocess_runs (snd (launcher.run_image_generator.main sample.launcher_world_missing []))
     = [].
Proof. split; reflexivity. Qed.

(** ** A run in which the generation fails and no delete succeeds *)

Example generation_failure_still_cleans_up :
  let run := streamlit_app.generate sample.failing_world
               [sample.cat_png; sample.mask_jpg] "draw" sample.st0 in
  fst run = Ret tt
  /\ temp_files (snd run) = ["/tmp/tmpn0.png"; "/tmp/tmpn1.jpg"]
  /\ drop 3 (trace (snd run))
     = [ unlink_call "/tmp/tmpn0.png" false;
         unlink_call "/tmp/tmpn1.jpg" false;
         st_error "❌ Error: rate limit reached";
         st_exception (Exc APIError "rate limit reached") ].
Proof. vm_compute. repeat split. Qed.

(** * Further properties of the code *)

(** ** Steps that only write to the page *)

Lemma page_only_refl (s : state) : page_only s s.
Proof. repeat split. exists []. now rewrite app_nil_r. Qed.

Lemma page_only_trans (s1 s2 s3 : state) :
  page_only s1 s2 -> page_only s2 s3 -> page_only s1 s3.
Proof.
  intros (Hfs1 & Hseq1 & Hreg1 & Htf1 & evs1 & Htr1 & Hev1)
         (Hfs2 & Hseq2 & Hreg2 & Htf2 & evs2 & Htr2 & Hev2).
  repeat split; try congruence.
  exists (evs1 ++ evs2). split; [now rewrite Htr2, Htr1, app_assoc |].
  rewrite forallb_app. now rewrite Hev1, Hev2.
Qed.

Lemma page_only_omap {X} (f : event -> option X) (s s' : state) :
  (forall e, page_event e = true -> f e = None) ->
  page_only s s' -> omap f (trace s') = omap f (trace s).
Proof.
  intros Hf (_ & _ & _ & _ & evs & -> & Hev).
  rewrite omap_app. rewrite <- (app_nil_r (omap f (trace s))) at 2. f_equal.
  induction evs as [| e evs IH]; [reflexivity |].
  cbn in Hev. apply andb_true_iff in Hev as [He Hev].
  cbn. rewrite (Hf e He). now apply IH.
Qed.

(** A step that only writes to the page sends nothing and registers
    nothing. *)
Lemma page_only_network (s s' : state) :
  page_only s s' ->
  requests_made (trace s') = requests_made (trace s)
  /\ registrations (trace s') = registrations (trace s)
  /\ files_written (trace s') = files_written (trace s).
Proof.
  intros H. repeat split; apply page_only_omap; try assumption;
    now intros [].
Qed.

Section Quiet.
Context {A : Type}.

Lemma quiet_ret (a : A) : quiet (ret a).
Proof. intros s. apply page_only_refl. Qed.

Lemma quiet_raise (e : exn) : quiet (raise (A := A) e).
Proof. intros s. apply page_only_refl. Qed.

Lemma quiet_lift_outcome (o : outcome A) : quiet (lift_outcome o).
Proof. intros s. apply page_only_refl. Qed.

Lemma quiet_bind {B} (c : Py state B) (k : B -> Py state A) :
  quiet c -> (forall b, quiet (k b)) -> quiet (bind c k).
Proof.
  intros Hc Hk s. unfold bind. specialize (Hc s).
  destruct (c s) as [[b | e] s1]; cbn [snd] in *; [| assumption].
  eapply page_only_trans; [exact Hc | apply Hk].
Qed.
End Quiet.

Lemma quiet_emit (e : event) : page_event e = true -> quiet (emit e).
Proof.
  intros He s. repeat split. exists [e]. split; [reflexivity |].
  cbn. now rewrite He.
Qed.

Lemma quiet_for_each {X} (xs : list X) (body : X -> Py state unit) :
  (forall x, quiet (body x)) -> quiet (for_each xs body).
Proof.
  intros H. induction xs as [| x xs IH]; cbn [for_each];
    [apply quiet_ret | apply quiet_bind; auto].
Qed.

Ltac hush :=
  repeat first
    [ apply quiet_ret | apply quiet_raise | apply quiet_lift_outcome
    | apply quiet_emit; reflexivity
    | apply quiet_bind; [| intros ?]
    | match goal with
      | |- quiet (match ?x with _ => _ end) => destruct x
      end ].

Lemma quiet_show_image w image caption : quiet (show_image w image caption).
Proof. unfold show_image. hush. Qed.

Lemma quiet_show_images w i image_data :
  quiet (streamlit_app.show_images w i image_data).
Proof.
  revert i. induction image_data as [| d rest IH]; intros i;
    cbn [streamlit_app.show_images]; hush; [apply quiet_show_image | apply IH].
Qed.

Lemma quiet_report_no_image msg r : quiet (report_no_image msg r).
Proof. unfold report_no_image. hush. Qed.

Lemma quiet_present_response w r : quiet (streamlit_app.present_response w r).
Proof.
  unfold streamlit_app.present_response.
  destruct (map result (image_generation_calls r));
    [apply quiet_report_no_image
    | hush; first [apply quiet_show_image | apply quiet_show_images]].
Qed.

Lemma quiet_report_exception e h : report_exception e = Some h -> quiet h.
Proof.
  unfold report_exception. destruct (is_Exception e); [| discriminate].
  intros [= <-]. hush.
Qed.

(** ** Validation *)

(** X1: the reason [validate_image_file] gives names the check that
    failed, and size is checked before type. *)
Theorem validate_image_file_reason (uploaded_file : option UploadedFile) :
  (snd (validate_image_file uploaded_file) = "No file uploaded"
   <-> uploaded_file = None)
  /\ (snd (validate_image_file uploaded_file) = "File size must be less than 20MB"
      <-> exists f, uploaded_file = Some f /\ (size f > 20 * 1024 * 1024)%Z)
  /\ (forall f, uploaded_file = Some f ->
                (size f <= 20 * 1024 * 1024)%Z ->
                ~ In (type f) ["image/jpeg"; "image/jpg"; "image/png";
                               "image/gif"; "image/webp"] ->
                snd (validate_image_file uploaded_file)
                = "File type " +:+ type f
                  +:+ " not supported. Use: image/jpeg, image/jpg, image/png, image/gif, image/webp").
Proof.
  unfold validate_image_file. destruct uploaded_file as [f |].
  - destruct (Z.gtb_spec (size f) (20 * 1024 * 1024)) as [Hbig | Hsmall];
      [| destruct (existsb (String.eqb (type f)) allowed_types) eqn:Hty];
      cbn [negb snd].
    + split; [split; intros H; discriminate H |].
      split; [split; [intros _; exists f; split; [reflexivity | lia] | reflexivity] |].
      intros g [= <-] Hle. lia.
    + split; [split; intros H; discriminate H |].
      split; [split; [intros H; discriminate H | intros (g & [= <-] & Hgt); lia] |].
      intros g [= <-] _ Hnot. apply existsb_eqb_In in Hty. now destruct Hnot.
    + split; [split; intros H; cbn in H; discriminate H |].
      split; [split; [intros H; cbn in H; discriminate H
                     | intros (g & [= <-] & Hgt); lia] |].
      intros g [= <-] _ _. reflexivity.
  - split; [split; reflexivity |].
    split; [split; [intros H; discriminate H | intros (g & Hg & _); discriminate Hg] |].
    intros g Hg. discriminate Hg.
Qed.

Lemma validate_image_file_reason_witness :
  snd (validate_image_file
         (Some {| name := "huge.bmp"; type := "image/bmp";
                  size := 20 * 1024 * 1024 + 1; getvalue := [] |}))
  = "File size must be less than 20MB".
Proof.
  apply (proj1 (proj2 (validate_image_file_reason
                         (Some {| name := "huge.bmp"; type := "image/bmp";
                                  size := 20 * 1024 * 1024 + 1; getvalue := [] |})))).
  eexists. split; [reflexivity | vm_compute; reflexivity].
Defined.

Lemma validate_uploads_runs (files valid_files : list UploadedFile) (st : state) :
  exists st',
    streamlit_app.validate_uploads files valid_files st
    = (Ret (valid_files ++ List.filter is_valid_upload files), st')
    /\ trace st' = trace st ++ map validation_line files
    /\ page_only st st'.
Proof.
  revert valid_files st.
  induction files as [| f files IH]; intros valid_files st.
  - exists st. cbn. rewrite !app_nil_r. repeat split. apply page_only_refl.
  - cbn [streamlit_app.validate_uploads List.filter map].
    assert (Hline : validation_line f
                    = if is_valid_upload f
                      then st_success ("✅ " +:+ name f +:+ " - "
                                       +:+ snd (validate_image_file (Some f)))
                      else st_error ("❌ " +:+ name f +:+ " - "
                                     +:+ snd (validate_image_file (Some f))))
      by reflexivity.
    rewrite Hline. unfold is_valid_upload.
    destruct (validate_image_file (Some f)) as [is_valid message]. cbn [fst snd].
    destruct is_valid; unfold bind at 1, emit at 1, modify;
      match goal with |- context [streamlit_app.validate_uploads files ?v ?s] =>
        destruct (IH v s) as (st' & Hrun & Htr & Hpage)
      end;
      exists st'; rewrite Hrun, <- ?app_assoc; cbn in Htr;
      (split; [reflexivity |]); (split; [now rewrite Htr, <- app_assoc |]);
      (eapply page_only_trans; [| exact Hpage]).
    + apply (quiet_emit (st_success ("✅ " +:+ name f +:+ " - " +:+ message))
                        eq_refl st).
    + apply (quiet_emit (st_error ("❌ " +:+ name f +:+ " - " +:+ message))
                        eq_refl st).
Qed.

(** X2: the validation loop of [streamlit_app.py] keeps exactly the uploads
    that [validate_image_file] accepts, in upload order, after the ones
    already kept; it shows one line per upload, in upload order, and does
    nothing else. *)
Theorem validate_uploads_keeps_the_valid
        (files valid_files : list UploadedFile) (st : state) :
  exists st',
    streamlit_app.validate_uploads files valid_files st
    = (Ret (valid_files
            ++ List.filter (fun f => fst (validate_image_file (Some f))) files), st')
    /\ trace st' = trace st ++ map validation_line files
    /\ page_only st st'.
Proof. exact (validate_uploads_runs files valid_files st). Qed.

Example validate_uploads_sample :
  fst (streamlit_app.validate_uploads
         [sample.cat_png; sample.huge_png; sample.mask_jpg] [] sample.st0)
  = Ret [sample.cat_png; sample.mask_jpg]
  /\ trace (snd (streamlit_app.validate_uploads
                   [sample.cat_png; sample.huge_png; sample.mask_jpg] [] sample.st0))
     = [ st_success "✅ cat.png - File is valid";
         st_error "❌ huge.png - File size must be less than 20MB";
         st_success "✅ mask.final.jpg - File is valid" ].
Proof. split; reflexivity. Qed.

(** ** The suffix of a temporary file *)

Lemma split_dotless (s : string) : dotless s -> split "." s = [s].
Proof.
  induction s as [| c s IH]; intros Hdot; [reflexivity |].
  cbn [split]. destruct (Ascii.eqb_spec c ".") as [-> | _].
  - exfalso. apply (Hdot "."%char); [now left | reflexivity].
  - rewrite IH; [reflexivity |]. intros x Hx. apply Hdot. now right.
Qed.

Lemma split_dotted (stem ext : string) :
  dotless ext ->
  exists piece pieces, split "." (stem +:+ "." +:+ ext) = piece :: pieces ++ [ext].
Proof.
  intros Hdot. induction stem as [| c stem (piece & pieces & IH)].
  - exists "", [].
    change (split "." ("" +:+ "." +:+ ext)) with ("" :: split "." ext).
    now rewrite (split_dotless ext Hdot).
  - change (String c stem +:+ "." +:+ ext) with (String c (stem +:+ "." +:+ ext)).
    cbn [split]. rewrite IH. destruct (Ascii.eqb c ".").
    + now exists "", (piece :: pieces).
    + now exists (String c piece), pieces.
Qed.

(** X3: the suffix [save_uploaded_file] asks for is a dot and the text after
    the last dot of the upload's name, whatever comes before; for a name
    without any dot it is a dot and the whole name. *)
Theorem extension_is_text_after_last_dot (f : UploadedFile) (stem ext : string) :
  dotless ext ->
  (name f = stem +:+ "." +:+ ext -> extension f = ext)
  /\ (name f = ext -> extension f = name f).
Proof.
  intros Hdot. unfold extension. split; intros ->.
  - destruct (split_dotted stem ext Hdot) as (piece & pieces & ->).
    now rewrite app_comm_cons, last_last.
  - now rewrite (split_dotless ext Hdot).
Qed.

Lemma extension_is_text_after_last_dot_witness :
  extension sample.mask_jpg = "jpg".
Proof.
  apply (proj1 (extension_is_text_after_last_dot sample.mask_jpg "mask.final" "jpg"
                  ltac:(intros c H; vm_compute in H; intuition (subst; discriminate)))).
  reflexivity.
Defined.

(** ** What the upload loop and the cleanup do to the file system *)

Section Uploads.
Variable w : World.

Lemma save_uploaded_file_runs (f : UploadedFile) (st : state) :
  save_uploaded_file w f st
  = match mkstemp_inner w (fs st) ("." +:+ extension f) (tmp_seq st) (TMP_MAX w) with
    | (Ret file, seq') =>
        match write_error w file (getvalue f) with
        | Some (e, written) =>
            (Raise e,
             set_fs (insert file written)
                    (set_fs (insert file []) (set_tmp_seq seq' st)))
        | None =>
            (Ret file,
             set_fs (insert file (getvalue f))
                    (set_fs (insert file []) (set_tmp_seq seq' st)))
        end
    | (Raise e, seq') => (Raise e, set_tmp_seq seq' st)
    end.
Proof.
  unfold save_uploaded_file, NamedTemporaryFile, f_write, bind, get, modify, ret, raise.
  destruct (mkstemp_inner w (fs st) ("." +:+ extension f) (tmp_seq st) (TMP_MAX w))
    as [[file | e] seq']; [| reflexivity].
  cbn [fst snd]. now destruct (write_error w file (getvalue f)) as [[e written] |].
Qed.

Lemma create_file_runs (path : string) (data : bytes) (s : state) :
  fs s !! path = Some data ->
  create_file w path s
  = match client_error w with
    | Some e => (Raise e, s)
    | None =>
        (files_create w (registered s) data,
         set_registered (S (registered s))
                        (snd (emit (files_create_call data "vision") s)))
    end.
Proof.
  intros Hfile.
  unfold create_file, get_openai_client, bind, read_file, get, emit, modify,
    lift_outcome, raise, ret.
  destruct (client_error w); [reflexivity |]. now rewrite Hfile.
Qed.

(** The upload loop, however it ends: it has registered the bytes of the
    first [k] uploads, in order, and nothing else is in its trace; the paths
    it has appended to [temp_files] are distinct, were free before and hold
    a file now; no file that was there before has changed; and unless a
    write failed, no other file has been made. *)
Lemma process_uploads_runs (files : list UploadedFile)
      (base64_images file_ids : list string) (st : state) r st1 :
  streamlit_app.process_uploads w files base64_images file_ids st = (r, st1) ->
  exists (k : nat) (paths : list string),
    trace st1 = trace st ++ map registration_of (take k files)
    /\ temp_files st1 = temp_files st ++ paths
    /\ length paths <= length files
    /\ List.NoDup paths
    /\ (forall p, In p paths -> fs st !! p = None /\ is_Some (fs st1 !! p))
    /\ (forall p, is_Some (fs st !! p) -> fs st1 !! p = fs st !! p)
    /\ (writes_succeed w -> forall p, ~ In p paths -> fs st1 !! p = fs st !! p).
Proof.
  revert base64_images file_ids st.
  induction files as [| f files IH]; intros b64s ids st Hrun.
  - injection Hrun as <- <-. exists 0, []. cbn. rewrite !app_nil_r.
    split; [reflexivity |]. split; [reflexivity |]. split; [lia |].
    split; [constructor |]. split; [intros p [] |].
    split; [now intros p _ | now intros _ p _].
  - cbn [streamlit_app.process_uploads] in Hrun.
    unfold bind at 1 in Hrun. rewrite save_uploaded_file_runs in Hrun.
    destruct (mkstemp_inner w (fs st) ("." +:+ extension f) (tmp_seq st) (TMP_MAX w))
      as [[path | e] seq'] eqn:Hmk.
    2:{ injection Hrun as <- <-. exists 0, []. cbn. rewrite !app_nil_r.
        split; [reflexivity |]. split; [reflexivity |]. split; [lia |].
        split; [constructor |]. split; [intros p [] |].
        split; [now intros p _ | now intros _ p _]. }
    apply mkstemp_inner_found in Hmk as (Hfree & _).
    destruct (write_error w path (getvalue f)) as [[e written] |] eqn:Hwrite.
    { injection Hrun as <- <-. exists 0, []. cbn. rewrite !app_nil_r.
      split; [reflexivity |]. split; [reflexivity |]. split; [lia |].
      split; [constructor |]. split; [intros p [] |]. split.
      - intros p [v Hv]. rewrite !lookup_insert_ne by congruence. reflexivity.
      - intros Hw. now rewrite (Hw path (getvalue f)) in Hwrite. }
    set (s1 := set_fs (insert path (getvalue f))
                      (set_fs (insert path []) (set_tmp_seq seq' st))) in Hrun.
    set (s2 := set_temp_files (temp_files s1 ++ [path]) s1).
    assert (Hfs2 : fs s2 = <[path := getvalue f]> (<[path := []]> (fs st)))
      by reflexivity.
    assert (Hfile : fs s2 !! path = Some (getvalue f))
      by (rewrite Hfs2; apply lookup_insert_eq).
    assert (Hother : forall p, p <> path -> fs s2 !! p = fs st !! p)
      by (intros p Hp; rewrite Hfs2, !lookup_insert_ne by congruence; reflexivity).
    assert (Hold : forall p, is_Some (fs st !! p) -> p <> path)
      by (intros p [v Hv] ->; congruence).
    rewrite (bind_returns (temp_files_append path) _ s1 tt s2 eq_refl) in Hrun.
    rewrite (bind_returns _ _ _ _ _ (encode_image_reads w path _ s2 Hfile)) in Hrun.
    unfold bind at 1 in Hrun. rewrite (create_file_runs path _ s2 Hfile) in Hrun.
    assert (Hone : fs st1 = fs s2 ->
               length [path] <= length (f :: files)
               /\ List.NoDup [path]
               /\ (forall p, In p [path] -> fs st !! p = None /\ is_Some (fs st1 !! p))
               /\ (forall p, is_Some (fs st !! p) -> fs st1 !! p = fs st !! p)
               /\ (writes_succeed w ->
                   forall p, ~ In p [path] -> fs st1 !! p = fs st !! p)).
    { intros Hst1. split; [cbn; lia |]. split; [repeat constructor; intros [] |].
      split; [| split].
      - intros p [<- | []]. split; [assumption |]. rewrite Hst1, Hfile. now eexists.
      - intros p Hp. rewrite Hst1. now apply Hother, Hold.
      - intros _ p Hp. rewrite Hst1. apply Hother. intros ->. apply Hp. now left. }
    destruct (client_error w) as [e |].
    { injection Hrun as <- <-. exists 0, [path]. cbn [take map]. rewrite app_nil_r.
      split; [reflexivity |]. split; [reflexivity |]. now apply Hone. }
    destruct (files_create w (registered s2) (getvalue f)) as [id | e].
    2:{ injection Hrun as <- <-. exists 1, [path]. cbn [take map].
        split; [reflexivity |]. split; [reflexivity |]. now apply Hone. }
    clear Hone.
    match type of Hrun with streamlit_app.process_uploads w files _ _ ?s = _ =>
      set (s3 := s) in *
    end.
    destruct (IH _ _ _ Hrun)
      as (k & paths & Htr & Htf & Hlen & Hnodup & Hin & Hsafe & Hexact).
    assert (Hfs3 : fs s3 = fs s2) by reflexivity.
    exists (S k), (path :: paths). cbn [take map].
    split; [rewrite Htr; cbn; now rewrite <- app_assoc |].
    split; [rewrite Htf; cbn; now rewrite <- app_assoc |].
    split; [cbn; lia |].
    assert (Hnot : ~ In path paths).
    { intros Hp. apply Hin in Hp as [Hnone _]. rewrite Hfs3, Hfile in Hnone.
      discriminate. }
    assert (Hkept : fs st1 !! path = Some (getvalue f)).
    { rewrite Hsafe by (rewrite Hfs3, Hfile; now eexists). now rewrite Hfs3. }
    split; [now constructor |]. split; [| split].
    + intros p [<- | Hp].
      * split; [assumption |]. rewrite Hkept. now eexists.
      * destruct (Hin p Hp) as [Hnone Hsome]. split; [| assumption].
        rewrite Hfs3 in Hnone. rewrite <- Hother; [assumption |].
        intros ->. now apply Hnot.
    + intros p Hp. rewrite Hsafe.
      * rewrite Hfs3. now apply Hother, Hold.
      * rewrite Hfs3, Hother by now apply Hold. assumption.
    + intros Hw p Hp. rewrite (Hexact Hw) by (intros H; apply Hp; now right).
      rewrite Hfs3. apply Hother. intros ->. apply Hp. now left.
Qed.
End Uploads.

(** X4: the upload loop gives every upload it saves a temporary file of its
    own, also when two uploads have the same name: the paths it remembers
    are pairwise distinct, none of them existed before the loop, each holds
    a file after it, and no file that existed before has been touched. *)
Theorem uploads_get_distinct_fresh_temp_files
        (w : World) (files : list UploadedFile) (st : state) :
  let st1 := snd (streamlit_app.process_uploads w files [] [] (set_temp_files [] st)) in
  List.NoDup (temp_files st1)
  /\ length (temp_files st1) <= length files
  /\ (forall p, In p (temp_files st1) -> fs st !! p = None /\ is_Some (fs st1 !! p))
  /\ (forall p, is_Some (fs st !! p) -> fs st1 !! p = fs st !! p).
Proof.
  destruct (streamlit_app.process_uploads w files [] [] (set_temp_files [] st))
    as [r st1] eqn:Hrun.
  destruct (process_uploads_runs w _ _ _ _ _ _ Hrun)
    as (k & paths & _ & Htf & Hlen & Hnodup & Hin & Hsafe & _).
  cbn in Htf, Hin, Hsafe. cbn [snd]. rewrite Htf.
  repeat split; try assumption; try (now apply Hin).
Qed.

Section CleanupFiles.
Variable w : World.

Lemma guarded_unlink_fs (path : string) (st : state) :
  fs (snd (try_except (os_unlink w path) (fun _ => Some (ret tt)) st))
  = match fs st !! path with
    | Some _ => if unlink_denied w path then fs st else delete path (fs st)
    | None => fs st
    end.
Proof.
  unfold try_except, os_unlink, bind, get, emit, modify, raise, ret.
  destruct (fs st !! path); [destruct (unlink_denied w path) |]; reflexivity.
Qed.

(** The deleting loop removes what it may and touches nothing else. *)
Lemma unlink_loop_fs (paths : list string) (st : state) :
  let st' := snd (for_each paths
                    (fun temp_file =>
                       try_except (os_unlink w temp_file) (fun _ => Some (ret tt))) st) in
  (forall p, ~ In p paths -> fs st' !! p = fs st !! p)
  /\ (forall p, In p paths -> unlink_denied w p = false -> fs st' !! p = None)
  /\ (forall p, fs st !! p = None -> fs st' !! p = None).
Proof.
  revert st. induction paths as [| path paths IH]; intros st; cbv zeta.
  - cbn. split; [easy | split; [intros p [] | easy]].
  - cbn [for_each]. unfold bind.
    pose proof (guarded_unlink_fs path st) as Hfs.
    destruct (guarded_unlink_returns w path st) as (d & s1 & Hrun & _).
    rewrite Hrun in Hfs |- *. cbn [snd] in Hfs.
    destruct (IH s1) as (Hout & Hdel & Hnone). cbv zeta in Hout, Hdel, Hnone.
    assert (Hstep_none : forall p, fs st !! p = None -> fs s1 !! p = None).
    { intros p Hp. rewrite Hfs. destruct (fs st !! path); [| assumption].
      destruct (unlink_denied w path); [assumption |].
      destruct (decide (path = p)) as [-> | Hne];
        [apply lookup_delete_eq | now rewrite lookup_delete_ne]. }
    split; [| split].
    + intros p Hp. rewrite Hout by (intros H; apply Hp; now right).
      rewrite Hfs. destruct (fs st !! path); [| reflexivity].
      destruct (unlink_denied w path); [reflexivity |].
      apply lookup_delete_ne. intros ->. apply Hp. now left.
    + intros p [<- | Hp] Hallowed; [| now apply Hdel].
      apply Hnone. rewrite Hfs. destruct (fs st !! path) eqn:Hfile; [| assumption].
      rewrite Hallowed. apply lookup_delete_eq.
    + intros p Hp. now apply Hnone, Hstep_none.
Qed.

(** The state a handler ends in: the files are those the [finally] block
    left, and [temp_files] is as the body left it. *)
Lemma guarded_final (body : Py state unit) (st : state) :
  let sb := snd (body (set_temp_files [] st)) in
  let st' := snd (guarded w body st) in
  temp_files st' = temp_files sb /\ fs st' = fs (snd (cleanup w sb)).
Proof.
  cbv zeta. unfold guarded, try_except, try_finally, bind, modify.
  destruct (body (set_temp_files [] st)) as [rb sb]. cbn [snd].
  destruct (cleanup_returns w sb) as (ds & sc & Hclean & _ & _ & Htf).
  rewrite Hclean. cbn [snd].
  destruct rb as [[] | e]; cbn [snd]; [now split |].
  destruct (report_exception e) as [h |] eqn:Hreport; cbn [snd]; [| now split].
  destruct (quiet_report_exception e h Hreport sc) as (Hfs & _ & _ & Htf' & _).
  split; congruence.
Qed.

Lemma guarded_removes_temp_files (body : Py state unit) (st : state) :
  let st' := snd (guarded w body st) in
  forall p, In p (temp_files st') -> unlink_denied w p = false -> fs st' !! p = None.
Proof.
  cbv zeta. destruct (guarded_final body st) as [Htf Hfs].
  intros p Hp Hallowed. rewrite Hfs. rewrite Htf in Hp.
  destruct (unlink_loop_fs (temp_files (snd (body (set_temp_files [] st))))
                           (snd (body (set_temp_files [] st)))) as (_ & Hdel & _).
  now apply Hdel.
Qed.
End CleanupFiles.

(** X5: when a generate handler of either app returns, every temporary file
    it has remembered and that the operating system lets it delete is gone,
    whether the generation went through or failed. *)
Theorem handlers_remove_their_temp_files (w : World) (st : state) (p : string) :
  unlink_denied w p = false ->
  (forall uploaded_file rest prompt,
      String.eqb prompt "" = false ->
      let st' := snd (streamlit_app.generate w (uploaded_file :: rest) prompt st) in
      In p (temp_files st') -> fs st' !! p = None)
  /\ (forall base mask prompt quality output_filename,
         String.eqb prompt "" = false ->
         let st' := snd (image_masking_streamlit.generate w (Some base) (Some mask)
                           prompt quality output_filename st) in
         In p (temp_files st') -> fs st' !! p = None).
Proof.
  intros Hallowed. split.
  - intros f rest prompt Hprompt. cbv zeta.
    unfold streamlit_app.generate. rewrite Hprompt. intros Hp.
    now apply (guarded_removes_temp_files w
                 (streamlit_app.generate_body w (f :: rest) prompt) st p).
  - intros base mask prompt quality out Hprompt. cbv zeta.
    unfold image_masking_streamlit.generate. rewrite Hprompt. intros Hp.
    now apply (guarded_removes_temp_files w
                 (image_masking_streamlit.generate_body w base mask prompt quality out)
                 st p).
Qed.

Lemma handlers_remove_their_temp_files_witness :
  fs (snd (streamlit_app.generate (sample.world [])
             [sample.cat_png] "draw" sample.st0)) !! "/tmp/tmpn0.png" = None.
Proof.
  apply (proj1 (handlers_remove_their_temp_files (sample.world []) sample.st0
                  "/tmp/tmpn0.png" ltac:(reflexivity))
               sample.cat_png [] "draw" ltac:(reflexivity)).
  vm_compute. now left.
Defined.

(** ** The generator's handler and [main], end to end *)

Lemma registrations_app (t u : list event) :
  registrations (t ++ u) = registrations t ++ registrations u.
Proof. unfold registrations. apply omap_app. Qed.

Lemma registrations_uploads (files : list UploadedFile) :
  registrations (map registration_of files) = map getvalue files.
Proof. induction files as [| f files IH]; cbn; [reflexivity | now f_equal]. Qed.

Section GeneratorRuns.
Variable w : World.

(** After the upload loop the body of the generator's inner [try] changes
    no file, remembers no further path and registers nothing. *)
Lemma generate_body_runs (files : list UploadedFile) (prompt : string)
      (st : state) r sb :
  streamlit_app.generate_body w files prompt st = (r, sb) ->
  exists r1 s1,
    streamlit_app.process_uploads w files [] [] st = (r1, s1)
    /\ fs sb = fs s1
    /\ temp_files sb = temp_files s1
    /\ registrations (trace sb) = registrations (trace s1).
Proof.
  unfold streamlit_app.generate_body. intros Hrun. unfold bind at 1 in Hrun.
  destruct (streamlit_app.process_uploads w files [] [] st) as [[uploaded | e] s1];
    eexists; exists s1; (split; [reflexivity |]);
    [| injection Hrun as <- <-; now repeat split].
  unfold get_openai_client in Hrun. unfold bind at 1 in Hrun.
  destruct (client_error w) as [e |];
    [injection Hrun as <- <-; now repeat split |].
  cbn [ret] in Hrun. unfold bind at 1, emit, modify in Hrun.
  unfold bind at 1, lift_outcome in Hrun.
  destruct (responses_create w _) as [resp | e];
    [| injection Hrun as <- <-; repeat split; cbn;
       now rewrite registrations_app, app_nil_r].
  match type of Hrun with streamlit_app.present_response w resp ?s = _ =>
    pose proof (quiet_present_response w resp s) as Hquiet;
    rewrite Hrun in Hquiet; cbn [snd] in Hquiet;
    destruct Hquiet as (Hfs & _ & _ & Htf & _);
    pose proof (page_only_network s _ (quiet_present_response w resp s))
      as (_ & Hreg & _);
    rewrite Hrun in Hreg; cbn [snd] in Hreg
  end.
  cbn in Hfs, Htf, Hreg. rewrite Hfs, Htf, Hreg.
  repeat split. now rewrite registrations_app, app_nil_r.
Qed.

(** The registrations of a handler run are those of its body. *)
Lemma guarded_registrations (body : Py state unit) (st : state) :
  registrations (trace (snd (guarded w body st)))
  = registrations (trace (snd (body (set_temp_files [] st)))).
Proof.
  destruct (body (set_temp_files [] st)) as [rb sb] eqn:Hbody.
  destruct (guarded_runs w body st rb sb Hbody) as (deleted & st' & Hrun & _ & Htr).
  rewrite Hrun. cbn [snd]. rewrite Htr, !registrations_app.
  unfold registrations at 2 3. rewrite omap_unlinks by reflexivity.
  destruct rb as [| [ | | ]]; cbn; now rewrite app_nil_r.
Qed.
End GeneratorRuns.

Lemma generate_registrations
      (w : World) (files : list UploadedFile) (prompt : string) (st : state) :
  exists k,
    registrations (trace (snd (streamlit_app.generate w files prompt st)))
    = registrations (trace st) ++ map getvalue (take k files).
Proof.
  unfold streamlit_app.generate. destruct files as [| f rest].
  - exists 0. cbn. now rewrite registrations_app, !app_nil_r.
  - destruct (String.eqb prompt "").
    + exists 0. cbn [take map]. cbn. now rewrite registrations_app, !app_nil_r.
    + change (try_except _ report_exception)
        with (guarded w (streamlit_app.generate_body w (f :: rest) prompt)).
      rewrite guarded_registrations.
      destruct (streamlit_app.generate_body w (f :: rest) prompt (set_temp_files [] st))
        as [rb sb] eqn:Hbody.
      destruct (generate_body_runs w _ _ _ _ _ Hbody) as (r1 & s1 & Hup & _ & _ & Hreg).
      cbn [snd]. rewrite Hreg.
      destruct (process_uploads_runs w _ _ _ _ _ _ Hup) as (k & paths & Htr & _).
      exists k. rewrite Htr, registrations_app, registrations_uploads. reflexivity.
Qed.

(** X6: the generator's handler registers the bytes of its files in upload
    order, each at most once, and stops at the first upload that fails: what
    it sends to the file endpoint is the bytes of the first [k] files. *)
Theorem generate_registers_a_prefix_of_its_files
        (w : World) (files : list UploadedFile) (prompt : string) (st : state) :
  exists k,
    registrations (trace (snd (streamlit_app.generate w files prompt st)))
    = registrations (trace st) ++ map getvalue (take k files).
Proof. exact (generate_registrations w files prompt st). Qed.

(** X7: when the operating system refuses no delete and no write into a
    temporary file fails, the generator's handler leaves the file system
    exactly as it found it, however its calls end: the temporary files it
    creates are new files, each is remembered, and each is deleted. *)
Theorem generate_restores_the_file_system
        (w : World) (files : list UploadedFile) (prompt : string) (st : state) :
  (forall p, unlink_denied w p = false) ->
  (forall path data, write_error w path data = None) ->
  fs (snd (streamlit_app.generate w files prompt st)) = fs st.
Proof.
  intros Hallowed Hwrites. unfold streamlit_app.generate. destruct files as [| f rest];
    [reflexivity |].
  destruct (String.eqb prompt ""); [reflexivity |].
  change (try_except _ report_exception)
    with (guarded w (streamlit_app.generate_body w (f :: rest) prompt)).
  destruct (guarded_final w (streamlit_app.generate_body w (f :: rest) prompt) st)
    as [_ ->].
  destruct (streamlit_app.generate_body w (f :: rest) prompt (set_temp_files [] st))
    as [rb sb] eqn:Hbody.
  destruct (generate_body_runs w _ _ _ _ _ Hbody) as (r1 & s1 & Hup & Hfs & Htf & _).
  destruct (process_uploads_runs w _ _ _ _ _ _ Hup)
    as (k & paths & _ & Hpaths & _ & _ & Hin & _ & Hout).
  specialize (Hout Hwrites). cbn in Hpaths, Hin, Hout. cbn [snd].
  destruct (unlink_loop_fs w (temp_files sb) sb) as (Hkeep & Hdel & _).
  cbv zeta in Hkeep, Hdel. apply map_eq. intros p.
  change (cleanup w sb) with (bind get (fun s => for_each (temp_files s)
            (fun temp_file => try_except (os_unlink w temp_file)
                                         (fun _ => Some (ret tt)))) sb).
  unfold bind, get. cbn [fst snd].
  destruct (in_dec string_dec p (temp_files sb)) as [Hp | Hp].
  - rewrite (Hdel p Hp (Hallowed p)). rewrite Htf, Hpaths in Hp.
    symmetry. now apply Hin.
  - rewrite (Hkeep p Hp), Hfs. apply Hout. now rewrite Htf, Hpaths in Hp.
Qed.

Lemma generate_restores_the_file_system_witness :
  fs (snd (streamlit_app.generate
             (sample.world [sample.image_call sample.black_pixel_b64])
             [sample.cat_png; sample.mask_jpg] "draw"
             (set_fs (insert "notes.txt" [x01]) sample.st0)))
  = fs (set_fs (insert "notes.txt" [x01]) sample.st0).
Proof.
  apply (generate_restores_the_file_system
           (sample.world [sample.image_call sample.black_pixel_b64])
           [sample.cat_png; sample.mask_jpg] "draw"
           (set_fs (insert "notes.txt" [x01]) sample.st0)).
  - intros p. reflexivity.
  - intros path data. reflexivity.
Defined.

(** A write that fails leaves the temporary file behind: it exists from the
    [with] line on, its path is not yet in [temp_files], and the cleanup
    does not see it. *)
Example failed_write_leaves_the_file :
  let run := streamlit_app.generate sample_failures.disk_full [sample.cat_png] "draw"
               sample.st0 in
  fst run = Ret tt
  /\ temp_files (snd run) = []
  /\ fs (snd run) !! "/tmp/tmpn0.png" = Some []
  /\ trace (snd run)
     = [ st_error "❌ Error: [Errno 28] No space left on device";
         st_exception (Exc OSError "[Errno 28] No space left on device") ].
Proof. vm_compute. repeat split. Qed.

Lemma emits_return {X} (g : X -> event) (xs : list X) (st : state) :
  (forall x, page_event (g x) = true) ->
  exists st',
    for_each xs (fun x => emit (g x)) st = (Ret tt, st') /\ page_only st st'.
Proof.
  intros Hg. revert st. induction xs as [| x xs IH]; intros st; cbn [for_each].
  - exists st. split; [reflexivity | apply page_only_refl].
  - unfold bind at 1, emit at 1, modify.
    match goal with |- context [for_each xs _ ?s] =>
      destruct (IH s) as (st' & Hrun & Hpage)
    end.
    exists st'. split; [exact Hrun |].
    eapply page_only_trans; [apply (quiet_emit (g x) (Hg x) st) | exact Hpage].
Qed.

Section GeneratorMain.
Variable w : World.

(** The previews of the uploads: they only write to the page; the loop
    returns when [st.image] can show every upload, and what it raises is
    what [st.image] raised on one of them. *)
Lemma previews_run (caption : UploadedFile -> string) (files : list UploadedFile)
      (st : state) :
  exists r s',
    for_each files (fun f => show_image w (getvalue f) (caption f)) st = (r, s')
    /\ page_only st s'
    /\ ((forall f, In f files -> st_image_error w (getvalue f) = None) -> r = Ret tt)
    /\ (forall e, r = Raise e ->
                  exists f, In f files /\ st_image_error w (getvalue f) = Some e).
Proof.
  revert st. induction files as [| f files IH]; intros st; cbn [for_each].
  - exists (Ret tt), st. split; [reflexivity |]. split; [apply page_only_refl |].
    split; [reflexivity | discriminate].
  - unfold show_image at 1.
    destruct (st_image_error w (getvalue f)) as [e |] eqn:Himage.
    + exists (Raise e), st. split; [reflexivity |]. split; [apply page_only_refl |].
      split.
      * intros Hall. rewrite (Hall f) in Himage by now left. discriminate.
      * intros e' [= <-]. exists f. split; [now left | assumption].
    + rewrite (bind_returns (emit (st_image (getvalue f) (caption f))) _ st tt _ eq_refl).
      match goal with |- context [for_each files _ ?s] =>
        destruct (IH s) as (r & s' & Hrun & Hpage & Hok & Hraise)
      end.
      exists r, s'. split; [exact Hrun |]. split; [| split].
      * eapply page_only_trans; [| exact Hpage].
        exact (quiet_emit (st_image (getvalue f) (caption f)) eq_refl st).
      * intros Hall. apply Hok. intros g Hg. apply Hall. now right.
      * intros e He. destruct (Hraise e He) as (g & Hg & Hge).
        exists g. split; [now right | assumption].
Qed.

(** The content area of the generator either only writes to the page, up to
    the end of the previews, or writes to the page and then runs the handler
    on the uploads that passed validation; the latter needs a click, a
    prompt and a valid upload. *)
Lemma generator_content_area_runs (i : streamlit_app.inputs) (st : state) :
  let valid := List.filter is_valid_upload (streamlit_app.uploaded_files i) in
  exists s0,
    page_only st s0
    /\ ((exists r,
           streamlit_app.content_area w i st = (r, s0)
           /\ ((forall f, In f valid -> st_image_error w (getvalue f) = None) ->
               r = Ret tt)
           /\ (forall e, r = Raise e ->
                         exists f, In f valid /\ st_image_error w (getvalue f) = Some e))
        \/ (streamlit_app.generate_clicked i = true
            /\ String.eqb (streamlit_app.prompt i) "" = false
            /\ valid <> []
            /\ streamlit_app.content_area w i st
               = streamlit_app.generate w valid (streamlit_app.prompt i) s0)).
Proof.
  intros valid. subst valid. unfold streamlit_app.content_area.
  assert (Hret : forall s0, page_only st s0 ->
            exists r : outcome unit,
              (Ret tt, s0) = (r, s0)
              /\ ((forall f, In f (List.filter is_valid_upload
                                     (streamlit_app.uploaded_files i)) ->
                             st_image_error w (getvalue f) = None) -> r = Ret tt)
              /\ (forall e, r = Raise e ->
                            exists f, In f (List.filter is_valid_upload
                                              (streamlit_app.uploaded_files i))
                                      /\ st_image_error w (getvalue f) = Some e)).
  { intros s0 _. exists (Ret tt). split; [reflexivity |].
    split; [reflexivity | discriminate]. }
  destruct (streamlit_app.uploaded_files i) as [| f files] eqn:Hfiles.
  { exists st. split; [apply page_only_refl | left; now apply Hret, page_only_refl]. }
  rewrite <- Hfiles in *. clear Hfiles f files.
  destruct (validate_uploads_runs (streamlit_app.uploaded_files i) [] st)
    as (s1 & Hval & _ & Hpage1).
  cbn [app] in Hval. rewrite (bind_returns _ _ _ _ _ Hval).
  destruct (List.filter is_valid_upload (streamlit_app.uploaded_files i))
    as [| v valid] eqn:Hvalid.
  { eexists. split; [| left; apply Hret].
    - eapply page_only_trans; [exact Hpage1 |].
      exact (quiet_emit
               (st_error "No valid images uploaded. Please upload at least one valid image.")
               eq_refl s1).
    - eapply page_only_trans; [exact Hpage1 |].
      exact (quiet_emit
               (st_error "No valid images uploaded. Please upload at least one valid image.")
               eq_refl s1). }
  pose proof (quiet_emit (st_subheader "📷 Uploaded Images") eq_refl s1) as Hpage1'.
  set (s1' := snd (emit (st_subheader "📷 Uploaded Images") s1)) in *.
  rewrite (bind_returns (emit (st_subheader "📷 Uploaded Images")) _ s1 tt s1' eq_refl).
  destruct (previews_run name (v :: valid) s1')
    as (r & s2 & Hshow & Hpage2 & Hok & Hraise).
  assert (Hpage : page_only st s2).
  { eapply page_only_trans; [exact Hpage1 |].
    eapply page_only_trans; [exact Hpage1' | exact Hpage2]. }
  exists s2. split; [exact Hpage |].
  destruct r as [[] | e].
  - rewrite (bind_returns _ _ _ _ _ Hshow).
    destruct (streamlit_app.generate_clicked i); [| left; now apply Hret].
    destruct (String.eqb (streamlit_app.prompt i) ""); [left; now apply Hret |].
    right. now repeat split.
  - rewrite (bind_raises _ _ _ _ _ Hshow). left. exists (Raise e).
    split; [reflexivity |]. split; [exact Hok | exact Hraise].
Qed.
End GeneratorMain.



(** An upload that passes validation and is no image ends [main] at its
    preview. *)
Example preview_of_a_file_that_is_no_image :
  streamlit_app.main (sample.world [])
    {| streamlit_app.api_key_input := "sk-test";
       streamlit_app.env_api_key := None;
       streamlit_app.uploaded_files := [sample.notes_png];
       streamlit_app.prompt := "draw";
       streamlit_app.generate_clicked := true |} sample.st0
  = (Raise (Exc UnidentifiedImageError
              "cannot identify image file <_io.BytesIO object at 0x7f2b4c1d3a40>"),
     {| fs := ∅; tmp_seq := 0; registered := 0; temp_files := [];
        trace := [ st_success "✅ notes.png - File is valid";
                   st_subheader "📷 Uploaded Images" ] |}).
Proof. reflexivity. Qed.

(** X9: whatever is uploaded, [main] of the generator sends to the file
    endpoint only bytes of uploads that passed validation: a prefix of the
    valid uploads, in upload order, each once. *)
Theorem generator_main_registers_only_valid_uploads
        (w : World) (i : streamlit_app.inputs) (st : state) :
  exists k,
    registrations (trace (snd (streamlit_app.main w i st)))
    = registrations (trace st)
      ++ map getvalue
           (take k (List.filter (fun f => fst (validate_image_file (Some f)))
                                (streamlit_app.uploaded_files i))).
Proof.
  unfold streamlit_app.main.
  destruct (String.eqb
              (resolve_api_key (streamlit_app.api_key_input i)
                               (streamlit_app.env_api_key i)) "").
  { exists 0. cbn. now rewrite !registrations_app, !app_nil_r. }
  destruct (generator_content_area_runs w i st)
    as (s0 & Hpage & [(r & Hrun & _) | (_ & _ & _ & Hrun)]);
    rewrite Hrun; destruct (page_only_network _ _ Hpage) as (_ & Hreg & _).
  - exists 0. cbn [snd take map]. now rewrite app_nil_r.
  - destruct (generate_registrations w
                (List.filter is_valid_upload (streamlit_app.uploaded_files i))
                (streamlit_app.prompt i) s0) as [k Hk].
    exists k. now rewrite Hk, Hreg.
Qed.

(** ** How the handlers fail *)

Section HandlerFailures.
Variable w : World.

(** The generator's handler from the end of its body's run. *)
Lemma generate_ends (f : UploadedFile) (rest : list UploadedFile) (prompt : string)
      (st : state) rb sb :
  String.eqb prompt "" = false ->
  streamlit_app.generate_body w (f :: rest) prompt (set_temp_files [] st) = (rb, sb) ->
  exists deleted st',
    streamlit_app.generate w (f :: rest) prompt st = (absorbed rb, st')
    /\ length deleted = length (temp_files sb)
    /\ trace st' = trace sb ++ zip_with unlink_call (temp_files sb) deleted ++ reported rb.
Proof.
  intros Hprompt Hbody. unfold streamlit_app.generate. rewrite Hprompt.
  exact (guarded_runs w _ st rb sb Hbody).
Qed.

Lemma masked_generate_ends (base mask : UploadedFile)
      (prompt quality out : string) (st : state) rb sb :
  String.eqb prompt "" = false ->
  image_masking_streamlit.generate_body w base mask prompt quality out
    (set_temp_files [] st) = (rb, sb) ->
  exists deleted st',
    image_masking_streamlit.generate w (Some base) (Some mask) prompt quality out st
    = (absorbed rb, st')
    /\ length deleted = length (temp_files sb)
    /\ trace st' = trace sb ++ zip_with unlink_call (temp_files sb) deleted ++ reported rb.
Proof.
  intros Hprompt Hbody. unfold image_masking_streamlit.generate. rewrite Hprompt.
  exact (guarded_runs w _ st rb sb Hbody).
Qed.

(** The display loop up to a result that does not decode or cannot be
    shown. *)
Lemma show_images_stops (good later : list output_item) (bad : output_item)
      (images : list bytes) (e : exn) (i : nat) (st : state) :
  Forall2 (fun o image => b64decode_result (result o) = Ret image) good images ->
  Forall (fun image => st_image_error w image = None) images ->
  b64decode_result (result bad) = Raise e
  \/ (exists image, b64decode_result (result bad) = Ret image
                    /\ st_image_error w image = Some e) ->
  exists st',
    streamlit_app.show_images w i (map result (good ++ bad :: later)) st = (Raise e, st')
    /\ trace st' = trace st ++ generator_shows i images
    /\ temp_files st' = temp_files st.
Proof.
  intros Hgood Hshown Hbad. revert i st.
  induction Hgood as [| o image good images Ho _ IH]; intros i st.
  - cbn [app map streamlit_app.show_images generator_shows].
    unfold bind, lift_outcome, show_image, raise.
    destruct Hbad as [-> | (image & -> & ->)]; exists st; now rewrite app_nil_r.
  - apply Forall_cons_iff in Hshown as [Himage Hshown]. specialize (IH Hshown).
    cbn [app map streamlit_app.show_images generator_shows].
    unfold bind at 1, lift_outcome. rewrite Ho.
    unfold show_image. rewrite Himage.
    unfold bind, emit, modify. cbn [fst snd].
    match goal with |- context [streamlit_app.show_images w (S i) _ ?s] =>
      destruct (IH (S i) s) as (st' & Hrun & Htr & Htf)
    end.
    exists st'. rewrite Hrun. split; [reflexivity |].
    cbn in Htr, Htf. split; [| assumption].
    rewrite Htr, <- !app_assoc. reflexivity.
Qed.
End HandlerFailures.

(** X10: when an upload cannot be saved, encoded or registered, the
    generator sends no generation request: the handler makes one delete
    attempt for each temporary file it has remembered, shows the error with
    the exception's own message, and returns normally (an exception outside
    [Exception] goes on to the caller). *)
Theorem failed_upload_sends_no_request
        (w : World) (uploaded_file : UploadedFile) (rest : list UploadedFile)
        (prompt : string) (st st1 : state) (e : exn) :
  String.eqb prompt "" = false ->
  streamlit_app.process_uploads w (uploaded_file :: rest) [] [] (set_temp_files [] st)
  = (Raise e, st1) ->
  exists deleted st',
    streamlit_app.generate w (uploaded_file :: rest) prompt st = (absorbed (Raise e), st')
    /\ length deleted = length (temp_files st1)
    /\ trace st'
       = trace st1 ++ zip_with unlink_call (temp_files st1) deleted ++ reported (Raise e)
    /\ requests_made (trace st') = requests_made (trace st).
Proof.
  intros Hprompt Hup.
  assert (Hbody : streamlit_app.generate_body w (uploaded_file :: rest) prompt
                    (set_temp_files [] st) = (Raise e, st1))
    by (unfold streamlit_app.generate_body; now rewrite (bind_raises _ _ _ _ _ Hup)).
  destruct (generate_ends w _ _ _ _ _ _ Hprompt Hbody)
    as (deleted & st' & Hrun & Hlen & Htr).
  exists deleted, st'. split; [exact Hrun |]. split; [exact Hlen |].
  split; [exact Htr |].
  rewrite Htr, !requests_made_app, requests_made_unlinks, requests_made_reported,
    !app_nil_r.
  pose proof (silent_process_uploads w (uploaded_file :: rest) [] []
                (set_temp_files [] st)) as Hq.
  now rewrite Hup in Hq.
Qed.

Lemma failed_upload_sends_no_request_witness :
  exists deleted st',
    streamlit_app.generate sample_failures.second_registration_fails
      [sample.cat_png; sample.mask_jpg] "draw" sample.st0 = (Ret tt, st')
    /\ length deleted = 2
    /\ trace st'
       = [ files_create_call (getvalue sample.cat_png) "vision";
           files_create_call (getvalue sample.mask_jpg) "vision" ]
         ++ zip_with unlink_call ["/tmp/tmpn0.png"; "/tmp/tmpn1.jpg"] deleted
         ++ [ st_error "❌ Error: upload limit reached";
              st_exception (Exc APIError "upload limit reached") ]
    /\ requests_made (trace st') = [].
Proof.
  exact (failed_upload_sends_no_request sample_failures.second_registration_fails
           sample.cat_png [sample.mask_jpg] "draw" sample.st0
           (snd (streamlit_app.process_uploads sample_failures.second_registration_fails
                   [sample.cat_png; sample.mask_jpg] [] []
                   (set_temp_files [] sample.st0)))
           (Exc APIError "upload limit reached")
           ltac:(reflexivity) ltac:(vm_compute; reflexivity)).
Defined.

(** X11: when the generation call itself raises, neither app shows an
    image or a success line: after the request comes one delete attempt for
    each remembered temporary file and then the error with the exception's
    own message. *)
Theorem failed_generation_is_reported
        (w : World) (prompt : string) (st st1 : state) (e : exn) :
  String.eqb prompt "" = false ->
  (forall uploaded_file rest base64_images file_ids,
      let req := streamlit_app.compose_request
                   (streamlit_app.compose_content prompt base64_images file_ids) in
      streamlit_app.process_uploads w (uploaded_file :: rest) [] []
        (set_temp_files [] st) = (Ret (base64_images, file_ids), st1) ->
      responses_create w req = Raise e ->
      exists deleted st',
        streamlit_app.generate w (uploaded_file :: rest) prompt st
        = (absorbed (Raise e), st')
        /\ length deleted = length (temp_files st1)
        /\ trace st'
           = trace st1
             ++ responses_create_call req
                :: zip_with unlink_call (temp_files st1) deleted
             ++ reported (Raise e))
  /\ (forall base mask quality output_filename file_ids,
         let req := image_masking_streamlit.compose_request prompt
                      (fst file_ids) (snd file_ids) quality in
         image_masking_streamlit.register_images w base mask (set_temp_files [] st)
         = (Ret file_ids, st1) ->
         responses_create w req = Raise e ->
         exists deleted st',
           image_masking_streamlit.generate w (Some base) (Some mask) prompt quality
             output_filename st = (absorbed (Raise e), st')
           /\ length deleted = length (temp_files st1)
           /\ trace st'
              = trace st1
                ++ responses_create_call req
                   :: zip_with unlink_call (temp_files st1) deleted
                ++ reported (Raise e)).
Proof.
  intros Hprompt. split.
  - intros f rest b64s ids req Hup Hresp.
    destruct (process_uploads_returns w _ _ _ _ _ _ _ Hup)
      as (_ & _ & _ & _ & _ & Hclient).
    specialize (Hclient ltac:(discriminate)).
    pose proof (generate_body_uploaded w _ prompt _ _ _ _ Hup Hclient) as Hbody.
    cbv zeta in Hbody. fold req in Hbody.
    unfold bind at 1, lift_outcome in Hbody. rewrite Hresp in Hbody.
    destruct (generate_ends w _ _ _ _ _ _ Hprompt Hbody)
      as (deleted & st' & Hrun & Hlen & Htr).
    exists deleted, st'. split; [exact Hrun |]. split; [exact Hlen |].
    rewrite Htr. cbn. now rewrite <- app_assoc.
  - intros base mask quality out ids req Hreg Hresp.
    destruct ids as [id1 id2].
    destruct (register_images_returns w _ _ _ _ _ _ Hreg) as (Hclient & _).
    pose proof (masked_body_registered w _ _ prompt quality out _ _ _ Hreg Hclient)
      as Hbody.
    cbv zeta in Hbody. fold req in Hbody.
    unfold bind at 1, lift_outcome in Hbody. rewrite Hresp in Hbody.
    destruct (masked_generate_ends w _ _ _ _ _ _ _ _ Hprompt Hbody)
      as (deleted & st' & Hrun & Hlen & Htr).
    exists deleted, st'. split; [exact Hrun |]. split; [exact Hlen |].
    rewrite Htr. cbn. now rewrite <- app_assoc.
Qed.

Lemma failed_generation_is_reported_witness :
  exists deleted st',
    streamlit_app.generate sample.failing_world [sample.cat_png] "draw" sample.st0
    = (Ret tt, st')
    /\ length deleted = 1
    /\ trace st'
       = [files_create_call (getvalue sample.cat_png) "vision"]
         ++ responses_create_call
              (streamlit_app.compose_request
                 (streamlit_app.compose_content "draw" [sample.black_pixel_b64] ["file-0"]))
            :: zip_with unlink_call ["/tmp/tmpn0.png"] deleted
         ++ [ st_error "❌ Error: rate limit reached";
              st_exception (Exc APIError "rate limit reached") ].
Proof.
  exact (proj1 (failed_generation_is_reported sample.failing_world "draw" sample.st0
                  (snd (streamlit_app.process_uploads sample.failing_world
                          [sample.cat_png] [] [] (set_temp_files [] sample.st0)))
                  (Exc APIError "rate limit reached") ltac:(reflexivity))
               sample.cat_png [] [sample.black_pixel_b64] ["file-0"]
               ltac:(vm_compute; reflexivity) ltac:(reflexivity)).
Defined.

(** X12: the generator announces success before it decodes anything.  When
    the result of one image generation call does not decode, or decodes to
    bytes that [st.image] cannot show, the success line and the images and
    download buttons of the calls before it stay on the page, the later
    calls are not looked at, and after one delete attempt for each
    remembered temporary file the error is reported. *)
Theorem bad_result_stops_the_display
        (w : World) (uploaded_file : UploadedFile) (rest : list UploadedFile)
        (prompt : string) (st st1 : state) (base64_images file_ids : list string)
        (resp : response) (good later : list output_item) (bad : output_item)
        (images : list bytes) (e : exn) :
  let req := streamlit_app.compose_request
               (streamlit_app.compose_content prompt base64_images file_ids) in
  String.eqb prompt "" = false ->
  streamlit_app.process_uploads w (uploaded_file :: rest) [] [] (set_temp_files [] st)
  = (Ret (base64_images, file_ids), st1) ->
  responses_create w req = Ret resp ->
  image_generation_calls resp = good ++ bad :: later ->
  Forall2 (fun o image => b64decode_result (result o) = Ret image) good images ->
  Forall (fun image => st_image_error w image = None) images ->
  b64decode_result (result bad) = Raise e
  \/ (exists image, b64decode_result (result bad) = Ret image
                    /\ st_image_error w image = Some e) ->
  exists deleted st',
    streamlit_app.generate w (uploaded_file :: rest) prompt st = (absorbed (Raise e), st')
    /\ length deleted = length (temp_files st1)
    /\ trace st'
       = trace st1
         ++ [ responses_create_call req;
              st_success "✅ Image generated successfully!";
              st_subheader "🎨 Generated Images" ]
         ++ generator_shows 0 images
         ++ zip_with unlink_call (temp_files st1) deleted
         ++ reported (Raise e).
Proof.
  intros req Hprompt Hup Hresp Hcalls Hgood Hshown Hbad.
  destruct (process_uploads_returns w _ _ _ _ _ _ _ Hup) as (_ & _ & _ & _ & _ & Hclient).
  specialize (Hclient ltac:(discriminate)).
  pose proof (generate_body_uploaded w _ prompt _ _ _ _ Hup Hclient) as Hbody.
  cbv zeta in Hbody. fold req in Hbody.
  unfold bind at 1, lift_outcome in Hbody. rewrite Hresp in Hbody.
  unfold streamlit_app.present_response in Hbody. rewrite Hcalls in Hbody.
  assert (Hshape : exists d ds, map result (good ++ bad :: later) = d :: ds)
    by (destruct good; cbn; eauto).
  destruct Hshape as (d & ds & Hshape). rewrite Hshape in Hbody. rewrite <- Hshape in Hbody.
  unfold bind at 1, emit at 1, modify in Hbody.
  unfold bind at 1, emit at 1, modify in Hbody.
  match type of Hbody with _ = streamlit_app.show_images w 0 _ ?s =>
    destruct (show_images_stops w good later bad images e 0 s Hgood Hshown Hbad)
      as (sb & Hshow & Htr & Htf)
  end.
  rewrite Hshow in Hbody.
  destruct (generate_ends w _ _ _ _ _ _ Hprompt Hbody)
    as (deleted & st' & Hrun & Hlen & Htr').
  exists deleted, st'. split; [exact Hrun |].
  split; [now rewrite Hlen, Htf |].
  rewrite Htr', Htr, Htf. cbn. now rewrite <- !app_assoc.
Qed.

Lemma bad_result_stops_the_display_witness :
  exists deleted st',
    streamlit_app.generate
      (sample.world [sample.image_call sample.black_pixel_b64; sample.image_call "Zm9v";
                     sample.image_call sample.white_pixel_b64])
      [sample.cat_png] "draw" sample.st0 = (Ret tt, st')
    /\ length deleted = 1
    /\ trace st'
       = [files_create_call (getvalue sample.cat_png) "vision"]
         ++ [ responses_create_call
                (streamlit_app.compose_request
                   (streamlit_app.compose_content "draw" [sample.black_pixel_b64]
                      ["file-0"]));
              st_success "✅ Image generated successfully!";
              st_subheader "🎨 Generated Images" ]
         ++ generator_shows 0 [sample.black_pixel]
         ++ zip_with unlink_call ["/tmp/tmpn0.png"] deleted
         ++ [ st_error
                "❌ Error: cannot identify image file <_io.BytesIO object at 0x7f2b4c1d3a40>";
              st_exception
                (Exc UnidentifiedImageError
                   "cannot identify image file <_io.BytesIO object at 0x7f2b4c1d3a40>") ].
Proof.
  exact (bad_result_stops_the_display
           (sample.world [sample.image_call sample.black_pixel_b64;
                          sample.image_call "Zm9v";
                          sample.image_call sample.white_pixel_b64])
           sample.cat_png [] "draw" sample.st0
           (snd (streamlit_app.process_uploads (sample.world [])
                   [sample.cat_png] [] [] (set_temp_files [] sample.st0)))
           [sample.black_pixel_b64] ["file-0"]
           {| output := [sample.image_call sample.black_pixel_b64;
                         sample.image_call "Zm9v";
                         sample.image_call sample.white_pixel_b64];
              output_content := None |}
           [sample.image_call sample.black_pixel_b64]
           [sample.image_call sample.white_pixel_b64] (sample.image_call "Zm9v")
           [sample.black_pixel]
           (Exc UnidentifiedImageError
              "cannot identify image file <_io.BytesIO object at 0x7f2b4c1d3a40>")
           ltac:(reflexivity) ltac:(vm_compute; reflexivity) ltac:(reflexivity)
           ltac:(reflexivity) ltac:(repeat constructor; vm_compute; reflexivity)
           ltac:(repeat constructor)
           ltac:(right; exists (list_byte_of_string "foo"); split; reflexivity)).
Defined.

(** The same run when the second result is no base64 text. *)
Example undecodable_result_is_reported :
  let run := streamlit_app.generate
               (sample.world [sample.image_call sample.black_pixel_b64;
                              sample.image_call "Zm9vY"])
               [sample.cat_png] "draw" sample.st0 in
  fst run = Ret tt
  /\ images_shown (trace (snd run)) = [sample.black_pixel]
  /\ drop 7 (trace (snd run))
     = [ st_error "❌ Error: Invalid base64-encoded string: number of data characters (5) cannot be 1 more than a multiple of 4";
         st_exception
           (Exc BinasciiError
              "Invalid base64-encoded string: number of data characters (5) cannot be 1 more than a multiple of 4") ].
Proof. vm_compute. repeat split. Qed.

Section MaskedFailures.
Variable w : World.

(** The masked edit's handler from the run of [show_first] on the first
    result. *)
Lemma masked_generate_shows (base mask : UploadedFile)
      (prompt quality out : string) (st st1 : state) (file_ids : string * string)
      (resp : response) (first : output_item) (others : list output_item) rb sb :
  let req := image_masking_streamlit.compose_request prompt
               (fst file_ids) (snd file_ids) quality in
  String.eqb prompt "" = false ->
  image_masking_streamlit.register_images w base mask (set_temp_files [] st)
  = (Ret file_ids, st1) ->
  responses_create w req = Ret resp ->
  image_generation_calls resp = first :: others ->
  image_masking_streamlit.show_first w (result first) out
    (snd (emit (responses_create_call req) st1)) = (rb, sb) ->
  exists deleted st',
    image_masking_streamlit.generate w (Some base) (Some mask) prompt quality out st
    = (absorbed rb, st')
    /\ length deleted = length (temp_files sb)
    /\ trace st' = trace sb ++ zip_with unlink_call (temp_files sb) deleted ++ reported rb
    /\ fs st' = fs (snd (cleanup w sb)).
Proof.
  intros req Hprompt Hreg Hresp Hcalls Hshow.
  destruct file_ids as [id1 id2].
  destruct (register_images_returns w _ _ _ _ _ _ Hreg) as (Hclient & _).
  pose proof (masked_body_registered w _ _ prompt quality out _ _ _ Hreg Hclient)
    as Hbody.
  cbv zeta in Hbody. fold req in Hbody.
  unfold bind at 1, lift_outcome in Hbody. rewrite Hresp in Hbody.
  unfold image_masking_streamlit.present_response in Hbody.
  rewrite Hcalls in Hbody. cbn [map] in Hbody. rewrite Hshow in Hbody.
  destruct (masked_generate_ends w _ _ _ _ _ _ _ _ Hprompt Hbody)
    as (deleted & st' & Hrun & Hlen & Htr).
  exists deleted, st'. split; [exact Hrun |]. split; [exact Hlen |].
  split; [exact Htr |].
  pose proof (guarded_final w
                (image_masking_streamlit.generate_body w base mask prompt quality out) st)
    as Hfinal.
  cbv zeta in Hfinal. rewrite Hbody in Hfinal. cbn [snd] in Hfinal.
  unfold image_masking_streamlit.generate in Hrun. rewrite Hprompt in Hrun.
  change (try_except _ report_exception)
    with (guarded w (image_masking_streamlit.generate_body w base mask prompt
                       quality out)) in Hrun.
  rewrite Hrun in Hfinal. now destruct Hfinal.
Qed.
End MaskedFailures.

(** X13: the masked edit announces success before it decodes the result.
    When the first result does not decode, or decodes to bytes that
    [st.image] cannot show, the success line stays on the page, no image is
    shown, nothing is offered or written, and after one delete attempt for
    each of the two temporary files the error is reported. *)
Theorem masked_edit_bad_result
        (w : World) (base mask : UploadedFile) (prompt quality output_filename : string)
        (st st1 : state) (file_ids : string * string) (resp : response)
        (first : output_item) (others : list output_item) (e : exn) :
  let req := image_masking_streamlit.compose_request prompt
               (fst file_ids) (snd file_ids) quality in
  String.eqb prompt "" = false ->
  image_masking_streamlit.register_images w base mask (set_temp_files [] st)
  = (Ret file_ids, st1) ->
  responses_create w req = Ret resp ->
  image_generation_calls resp = first :: others ->
  b64decode_result (result first) = Raise e
  \/ (exists image, b64decode_result (result first) = Ret image
                    /\ st_image_error w image = Some e) ->
  exists deleted st',
    image_masking_streamlit.generate w (Some base) (Some mask) prompt quality
      output_filename st = (absorbed (Raise e), st')
    /\ length deleted = 2
    /\ length (temp_files st1) = 2
    /\ trace st'
       = trace st1
         ++ [ responses_create_call req;
              st_success "✅ Masked image generated successfully!";
              st_subheader "🎨 Generated Masked Image" ]
         ++ zip_with unlink_call (temp_files st1) deleted
         ++ reported (Raise e).
Proof.
  intros req Hprompt Hreg Hresp Hcalls Hbad.
  eassert (Hshow : image_masking_streamlit.show_first w (result first) output_filename
                     (snd (emit (responses_create_call req) st1)) = (Raise e, _)).
  { unfold image_masking_streamlit.show_first, show_image, bind, emit, modify,
      lift_outcome, raise.
    cbn [fst snd]. destruct Hbad as [-> | (image & -> & ->)]; reflexivity. }
  destruct (masked_generate_shows w _ _ _ _ output_filename _ _ _ _ _ _ _ _
              Hprompt Hreg Hresp Hcalls Hshow) as (deleted & st' & Hrun & Hlen & Htr & Hfs).
  assert (Htwo : length (temp_files st1) = 2).
  { destruct file_ids as [id1 id2].
    destruct (register_images_returns w _ _ _ _ _ _ Hreg)
      as (_ & _ & _ & p1 & p2 & _ & Htf).
    rewrite Htf. reflexivity. }
  exists deleted, st'. split; [exact Hrun |].
  split; [cbn in Hlen; now rewrite Hlen |].
  split; [exact Htwo |].
  rewrite Htr. cbn. now rewrite <- !app_assoc.
Qed.

Lemma masked_edit_bad_result_witness :
  exists deleted st',
    image_masking_streamlit.generate (sample.world [sample.image_call "Zm9"])
      (Some sample.cat_png) (Some sample.mask_jpg) "add a red balloon" "high"
      "masked_image.png" sample.st0 = (Ret tt, st')
    /\ length deleted = 2
    /\ trace st'
       = [ files_create_call (getvalue sample.cat_png) "vision";
           files_create_call (getvalue sample.mask_jpg) "vision" ]
         ++ [ responses_create_call
                (image_masking_streamlit.compose_request "add a red balloon"
                   "file-0" "file-1" "high");
              st_success "✅ Masked image generated successfully!";
              st_subheader "🎨 Generated Masked Image" ]
         ++ zip_with unlink_call ["/tmp/tmpn0.png"; "/tmp/tmpn1.jpg"] deleted
         ++ [ st_error "❌ Error: Incorrect padding";
              st_exception (Exc BinasciiError "Incorrect padding") ].
Proof.
  destruct (masked_edit_bad_result (sample.world [sample.image_call "Zm9"])
              sample.cat_png sample.mask_jpg "add a red balloon" "high"
              "masked_image.png" sample.st0
              (snd (image_masking_streamlit.register_images (sample.world [])
                      sample.cat_png sample.mask_jpg (set_temp_files [] sample.st0)))
              ("file-0", "file-1")
              {| output := [sample.image_call "Zm9"]; output_content := None |}
              (sample.image_call "Zm9") [] (Exc BinasciiError "Incorrect padding")
              ltac:(reflexivity) ltac:(vm_compute; reflexivity) ltac:(reflexivity)
              ltac:(reflexivity) ltac:(left; reflexivity))
    as (deleted & st' & Hrun & Hlen & _ & Htr).
  exists deleted, st'. split; [exact Hrun |]. split; [exact Hlen | exact Htr].
Defined.

(** C10: in the masked edit, when the response has entries tagged
    "image_generation_call", the result of the first one alone is decoded,
    shown, offered for download under the output filename and written to
    that file; the run does not depend on the later entries, which leave no
    trace.  This is the run in which the first result decodes to bytes that
    [st.image] can show and the output file can be opened and written; the
    file then holds these bytes, unless its name is the path of one of the
    two temporary files, which are deleted. *)
Theorem masked_edit_uses_first_result_only
        (w : World) (base mask : UploadedFile) (prompt quality output_filename : string)
        (st st1 : state) (file_ids : string * string) (resp : response)
        (first : output_item) (others : list output_item) (image_bytes : bytes) :
  let req := image_masking_streamlit.compose_request prompt
               (fst file_ids) (snd file_ids) quality in
  String.eqb prompt "" = false ->
  image_masking_streamlit.register_images w base mask (set_temp_files [] st)
  = (Ret file_ids, st1) ->
  responses_create w req = Ret resp ->
  image_generation_calls resp = first :: others ->
  b64decode_result (result first) = Ret image_bytes ->
  st_image_error w image_bytes = None ->
  String.eqb output_filename "" = false ->
  open_error w output_filename = None ->
  write_error w output_filename image_bytes = None ->
  exists deleted st',
    image_masking_streamlit.generate w (Some base) (Some mask) prompt quality
      output_filename st = (Ret tt, st')
    /\ length deleted = length (temp_files st1)
    /\ trace st'
       = trace st1
         ++ [ responses_create_call req;
              st_success "✅ Masked image generated successfully!";
              st_subheader "🎨 Generated Masked Image";
              st_image image_bytes "Generated Masked Image";
              st_download_button "📥 Download Masked Image" image_bytes
                output_filename "image/png";
              open_write output_filename image_bytes;
              st_info ("💾 Image also saved as: " +:+ output_filename) ]
         ++ zip_with unlink_call (temp_files st1) deleted
    /\ (~ In output_filename (temp_files st1) ->
        fs st' !! output_filename = Some image_bytes).
Proof.
  intros req Hprompt Hreg Hresp Hcalls Hdec Hshown Hname Hopen Hwrite.
  destruct (show_first_returns w (result first) image_bytes output_filename
              (snd (emit (responses_create_call req) st1))
              Hdec Hshown Hname Hopen Hwrite) as (sb & Hshow & Hfsb & Htrb & Htf).
  destruct (masked_generate_shows w _ _ _ _ output_filename _ _ _ _ _ _ _ _
              Hprompt Hreg Hresp Hcalls Hshow)
    as (deleted & st' & Hrun & Hlen & Htr & Hfs).
  exists deleted, st'. split; [exact Hrun |].
  split; [now rewrite Hlen, Htf |].
  split.
  - rewrite Htr, Htrb, Htf. cbn. now rewrite app_nil_r, <- !app_assoc.
  - intros Hout. rewrite Hfs.
    destruct (unlink_loop_fs w (temp_files sb) sb) as (Hkeep & _).
    cbv zeta in Hkeep.
    change (cleanup w sb) with (bind get (fun s => for_each (temp_files s)
              (fun temp_file => try_except (os_unlink w temp_file)
                                           (fun _ => Some (ret tt)))) sb).
    unfold bind, get. cbn [fst snd].
    rewrite Hkeep by (rewrite Htf; exact Hout).
    rewrite Hfsb. apply lookup_insert_eq.
Qed.

Lemma masked_edit_uses_first_result_only_witness :
  exists deleted st',
    image_masking_streamlit.generate
      (sample.world [sample.text_message; sample.image_call sample.black_pixel_b64;
                     sample.image_call sample.white_pixel_b64])
      (Some sample.cat_png) (Some sample.mask_jpg) "add a red balloon" "high"
      "masked_image.png" sample.st0 = (Ret tt, st')
    /\ length deleted = 2
    /\ trace st'
       = [ files_create_call (getvalue sample.cat_png) "vision";
           files_create_call (getvalue sample.mask_jpg) "vision" ]
         ++ [ responses_create_call
                (image_masking_streamlit.compose_request "add a red balloon"
                   "file-0" "file-1" "high");
              st_success "✅ Masked image generated successfully!";
              st_subheader "🎨 Generated Masked Image";
              st_image sample.black_pixel "Generated Masked Image";
              st_download_button "📥 Download Masked Image" sample.black_pixel
                "masked_image.png" "image/png";
              open_write "masked_image.png" sample.black_pixel;
              st_info ("💾 Image also saved as: " +:+ "masked_image.png") ]
         ++ zip_with unlink_call ["/tmp/tmpn0.png"; "/tmp/tmpn1.jpg"] deleted
    /\ (~ In "masked_image.png" ["/tmp/tmpn0.png"; "/tmp/tmpn1.jpg"] ->
        fs st' !! "masked_image.png" = Some sample.black_pixel).
Proof.
  exact (masked_edit_uses_first_result_only
           (sample.world [sample.text_message; sample.image_call sample.black_pixel_b64;
                          sample.image_call sample.white_pixel_b64])
           sample.cat_png sample.mask_jpg "add a red balloon" "high"
           "masked_image.png" sample.st0
           (snd (image_masking_streamlit.register_images (sample.world [])
                   sample.cat_png sample.mask_jpg (set_temp_files [] sample.st0)))
           ("file-0", "file-1")
           {| output := [sample.text_message; sample.image_call sample.black_pixel_b64;
                         sample.image_call sample.white_pixel_b64];
              output_content := None |}
           (sample.image_call sample.black_pixel_b64)
           [sample.image_call sample.white_pixel_b64] sample.black_pixel
           ltac:(reflexivity) ltac:(vm_compute; reflexivity) ltac:(reflexivity)
           ltac:(reflexivity) ltac:(vm_compute; reflexivity) ltac:(reflexivity)
           ltac:(reflexivity) ltac:(reflexivity) ltac:(reflexivity)).
Defined.

(** X14: when the output file cannot be written (an empty filename, [open]
    refusing the name, or the write failing), the masked edit has already
    shown the image and offered the download; after one delete attempt for
    each of the two temporary files it reports the error of [open] or of
    the write, shows no "saved" line, and returns normally for an
    [Exception]. *)
Theorem masked_edit_unwritable_output
        (w : World) (base mask : UploadedFile) (prompt quality output_filename : string)
        (st st1 : state) (file_ids : string * string) (resp : response)
        (first : output_item) (others : list output_item) (image_bytes : bytes)
        (err : exn) :
  let req := image_masking_streamlit.compose_request prompt
               (fst file_ids) (snd file_ids) quality in
  String.eqb prompt "" = false ->
  image_masking_streamlit.register_images w base mask (set_temp_files [] st)
  = (Ret file_ids, st1) ->
  responses_create w req = Ret resp ->
  image_generation_calls resp = first :: others ->
  b64decode_result (result first) = Ret image_bytes ->
  st_image_error w image_bytes = None ->
  (output_filename = ""
   /\ err = Exc FileNotFoundError "[Errno 2] No such file or directory: ''")
  \/ (output_filename <> "" /\ open_error w output_filename = Some err)
  \/ (output_filename <> "" /\ open_error w output_filename = None
      /\ exists written, write_error w output_filename image_bytes = Some (err, written)) ->
  exists deleted st',
    image_masking_streamlit.generate w (Some base) (Some mask) prompt quality
      output_filename st = (absorbed (Raise err), st')
    /\ length deleted = length (temp_files st1)
    /\ trace st'
       = trace st1
         ++ [ responses_create_call req;
              st_success "✅ Masked image generated successfully!";
              st_subheader "🎨 Generated Masked Image";
              st_image image_bytes "Generated Masked Image";
              st_download_button "📥 Download Masked Image" image_bytes
                output_filename "image/png" ]
         ++ zip_with unlink_call (temp_files st1) deleted
         ++ reported (Raise err).
Proof.
  intros req Hprompt Hreg Hresp Hcalls Hdec Himage Hfail.
  assert (Hshow : exists sb,
             image_masking_streamlit.show_first w (result first) output_filename
               (snd (emit (responses_create_call req) st1)) = (Raise err, sb)
             /\ temp_files sb = temp_files st1
             /\ trace sb
                = trace st1
                  ++ [ responses_create_call req;
                       st_success "✅ Masked image generated successfully!";
                       st_subheader "🎨 Generated Masked Image";
                       st_image image_bytes "Generated Masked Image";
                       st_download_button "📥 Download Masked Image" image_bytes
                         output_filename "image/png" ]).
  { unfold image_masking_streamlit.show_first, show_image, write_file, f_write, bind,
      emit, modify, lift_outcome, raise.
    cbn [fst snd]. rewrite Hdec, Himage. cbn [fst snd].
    destruct Hfail as [[-> ->] | [[Hname Hopen] | (Hname & Hopen & written & Hwrite)]].
    - cbn. eexists. split; [reflexivity |]. split; [reflexivity |].
      cbn. now rewrite <- !app_assoc.
    - apply String.eqb_neq in Hname. rewrite Hname, Hopen.
      eexists. split; [reflexivity |]. split; [reflexivity |].
      cbn. now rewrite <- !app_assoc.
    - apply String.eqb_neq in Hname. rewrite Hname, Hopen, Hwrite.
      eexists. split; [reflexivity |]. split; [reflexivity |].
      cbn. now rewrite <- !app_assoc. }
  destruct Hshow as (sb & Hshow & Htf & Htrb).
  destruct (masked_generate_shows w _ _ _ _ output_filename _ _ _ _ _ _ _ _
              Hprompt Hreg Hresp Hcalls Hshow) as (deleted & st' & Hrun & Hlen & Htr & _).
  exists deleted, st'. split; [exact Hrun |].
  split; [now rewrite Hlen, Htf |].
  rewrite Htr, Htrb, Htf. now rewrite <- !app_assoc.
Qed.

Lemma masked_edit_unwritable_output_witness :
  exists deleted st',
    image_masking_streamlit.generate
      (sample.world [sample.image_call sample.black_pixel_b64])
      (Some sample.cat_png) (Some sample.mask_jpg) "add a red balloon" "high"
      "" sample.st0 = (Ret tt, st')
    /\ length deleted = 2
    /\ trace st'
       = [ files_create_call (getvalue sample.cat_png) "vision";
           files_create_call (getvalue sample.mask_jpg) "vision" ]
         ++ [ responses_create_call
                (image_masking_streamlit.compose_request "add a red balloon"
                   "file-0" "file-1" "high");
              st_success "✅ Masked image generated successfully!";
              st_subheader "🎨 Generated Masked Image";
              st_image sample.black_pixel "Generated Masked Image";
              st_download_button "📥 Download Masked Image" sample.black_pixel
                "" "image/png" ]
         ++ zip_with unlink_call ["/tmp/tmpn0.png"; "/tmp/tmpn1.jpg"] deleted
         ++ [ st_error "❌ Error: [Errno 2] No such file or directory: ''";
              st_exception
                (Exc FileNotFoundError "[Errno 2] No such file or directory: ''") ].
Proof.
  exact (masked_edit_unwritable_output
           (sample.world [sample.image_call sample.black_pixel_b64])
           sample.cat_png sample.mask_jpg "add a red balloon" "high" "" sample.st0
           (snd (image_masking_streamlit.register_images (sample.world [])
                   sample.cat_png sample.mask_jpg (set_temp_files [] sample.st0)))
           ("file-0", "file-1")
           {| output := [sample.image_call sample.black_pixel_b64];
              output_content := None |}
           (sample.image_call sample.black_pixel_b64) [] sample.black_pixel
           (Exc FileNotFoundError "[Errno 2] No such file or directory: ''")
           ltac:(reflexivity) ltac:(vm_compute; reflexivity) ltac:(reflexivity)
           ltac:(reflexivity) ltac:(vm_compute; reflexivity) ltac:(reflexivity)
           ltac:(left; split; reflexivity)).
Defined.

(** X15: after a masked edit in which the first result decodes to bytes
    that [st.image] can show and the output file opens and is written, the
    output file holds the decoded image, provided its name is not the path
    of one of the two temporary files (those are deleted, whatever they
    hold). *)
Theorem masked_edit_saves_the_image
        (w : World) (base mask : UploadedFile) (prompt quality output_filename : string)
        (st st1 : state) (file_ids : string * string) (resp : response)
        (first : output_item) (others : list output_item) (image_bytes : bytes) :
  let req := image_masking_streamlit.compose_request prompt
               (fst file_ids) (snd file_ids) quality in
  String.eqb prompt "" = false ->
  image_masking_streamlit.register_images w base mask (set_temp_files [] st)
  = (Ret file_ids, st1) ->
  responses_create w req = Ret resp ->
  image_generation_calls resp = first :: others ->
  b64decode_result (result first) = Ret image_bytes ->
  st_image_error w image_bytes = None ->
  String.eqb output_filename "" = false ->
  open_error w output_filename = None ->
  write_error w output_filename image_bytes = None ->
  ~ In output_filename (temp_files st1) ->
  fs (snd (image_masking_streamlit.generate w (Some base) (Some mask) prompt quality
             output_filename st)) !! output_filename = Some image_bytes.
Proof.
  intros req Hprompt Hreg Hresp Hcalls Hdec Himage Hname Hopen Hwrite Hout.
  match goal with |- context [image_masking_streamlit.generate _ _ _ _ _ _ ?s] =>
    destruct (show_first_returns w (result first) image_bytes output_filename
                (snd (emit (responses_create_call req) st1))
                Hdec Himage Hname Hopen Hwrite) as (sb & Hshow & Hfsb & _ & Htf)
  end.
  destruct (masked_generate_shows w _ _ _ _ output_filename _ _ _ _ _ _ _ _
              Hprompt Hreg Hresp Hcalls Hshow) as (deleted & st' & Hrun & _ & _ & Hfs).
  rewrite Hrun. cbn [snd]. rewrite Hfs.
  destruct (unlink_loop_fs w (temp_files sb) sb) as (Hkeep & _).
  cbv zeta in Hkeep.
  change (cleanup w sb) with (bind get (fun s => for_each (temp_files s)
            (fun temp_file => try_except (os_unlink w temp_file)
                                         (fun _ => Some (ret tt)))) sb).
  unfold bind, get. cbn [fst snd].
  rewrite Hkeep by (rewrite Htf; exact Hout).
  rewrite Hfsb. apply lookup_insert_eq.
Qed.

Lemma masked_edit_saves_the_image_witness :
  fs (snd (image_masking_streamlit.generate
             (sample.world [sample.image_call sample.black_pixel_b64;
                            sample.image_call sample.white_pixel_b64])
             (Some sample.cat_png) (Some sample.mask_jpg) "add a red balloon" "high"
             "masked_image.png" sample.st0)) !! "masked_image.png"
  = Some sample.black_pixel.
Proof.
  exact (masked_edit_saves_the_image
           (sample.world [sample.image_call sample.black_pixel_b64;
                          sample.image_call sample.white_pixel_b64])
           sample.cat_png sample.mask_jpg "add a red balloon" "high"
           "masked_image.png" sample.st0
           (snd (image_masking_streamlit.register_images (sample.world [])
                   sample.cat_png sample.mask_jpg (set_temp_files [] sample.st0)))
           ("file-0", "file-1")
           {| output := [sample.image_call sample.black_pixel_b64;
                         sample.image_call sample.white_pixel_b64];
              output_content := None |}
           (sample.image_call sample.black_pixel_b64)
           [sample.image_call sample.white_pixel_b64] sample.black_pixel
           ltac:(reflexivity) ltac:(vm_compute; reflexivity) ltac:(reflexivity)
           ltac:(reflexivity) ltac:(vm_compute; reflexivity) ltac:(reflexivity)
           ltac:(reflexivity) ltac:(reflexivity) ltac:(reflexivity)
           ltac:(vm_compute; intros [H | [H | []]]; discriminate H)).
Defined.

(** ** The masked edit, end to end *)

Section MaskedRuns.
Variable w : World.

Lemma save_uploaded_file_trace (f : UploadedFile) (st : state) :
  trace (snd (save_uploaded_file w f st)) = trace st.
Proof.
  rewrite save_uploaded_file_runs.
  destruct (mkstemp_inner w (fs st) ("." +:+ extension f) (tmp_seq st) (TMP_MAX w))
    as [[file | e] seq']; [| reflexivity].
  now destruct (write_error w file (getvalue f)) as [[e written] |].
Qed.

(** The start of the masked edit, however it ends: it has registered the
    base image's bytes, then the mask's, or only the first, or nothing. *)
Lemma register_images_runs (base mask : UploadedFile) (st : state) r s1 :
  image_masking_streamlit.register_images w base mask st = (r, s1) ->
  exists k, trace s1 = trace st ++ map registration_of (take k [base; mask]).
Proof.
  unfold image_masking_streamlit.register_images. intros Hrun.
  unfold bind at 1 in Hrun.
  pose proof (save_uploaded_file_trace base st) as Htr1.
  destruct (save_uploaded_file w base st) as [[p1 | e] s1a] eqn:Hsave1; cbn [snd] in Htr1.
  2:{ injection Hrun as <- <-. exists 0. cbn. now rewrite app_nil_r. }
  apply save_uploaded_file_returns in Hsave1 as (_ & _ & Hfs1 & _).
  set (s1b := set_temp_files (temp_files s1a ++ [p1]) s1a).
  rewrite (bind_returns (temp_files_append p1) _ s1a tt s1b eq_refl) in Hrun.
  unfold bind at 1 in Hrun.
  pose proof (save_uploaded_file_trace mask s1b) as Htr2.
  destruct (save_uploaded_file w mask s1b) as [[p2 | e] s2a] eqn:Hsave2; cbn [snd] in Htr2.
  2:{ injection Hrun as <- <-. exists 0. cbn. now rewrite app_nil_r, Htr2. }
  apply save_uploaded_file_returns in Hsave2 as (Hfree2 & _ & Hfs2 & _).
  cbn in Hfree2, Hfs2, Htr2.
  set (s2b := set_temp_files (temp_files s2a ++ [p2]) s2a).
  rewrite (bind_returns (temp_files_append p2) _ s2a tt s2b eq_refl) in Hrun.
  assert (Hne : p1 <> p2).
  { intros <-. rewrite Hfs1, lookup_insert_eq in Hfree2. discriminate. }
  assert (Hfile1 : fs s2b !! p1 = Some (getvalue base)).
  { cbn. rewrite Hfs2, lookup_insert_ne, Hfs1 by congruence. apply lookup_insert_eq. }
  assert (Hfile2 : fs s2b !! p2 = Some (getvalue mask))
    by (cbn; rewrite Hfs2; apply lookup_insert_eq).
  assert (Htrace : trace s2b = trace st) by (cbn; congruence).
  unfold bind at 1 in Hrun. rewrite (create_file_runs w p1 _ s2b Hfile1) in Hrun.
  destruct (client_error w) as [e |] eqn:Hclient.
  { injection Hrun as <- <-. exists 0. cbn [take map]. now rewrite app_nil_r. }
  destruct (files_create w (registered s2b) (getvalue base)) as [id1 | e].
  2:{ injection Hrun as <- <-. exists 1. cbn [take map]. cbn. now rewrite Htr2, Htr1. }
  unfold bind at 1 in Hrun.
  match type of Hrun with context [create_file w p2 ?s] =>
    rewrite (create_file_runs w p2 (getvalue mask) s Hfile2) in Hrun
  end.
  rewrite Hclient in Hrun.
  exists 2. cbn [take map].
  destruct (files_create w _ (getvalue mask)) as [id2 | e];
    injection Hrun as <- <-; cbn; now rewrite Htr2, Htr1, <- app_assoc.
Qed.

Lemma masked_present_registrations (r : response) (out : string) (s : state) :
  registrations (trace (snd (image_masking_streamlit.present_response w r out s)))
  = registrations (trace s).
Proof.
  unfold image_masking_streamlit.present_response.
  destruct (map result (image_generation_calls r)) as [| d ds].
  - now apply page_only_network, quiet_report_no_image.
  - unfold image_masking_streamlit.show_first, show_image, write_file, f_write, bind,
      emit, modify, lift_outcome, raise.
    cbn [fst snd].
    destruct (b64decode_result d) as [image | e]; cbn [fst snd];
      [| cbn; now rewrite !registrations_app, !app_nil_r].
    destruct (st_image_error w image); cbn [fst snd];
      [cbn; now rewrite !registrations_app, !app_nil_r |].
    destruct (String.eqb out ""); cbn [fst snd];
      [cbn; now rewrite !registrations_app, !app_nil_r |].
    destruct (open_error w out); cbn [fst snd];
      [cbn; now rewrite !registrations_app, !app_nil_r |].
    destruct (write_error w out image) as [[e written] |]; cbn;
      now rewrite !registrations_app, !app_nil_r.
Qed.

Lemma masked_generate_registrations (base mask : option UploadedFile)
      (prompt quality out : string) (st : state) :
  registrations (trace (snd (image_masking_streamlit.generate w base mask prompt
                               quality out st)))
  = registrations (trace st)
  \/ exists b m k,
       base = Some b /\ mask = Some m
       /\ registrations (trace (snd (image_masking_streamlit.generate w base mask
                                       prompt quality out st)))
          = registrations (trace st) ++ map getvalue (take k [b; m]).
Proof.
  unfold image_masking_streamlit.generate.
  destruct base as [b |]; [| left; cbn; now rewrite registrations_app, app_nil_r].
  destruct mask as [m |]; [| left; cbn; now rewrite registrations_app, app_nil_r].
  destruct (String.eqb prompt "");
    [left; cbn; now rewrite registrations_app, app_nil_r |].
  right. exists b, m.
  change (try_except _ report_exception)
    with (guarded w (image_masking_streamlit.generate_body w b m prompt quality out)).
  rewrite guarded_registrations.
  unfold image_masking_streamlit.generate_body. unfold bind at 1.
  destruct (image_masking_streamlit.register_images w b m (set_temp_files [] st))
    as [[ids | e] s1] eqn:Hreg;
    destruct (register_images_runs _ _ _ _ _ Hreg) as [k Htr]; exists k;
    cbn in Htr.
  2:{ cbn [snd]. rewrite Htr, registrations_app, registrations_uploads.
      repeat split. }
  repeat split.
  unfold get_openai_client, bind at 1.
  destruct (client_error w) as [e |];
    [cbn [raise snd]; now rewrite Htr, registrations_app, registrations_uploads |].
  cbn [ret]. unfold bind at 1, emit, modify. unfold bind, lift_outcome.
  destruct (responses_create w _) as [resp | e]; cbn [snd].
  - rewrite masked_present_registrations. cbn.
    now rewrite registrations_app, app_nil_r, Htr, registrations_app,
      registrations_uploads.
  - cbn. now rewrite registrations_app, app_nil_r, Htr, registrations_app,
      registrations_uploads.
Qed.

Lemma quiet_check_upload (label : string) (image : option UploadedFile) :
  quiet (image_masking_streamlit.check_upload w label image).
Proof.
  unfold image_masking_streamlit.check_upload.
  destruct image as [f |]; [| apply quiet_ret].
  destruct (validate_image_file (Some f)) as [[|] message]; hush.
  apply quiet_show_image.
Qed.

(** One upload widget: it only writes to the page; it raises what
    [st.image] raises on a valid upload, and answers [true] only for no
    upload or a valid one. *)
Lemma check_upload_runs (label : string) (image : option UploadedFile) (st : state) :
  exists r st',
    image_masking_streamlit.check_upload w label image st = (r, st')
    /\ page_only st st'
    /\ (r = Ret true -> forall f, image = Some f -> is_valid_upload f = true)
    /\ (forall e, r = Raise e ->
                  exists f, image = Some f /\ is_valid_upload f = true
                            /\ st_image_error w (getvalue f) = Some e)
    /\ ((forall f, image = Some f -> is_valid_upload f = true ->
                   st_image_error w (getvalue f) = None) ->
        exists ok, r = Ret ok).
Proof.
  pose proof (quiet_check_upload label image st) as Hpage. revert Hpage.
  unfold image_masking_streamlit.check_upload, is_valid_upload, show_image.
  destruct image as [f |].
  - destruct (validate_image_file (Some f)) as [is_valid message] eqn:Hv. cbn [fst].
    destruct is_valid.
    + unfold bind at 1, emit at 1, modify. unfold bind at 1.
      destruct (st_image_error w (getvalue f)) as [e |] eqn:Himage; intros Hpage.
      * eexists (Raise e), _. split; [reflexivity |]. split; [exact Hpage |].
        split; [discriminate |]. split.
        -- intros e' [= <-]. exists f. rewrite Hv. now repeat split.
        -- intros Hok. rewrite (Hok f eq_refl) in Himage; [discriminate |].
           now rewrite Hv.
      * eexists (Ret true), _. split; [reflexivity |]. split; [exact Hpage |].
        split; [intros _ g [= <-]; now rewrite Hv |].
        split; [discriminate | now eauto].
    + intros Hpage. eexists (Ret false), _. split; [reflexivity |].
      split; [exact Hpage |]. split; [discriminate |].
      split; [discriminate | now eauto].
  - intros Hpage. exists (Ret true), st. split; [reflexivity |]. split; [exact Hpage |].
    split; [discriminate |]. split; [discriminate | now eauto].
Qed.

(** The content area of the masked edit either only writes to the page, up
    to the end of the two previews, or writes to the page and then runs the
    handler on a base image and a mask that both passed validation, after a
    click and with a prompt. *)
Lemma masked_content_area_runs (i : image_masking_streamlit.inputs) (st : state) :
  let shown f := image_masking_streamlit.base_image i = Some f
                 \/ image_masking_streamlit.mask_image i = Some f in
  exists s0,
    page_only st s0
    /\ ((exists r,
           image_masking_streamlit.content_area w i st = (r, s0)
           /\ ((forall f, shown f -> is_valid_upload f = true ->
                          st_image_error w (getvalue f) = None) -> r = Ret tt)
           /\ (forall e, r = Raise e ->
                         exists f, shown f /\ is_valid_upload f = true
                                   /\ st_image_error w (getvalue f) = Some e))
        \/ exists base mask,
             image_masking_streamlit.base_image i = Some base
             /\ image_masking_streamlit.mask_image i = Some mask
             /\ is_valid_upload base = true /\ is_valid_upload mask = true
             /\ image_masking_streamlit.generate_clicked i = true
             /\ String.eqb (image_masking_streamlit.prompt i) "" = false
             /\ image_masking_streamlit.content_area w i st
                = image_masking_streamlit.generate w (Some base) (Some mask)
                    (image_masking_streamlit.prompt i)
                    (image_masking_streamlit.quality_value
                       (image_masking_streamlit.quality_selected i))
                    (image_masking_streamlit.output_filename i) s0).
Proof.
  intros shown.
  assert (Hret : forall s0 : state,
            exists r : outcome unit,
              (Ret tt, s0) = (r, s0)
              /\ ((forall f, shown f -> is_valid_upload f = true ->
                             st_image_error w (getvalue f) = None) -> r = Ret tt)
              /\ (forall e, r = Raise e ->
                            exists f, shown f /\ is_valid_upload f = true
                                      /\ st_image_error w (getvalue f) = Some e)).
  { intros s0. exists (Ret tt). split; [reflexivity |].
    split; [reflexivity | discriminate]. }
  unfold image_masking_streamlit.content_area.
  pose proof (quiet_emit (st_subheader "🖼️ Base Image") eq_refl st) as Hp0.
  set (s0 := snd (emit (st_subheader "🖼️ Base Image") st)) in *.
  rewrite (bind_returns (emit (st_subheader "🖼️ Base Image")) _ st tt s0 eq_refl).
  destruct (check_upload_runs "Base" (image_masking_streamlit.base_image i) s0)
    as (r1 & s1 & Hrun1 & Hp1 & Hvalid1 & Hraise1 & Hok1).
  destruct r1 as [ok1 | e1].
  2:{ rewrite (bind_raises _ _ _ _ _ Hrun1). exists s1.
      split; [eapply page_only_trans; eassumption |]. left. exists (Raise e1).
      split; [reflexivity |]. split.
      - intros Hall. destruct Hok1 as [ok Hok]; [| discriminate].
        intros f Hf. apply Hall. now left.
      - intros e [= <-]. destruct (Hraise1 e1 eq_refl) as (f & Hf & Hv & Hi).
        exists f. split; [now left | now split]. }
  rewrite (bind_returns _ _ _ _ _ Hrun1).
  destruct ok1; cbn [negb].
  2:{ exists s1. split; [eapply page_only_trans; eassumption | left; apply Hret]. }
  pose proof (quiet_emit (st_subheader "🎭 Mask Image") eq_refl s1) as Hp1'.
  set (s1' := snd (emit (st_subheader "🎭 Mask Image") s1)) in *.
  rewrite (bind_returns (emit (st_subheader "🎭 Mask Image")) _ s1 tt s1' eq_refl).
  destruct (check_upload_runs "Mask" (image_masking_streamlit.mask_image i) s1')
    as (r2 & s2 & Hrun2 & Hp2 & Hvalid2 & Hraise2 & Hok2).
  assert (Hpage : page_only st s2).
  { eapply page_only_trans; [exact Hp0 |].
    eapply page_only_trans; [exact Hp1 |].
    eapply page_only_trans; [exact Hp1' | exact Hp2]. }
  exists s2. split; [exact Hpage |].
  destruct r2 as [ok2 | e2].
  2:{ rewrite (bind_raises _ _ _ _ _ Hrun2). left. exists (Raise e2).
      split; [reflexivity |]. split.
      - intros Hall. destruct Hok2 as [ok Hok]; [| discriminate].
        intros f Hf. apply Hall. now right.
      - intros e [= <-]. destruct (Hraise2 e2 eq_refl) as (f & Hf & Hv & Hi).
        exists f. split; [now right | now split]. }
  rewrite (bind_returns _ _ _ _ _ Hrun2).
  destruct ok2; cbn [negb]; [| left; apply Hret].
  specialize (Hvalid1 eq_refl). specialize (Hvalid2 eq_refl).
  destruct (image_masking_streamlit.generate_clicked i); cbn [andb];
    [| left; apply Hret].
  destruct (image_masking_streamlit.base_image i) as [base |]; [| left; apply Hret].
  destruct (image_masking_streamlit.mask_image i) as [mask |]; [| left; apply Hret].
  destruct (String.eqb (image_masking_streamlit.prompt i) "") eqn:Hprompt;
    cbn [negb]; [left; apply Hret |].
  right. exists base, mask. repeat split; auto.
Qed.
End MaskedRuns.



(** A base image that passes validation and is no image ends [main] after
    its success line. *)
Example base_image_that_is_no_image :
  image_masking_streamlit.main (sample.world [])
    {| image_masking_streamlit.api_key_input := "sk-test";
       image_masking_streamlit.env_api_key := None;
       image_masking_streamlit.quality_selected := image_masking_streamlit.high;
       image_masking_streamlit.base_image := Some sample.notes_png;
       image_masking_streamlit.mask_image := None;
       image_masking_streamlit.prompt := "add a red balloon";
       image_masking_streamlit.output_filename := "masked_image.png";
       image_masking_streamlit.generate_clicked := false |} sample.st0
  = (Raise (Exc UnidentifiedImageError
              "cannot identify image file <_io.BytesIO object at 0x7f2b4c1d3a40>"),
     {| fs := ∅; tmp_seq := 0; registered := 0; temp_files := [];
        trace := [ st_subheader "🖼️ Base Image";
                   st_success "✅ Base image: File is valid" ] |}).
Proof. reflexivity. Qed.

(** X17: whatever is uploaded, [main] of the masked edit sends to the file
    endpoint either nothing, or the bytes of the base image, or those of the
    base image and then of the mask; and it sends anything only when both
    images passed validation. *)
Theorem masked_main_registers_base_then_mask
        (w : World) (i : image_masking_streamlit.inputs) (st : state) :
  registrations (trace (snd (image_masking_streamlit.main w i st)))
  = registrations (trace st)
  \/ exists base mask k,
       image_masking_streamlit.base_image i = Some base
       /\ image_masking_streamlit.mask_image i = Some mask
       /\ fst (validate_image_file (Some base)) = true
       /\ fst (validate_image_file (Some mask)) = true
       /\ registrations (trace (snd (image_masking_streamlit.main w i st)))
          = registrations (trace st) ++ map getvalue (take k [base; mask]).
Proof.
  unfold image_masking_streamlit.main.
  destruct (String.eqb
              (resolve_api_key (image_masking_streamlit.api_key_input i)
                               (image_masking_streamlit.env_api_key i)) "").
  { left. cbn. now rewrite !registrations_app, !app_nil_r. }
  destruct (masked_content_area_runs w i st)
    as (s0 & Hpage
        & [(r & Hrun & _) | (base & mask & Hb & Hm & Hvb & Hvm & _ & _ & Hrun)]);
    rewrite Hrun; destruct (page_only_network _ _ Hpage) as (_ & Hreg & _).
  { now left. }
  destruct (masked_generate_registrations w (Some base) (Some mask)
              (image_masking_streamlit.prompt i)
              (image_masking_streamlit.quality_value
                 (image_masking_streamlit.quality_selected i))
              (image_masking_streamlit.output_filename i) s0)
    as [Hsame | (b & m & k & [= <-] & [= <-] & Hk)].
  - left. now rewrite Hsame.
  - right. exists base, mask, k. rewrite Hk, Hreg. now repeat split.
Qed.

(** ** The dependency check of the launchers *)

(** X18: when every required package imports or raises [ImportError],
    [check_dependencies] goes through all four packages: it returns [True]
    and prints nothing when none is missing, and otherwise returns [False]
    after printing the heading, one line per missing package in the order
    streamlit, openai, requests, PIL, and the install hint. *)
Theorem check_dependencies_reports_all_missing
        (w : launcher.World) (t : list launcher.event) :
  (forall p, In p ["streamlit"; "openai"; "requests"; "PIL"] ->
             launcher.import_ w p = None
             \/ exists msg, launcher.import_ w p = Some (Exc ImportError msg)) ->
  let missing := List.filter (not_imported w) ["streamlit"; "openai"; "requests"; "PIL"] in
  launcher.check_dependencies w t
  = (Ret (match missing with [] => true | _ :: _ => false end),
     t ++ missing_report missing).
Proof.
  intros Himp missing. unfold launcher.check_dependencies.
  rewrite (bind_returns _ _ _ _ _
             (find_missing_returns w launcher.required_packages [] t Himp)).
  cbn [app]. change (List.filter (not_imported w) launcher.required_packages) with missing.
  destruct missing as [| m ms]; [cbn; now rewrite app_nil_r |].
  unfold bind at 1, launcher.emit at 1, modify.
  rewrite (bind_returns _ _ _ _ _ (prints_return (fun p => "   - " +:+ p) (m :: ms) _)).
  unfold bind, launcher.emit, modify, ret. cbn [fst snd].
  f_equal. unfold missing_report. cbn [map app]. now rewrite <- !app_assoc.
Qed.

Lemma check_dependencies_reports_all_missing_witness :
  launcher.check_dependencies sample_launchers.two_missing []
  = (Ret false,
     [ launcher.print "❌ Missing required packages:";
       launcher.print "   - openai";
       launcher.print "   - PIL";
       launcher.print "
📦 Install dependencies with:";
       launcher.print "   pip install -r requirements.txt" ]).
Proof.
  apply (check_dependencies_reports_all_missing sample_launchers.two_missing []).
  intros p Hp. cbn in Hp.
  destruct Hp as [<- | [<- | [<- | [<- | []]]]];
    [left | right; eexists | left | right; eexists]; reflexivity.
Defined.

Section ImportFailures.
Variable w : launcher.World.

(** The loop stops at the first import that raises something else than
    [ImportError]. *)
Lemma find_missing_raises (before after : list string) (package : string) (e : exn)
      (missing_packages : list string) (t : list launcher.event) :
  importable w before ->
  launcher.import_ w package = Some e ->
  is_ImportError e = false ->
  launcher.find_missing w (before ++ package :: after) missing_packages t = (Raise e, t).
Proof.
  intros Himp Hpkg He. revert missing_packages.
  induction before as [| p before IH]; intros acc; cbn [app launcher.find_missing].
  - now rewrite Hpkg, He.
  - assert (Hrest : importable w before) by (intros q Hq; apply Himp; now right).
    destruct (Himp p ltac:(now left)) as [-> | [msg ->]]; cbn [is_ImportError];
      now apply IH.
Qed.

Lemma launcher_main_import_raises (banner : list string) (script port : string)
      (before after : list string) (package : string) (e : exn) :
  launcher.required_packages = before ++ package :: after ->
  importable w before ->
  launcher.import_ w package = Some e ->
  is_ImportError e = false ->
  launcher.launcher_main w banner script port []
  = (Raise e, map launcher.print banner).
Proof.
  intros Hreq Himp Hpkg He. unfold launcher.launcher_main.
  rewrite (bind_returns _ _ _ _ _ (prints_return (fun l => l) banner [])).
  unfold launcher.check_dependencies. rewrite Hreq.
  unfold bind at 1. unfold bind at 1.
  rewrite (find_missing_raises before after package e [] _ Himp Hpkg He).
  reflexivity.
Qed.
End ImportFailures.

(** X19: [check_dependencies] only catches [ImportError].  When importing a
    required package raises another exception (and the packages before it
    import or raise [ImportError]), the exception leaves both launchers
    right after the banner: no missing-package report is printed and the
    server is not started. *)
Theorem launchers_let_other_import_errors_through
        (w : launcher.World) (before after : list string) (package : string)
        (e : exn) :
  ["streamlit"; "openai"; "requests"; "PIL"] = before ++ package :: after ->
  (forall p, In p before ->
             launcher.import_ w p = None
             \/ exists msg, launcher.import_ w p = Some (Exc ImportError msg)) ->
  launcher.import_ w package = Some e ->
  is_ImportError e = false ->
  launcher.run_image_generator.main w []
  = (Raise e,
     [ launcher.print "🎨 AI Image Generator - GPT-4 Vision";
       launcher.print (str_mul "=" 50);
       launcher.print "Generate images using multiple reference images and GPT-4 Vision";
       launcher.print "" ])
  /\ launcher.mask_runner.main w []
     = (Raise e,
        [ launcher.print "🎭 AI Image Masking - GPT-4 Vision";
          launcher.print (str_mul "=" 50);
          launcher.print "Generate new content in masked areas of your images";
          launcher.print "using GPT-4 Vision with image masking capabilities";
          launcher.print "" ]).
Proof.
  intros Hreq Himp Hpkg He.
  split; [unfold launcher.run_image_generator.main | unfold launcher.mask_runner.main];
    now rewrite (launcher_main_import_raises w _ _ _ before after package e Hreq
                   Himp Hpkg He).
Qed.

Lemma launchers_let_other_import_errors_through_witness :
  fst (launcher.mask_runner.main sample_launchers.broken_requests [])
  = Raise (Exc RuntimeError "urllib3 is broken").
Proof.
  exact (f_equal fst
           (proj2 (launchers_let_other_import_errors_through
                     sample_launchers.broken_requests
                     ["streamlit"; "openai"] ["PIL"] "requests"
                     (Exc RuntimeError "urllib3 is broken")
                     ltac:(reflexivity)
                     ltac:(intros p Hp; left; cbn in Hp;
                           destruct Hp as [<- | [<- | []]]; reflexivity)
                     ltac:(reflexivity) ltac:(reflexivity)))).
Defined.

(** ** The script [OpenAI.py] *)

Section ScriptFacts.
Import OpenAI_script.
Variable w : World.

(** The second [try] never lets an [Exception] out, and only a completed
    download changes a file. *)
Lemma process_response_runs (response : edit_response) (st : state) :
  (forall e, first_url response = Raise e -> is_Exception e = true) ->
  (forall e, import_requests w = Some e -> is_Exception e = true) ->
  (forall url e, requests_get w url = Raise e -> is_Exception e = true) ->
  exists st',
    process_response w response st = (Ret tt, st')
    /\ (fs st' = fs st
        \/ exists url content,
             first_url response = Ret url /\ import_requests w = None
             /\ requests_get w url = Ret content
             /\ open_error w "generated_image.png" = None
             /\ fs st' = <["generated_image.png" := content]> (fs st)
             /\ out st'
                = out st
                  ++ [ print ("Generated image URL: " +:+ url);
                       requests_get_call url;
                       open_write "generated_image.png" content;
                       print "Generated image saved as generated_image.png" ]).
Proof.
  intros Hurl Himport Hget.
  unfold process_response, try_except, bind, lift_outcome, emit, modify, write_file,
    raise, ret.
  destruct (first_url response) as [url | e] eqn:Hfirst; cbn [fst snd].
  2:{ rewrite (Hurl e eq_refl). eexists. split; [reflexivity | now left]. }
  destruct (import_requests w) as [e |] eqn:Himp; cbn [fst snd].
  { rewrite (Himport e eq_refl). eexists. split; [reflexivity | now left]. }
  destruct (requests_get w url) as [content | e] eqn:Hcontent; cbn [fst snd].
  2:{ rewrite (Hget url e Hcontent). eexists. split; [reflexivity | now left]. }
  destruct (open_error w "generated_image.png") as [[cls msg] |] eqn:Hwrite;
    cbn [fst snd is_Exception].
  { eexists. split; [reflexivity | now left]. }
  eexists. split; [reflexivity |]. right. exists url, content.
  cbn. rewrite <- !app_assoc. now repeat split.
Qed.

(** The first [try]: it returns the response, or exits with status 1 after
    one line, without touching a file. *)
Lemma send_request_runs (image_path prompt : string) (st : state) :
  (forall image e, image_create_edit w image prompt = Raise e -> is_Exception e = true) ->
  exists st',
    fs st' = fs st
    /\ ((exists image response,
           fs st !! image_path = Some image
           /\ image_create_edit w image prompt = Ret response
           /\ send_request w image_path prompt st = (Ret response, st')
           /\ out st' = out st ++ [create_edit_call image prompt 1 "1024x1024"])
        \/ ((fs st !! image_path = None
             \/ exists image e, fs st !! image_path = Some image
                                /\ image_create_edit w image prompt = Raise e)
            /\ send_request w image_path prompt st = (Raise (SystemExit 1), st'))).
Proof.
  intros Hedit.
  unfold send_request, try_except, bind, read_file, lift_outcome, emit, modify,
    raise, ret.
  destruct (fs st !! image_path) as [image |] eqn:Hfile; cbn [fst snd is_Exception].
  2:{ eexists. split; [| right; split; [now left | reflexivity]]. reflexivity. }
  destruct (image_create_edit w image prompt) as [response | e] eqn:Hcall;
    cbn [fst snd].
  - eexists. split; [| left; exists image, response; now repeat split]. reflexivity.
  - rewrite (Hedit image e Hcall). eexists.
    split; [| right; split; [right; now exists image, e | reflexivity]]. reflexivity.
Qed.
End ScriptFacts.

(** X20: as long as the libraries raise nothing outside [Exception], the
    script ends with exit status 1 exactly when there is no key, or the image
    file cannot be opened, or the edit request raises; in every other run the
    status is 0, also when the download or the write fails.  With status 1
    no file has been touched. *)
Theorem script_exit_status
        (w : OpenAI_script.World) (image_path prompt api_key : string)
        (st : OpenAI_script.state) :
  OpenAI_script.only_Exceptions w ->
  let run := OpenAI_script.script w image_path prompt api_key st in
  let no_request :=
    api_key = ""
    \/ OpenAI_script.fs st !! image_path = None
    \/ exists image e,
         OpenAI_script.fs st !! image_path = Some image
         /\ OpenAI_script.image_create_edit w image prompt = Raise e in
  (no_request -> launcher.exit_status (fst run) = 1%Z
                 /\ OpenAI_script.fs (snd run) = OpenAI_script.fs st)
  /\ (~ no_request -> launcher.exit_status (fst run) = 0%Z).
Proof.
  intros (Hedit & Hurl & Himport & Hget) run no_request. subst run no_request.
  unfold OpenAI_script.script.
  destruct (String.eqb_spec api_key "") as [-> | Hkey].
  { split; [intros _; now split | intros H; destruct H; now left]. }
  destruct (send_request_runs w image_path prompt st (fun image => Hedit image prompt))
    as (s1 & Hfs1 & [(image & response & Hfile & Hcall & Hrun & _) | [Hfail Hrun]]).
  - rewrite (bind_returns _ _ _ _ _ Hrun).
    destruct (process_response_runs w response s1
                (fun e => Hurl image prompt response e Hcall) Himport Hget)
      as (s2 & Hproc & _).
    rewrite Hproc. split; [| reflexivity].
    intros [Hk | [Hnone | (image' & e & Hfile' & Hraise)]]; [contradiction | congruence |].
    congruence.
  - rewrite (bind_raises _ _ _ _ _ Hrun). split; [intros _; now split |].
    intros H. exfalso. apply H. right. exact Hfail.
Qed.

Lemma sample_world_only_Exceptions :
  OpenAI_script.only_Exceptions OpenAI_script.sample_world.
Proof.
  split; [| split; [| split]].
  - intros image prompt e H. discriminate H.
  - intros image prompt r e H1 H2. cbn in H1. injection H1 as <-. discriminate H2.
  - intros e H. discriminate H.
  - intros url e H. discriminate H.
Defined.

Lemma script_exit_status_witness :
  launcher.exit_status
    (fst (OpenAI_script.script OpenAI_script.sample_world "missing.png" "a red balloon"
            "sk-test" OpenAI_script.sample_state)) = 1%Z
  /\ OpenAI_script.fs
       (snd (OpenAI_script.script OpenAI_script.sample_world "missing.png"
               "a red balloon" "sk-test" OpenAI_script.sample_state))
     = OpenAI_script.fs OpenAI_script.sample_state.
Proof.
  apply (proj1 (script_exit_status OpenAI_script.sample_world "missing.png"
                  "a red balloon" "sk-test" OpenAI_script.sample_state
                  sample_world_only_Exceptions)).
  right. left. reflexivity.
Defined.

(** X21: with a key, a readable image, an edit that answers with a URL and
    a download that works, the script sends the image and the prompt once
    (one image, 1024x1024), prints the URL, downloads it, writes the bytes to
    generated_image.png, prints the confirmation and ends normally. *)
Theorem script_saves_the_download
        (w : OpenAI_script.World) (image_path prompt api_key url : string)
        (image content : bytes) (response : OpenAI_script.edit_response)
        (st : OpenAI_script.state) :
  String.eqb api_key "" = false ->
  OpenAI_script.fs st !! image_path = Some image ->
  OpenAI_script.image_create_edit w image prompt = Ret response ->
  OpenAI_script.first_url response = Ret url ->
  OpenAI_script.import_requests w = None ->
  OpenAI_script.requests_get w url = Ret content ->
  OpenAI_script.open_error w "generated_image.png" = None ->
  OpenAI_script.script w image_path prompt api_key st
  = (Ret tt,
     {| OpenAI_script.fs := <["generated_image.png" := content]> (OpenAI_script.fs st);
        OpenAI_script.out :=
          OpenAI_script.out st
          ++ [ OpenAI_script.create_edit_call image prompt 1 "1024x1024";
               OpenAI_script.print ("Generated image URL: " +:+ url);
               OpenAI_script.requests_get_call url;
               OpenAI_script.open_write "generated_image.png" content;
               OpenAI_script.print "Generated image saved as generated_image.png" ] |}).
Proof.
  intros Hkey Hfile Hcall Hurl Himport Hget Hwrite.
  unfold OpenAI_script.script, OpenAI_script.send_request,
    OpenAI_script.process_response, OpenAI_script.write_file,
    OpenAI_script.read_file, OpenAI_script.emit,
    try_except, bind, lift_outcome, modify, raise, ret.
  rewrite Hkey, Hfile. cbn [fst snd]. rewrite Hcall. cbn [fst snd].
  rewrite Hurl. cbn [fst snd]. rewrite Himport. cbn [fst snd].
  rewrite Hget. cbn [fst snd]. rewrite Hwrite. cbn.
  now rewrite <- !app_assoc.
Qed.

Lemma script_saves_the_download_witness :
  OpenAI_script.fs
    (snd (OpenAI_script.script OpenAI_script.sample_world "base.png" "a red balloon"
            "sk-test" OpenAI_script.sample_state)) !! "generated_image.png"
  = Some sample.black_pixel.
Proof.
  rewrite (script_saves_the_download OpenAI_script.sample_world "base.png"
             "a red balloon" "sk-test" "https://images.example/1.png"
             sample.white_pixel sample.black_pixel
             {| OpenAI_script.first_url := Ret "https://images.example/1.png" |}
             OpenAI_script.sample_state
             ltac:(reflexivity) ltac:(reflexivity) ltac:(reflexivity)
             ltac:(reflexivity) ltac:(reflexivity) ltac:(reflexivity)
             ltac:(reflexivity)).
  reflexivity.
Defined.

(** X22: once the edit request has answered, a failure of what follows (no
    URL in the response, [requests] missing, the download failing, [open]
    refusing the output file) is only printed: the script prints "Error
    processing response: " with the exception's own message as its last
    line, writes no file, and ends normally. *)
Theorem script_swallows_download_errors
        (w : OpenAI_script.World) (image_path prompt api_key : string)
        (image : bytes) (response : OpenAI_script.edit_response)
        (st : OpenAI_script.state) (cls : exn_class) (msg : string) :
  String.eqb api_key "" = false ->
  OpenAI_script.fs st !! image_path = Some image ->
  OpenAI_script.image_create_edit w image prompt = Ret response ->
  OpenAI_script.first_url response = Raise (Exc cls msg)
  \/ (exists url,
        OpenAI_script.first_url response = Ret url
        /\ (OpenAI_script.import_requests w = Some (Exc cls msg)
            \/ (OpenAI_script.import_requests w = None
                /\ OpenAI_script.requests_get w url = Raise (Exc cls msg))
            \/ (OpenAI_script.import_requests w = None
                /\ (exists content, OpenAI_script.requests_get w url = Ret content)
                /\ OpenAI_script.open_error w "generated_image.png"
                   = Some (cls, msg)))) ->
  let run := OpenAI_script.script w image_path prompt api_key st in
  fst run = Ret tt
  /\ OpenAI_script.fs (snd run) = OpenAI_script.fs st
  /\ exists earlier,
       OpenAI_script.out (snd run)
       = OpenAI_script.out st
         ++ earlier ++ [OpenAI_script.print ("Error processing response: " +:+ msg)].
Proof.
  intros Hkey Hfile Hcall Hfail. cbv zeta.
  unfold OpenAI_script.script, OpenAI_script.send_request,
    OpenAI_script.process_response, OpenAI_script.write_file,
    OpenAI_script.read_file, OpenAI_script.emit,
    try_except, bind, lift_outcome, modify, raise, ret.
  rewrite Hkey, Hfile. cbn [fst snd]. rewrite Hcall. cbn [fst snd].
  destruct Hfail
    as [Hurl | (url & Hurl
                & [Himp | [[Himp Hget] | (Himp & [content Hget] & Hwrite)]])];
    rewrite Hurl; cbn [fst snd is_Exception]; try rewrite Himp;
    cbn [fst snd is_Exception]; try rewrite Hget; cbn [fst snd is_Exception];
    try rewrite Hwrite; cbn;
    (split; [reflexivity |]); (split; [reflexivity |]).
  - eexists [_]. now rewrite <- !app_assoc.
  - eexists [_; _]. now rewrite <- !app_assoc.
  - eexists [_; _; _]. now rewrite <- !app_assoc.
  - eexists [_; _; _]. now rewrite <- !app_assoc.
Qed.

Lemma script_swallows_download_errors_witness :
  let run := OpenAI_script.script OpenAI_script.read_only_world "base.png"
               "a red balloon" "sk-test" OpenAI_script.sample_state in
  fst run = Ret tt
  /\ OpenAI_script.fs (snd run) = OpenAI_script.fs OpenAI_script.sample_state
  /\ exists earlier,
       OpenAI_script.out (snd run)
       = [] ++ earlier
         ++ [OpenAI_script.print
               "Error processing response: [Errno 13] Permission denied: 'generated_image.png'"].
Proof.
  apply (script_swallows_download_errors OpenAI_script.read_only_world "base.png"
           "a red balloon" "sk-test" sample.white_pixel
           {| OpenAI_script.first_url := Ret "https://images.example/1.png" |}
           OpenAI_script.sample_state PermissionError
           "[Errno 13] Permission denied: 'generated_image.png'"
           ltac:(reflexivity) ltac:(reflexivity) ltac:(reflexivity)).
  right. exists "https://images.example/1.png". split; [reflexivity |].
  right. right. split; [reflexivity |]. split; [now eexists | reflexivity].
Defined.

(** The lines of a run in which the image file is missing. *)
Example script_missing_image :
  OpenAI_script.script OpenAI_script.sample_world "missing.png" "a red balloon"
    "sk-test" OpenAI_script.sample_state
  = (Raise (SystemExit 1),
     {| OpenAI_script.fs := OpenAI_script.fs OpenAI_script.sample_state;
        OpenAI_script.out :=
          [OpenAI_script.print
             "Error sending request: [Errno 2] No such file or directory: 'missing.png'"] |}).
Proof. reflexivity. Qed.
